(** * MA-Policy-Feed: the daily digest of press releases and hearings

    A shallow embedding of the two entry points of the repository,

    - [src/main.py]      (RSS press releases and ICS calendars), module [Main];
    - [src/src/main.py]  (the RSS-only variant),                 module [RssOnly];

    together with as much of the Python runtime as the two programs
    lean on: [str] operations, the proleptic Gregorian calendar behind
    [datetime], ISO-8601 formatting and parsing, and exceptions.

    Conventions.
    - A Python [str] is a Rocq [string], read as its UTF-8 bytes.
      [str.strip] removes the ASCII white space of [str.isspace].
    - A [datetime] is the number of microseconds its own wall clock shows
      since 0001-01-01T00:00:00, plus its UTC offset when it is aware.
    - A call that can raise returns a [result]; [try]/[except Exception]
      is a [match] on it.
    - What comes from outside the process (the feeds and calendars behind
      the URLs, dateutil's parser, the system time zone, the tz database,
      the file system) is gathered in the record [World].
    - [print] is taken to succeed: [sys.stderr] escapes what it cannot
      encode, and the line on [sys.stdout] holds a path and a count. *)

From Stdlib Require Import ZArith Lia List Bool Ascii String.
From stdpp Require Import base option list sorting gmap strings.

Local Open Scope Z_scope.

(** ** Exceptions *)

Record exn := Exn { exn_class : string; exn_msg : string }.

Inductive result (A : Type) : Type :=
| Ok (a : A)
| Raise (e : exn).
Arguments Ok {A} a.
Arguments Raise {A} e.

#[global] Instance result_ret : MRet result := fun A a => Ok a.

#[global] Instance result_bind : MBind result := fun A B k r =>
  match r with
  | Ok a => k a
  | Raise e => Raise e
  end.

Definition is_ok {A : Type} (r : result A) : bool :=
  match r with Ok _ => true | Raise _ => false end.

Definition ValueError (msg : string) : exn := Exn "ValueError" msg.
Definition TypeError (msg : string) : exn := Exn "TypeError" msg.
Definition OverflowError (msg : string) : exn := Exn "OverflowError" msg.
Definition AttributeError (msg : string) : exn := Exn "AttributeError" msg.

(** ** Python strings *)

Module PyStr.

Definition chars (s : string) : list ascii := list_ascii_of_string s.
Definition str (l : list ascii) : string := string_of_list_ascii l.

Definition code (c : ascii) : Z := Z.of_N (N_of_ascii c).

(** [str.isspace] on the ASCII range: tab, LF, VT, FF, CR, FS, GS, RS,
    US and the space. *)
Definition is_space (c : ascii) : bool :=
  let n := code c in
  ((9 <=? n) && (n <=? 13)) || ((28 <=? n) && (n <=? 32)).

Fixpoint lstrip_chars (l : list ascii) : list ascii :=
  match l with
  | [] => []
  | c :: l' => if is_space c then lstrip_chars l' else l
  end.

Definition rstrip_chars (l : list ascii) : list ascii :=
  rev (lstrip_chars (rev l)).

(** [s.strip()] *)
Definition strip (s : string) : string :=
  str (rstrip_chars (lstrip_chars (chars s))).

Definition newline : ascii := "010"%char.
Definition space : ascii := " "%char.

(** [s.replace("\n", " ")] *)
Definition replace_newlines (s : string) : string :=
  str (map (fun c => if Ascii.eqb c newline then space else c) (chars s)).

(** Truth value of a [str]. *)
Definition truthy (s : string) : bool :=
  match s with EmptyString => false | String _ _ => true end.

(** [a or b] on strings. *)
Definition or_else (a b : string) : string := if truthy a then a else b.

(** ["\n".join(lines)] *)
Fixpoint join_lines (lines : list string) : string :=
  match lines with
  | [] => EmptyString
  | [l] => l
  | l :: rest => l +:+ String newline (join_lines rest)
  end.

(** Comparison of two strings, code point by code point; a proper prefix
    is smaller. *)
Fixpoint compare_chars (a b : list ascii) : comparison :=
  match a, b with
  | [], [] => Eq
  | [], _ :: _ => Lt
  | _ :: _, [] => Gt
  | x :: a', y :: b' =>
      match code x ?= code y with
      | Eq => compare_chars a' b'
      | c => c
      end
  end.

Definition compare (a b : string) : comparison :=
  compare_chars (chars a) (chars b).

(** [a < b] on strings. *)
Definition ltb (a b : string) : bool :=
  match compare a b with Lt => true | _ => false end.

(** Decimal digits. *)
Definition digit (k : Z) : ascii := ascii_of_N (Z.to_N (48 + k)).

(** The [w] low decimal digits of [n], most significant first. *)
Fixpoint fixed_digits (w : nat) (n : Z) : list ascii :=
  match w with
  | O => []
  | S w' => digit (n / 10 ^ Z.of_nat w' mod 10) :: fixed_digits w' n
  end.

(** Number of decimal digits of a positive number, by fuel. *)
Fixpoint decimal_width (fuel : nat) (n : Z) : nat :=
  match fuel with
  | O => O
  | S f => if n <? 10 then 1%nat else S (decimal_width f (n / 10))
  end.

(** [str(n)] for an integer. *)
Definition decimal (n : Z) : list ascii :=
  let a := Z.abs n in
  let body := fixed_digits (decimal_width (S (Z.to_nat (Z.log2 a))) a) a in
  if n <? 0 then "-"%char :: body else body.

(** ["%0wd" % n] for [n >= 0]: at least [w] digits, padded with zeros. *)
Definition zpad (w : nat) (n : Z) : list ascii :=
  if n <? 10 ^ Z.of_nat w then fixed_digits w n else decimal n.

Definition digit_value (c : ascii) : option Z :=
  let n := code c in
  if (48 <=? n) && (n <=? 57) then Some (n - 48) else None.

(** Value of a non-empty run of ASCII digits. *)
Fixpoint digits_value_from (acc : Z) (l : list ascii) : option Z :=
  match l with
  | [] => Some acc
  | c :: l' =>
      match digit_value c with
      | Some v => digits_value_from (10 * acc + v) l'
      | None => None
      end
  end.

Definition digits_value (l : list ascii) : option Z :=
  match l with
  | [] => None
  | _ => digits_value_from 0 l
  end.

(** [int(s)] for an optionally signed run of digits; other spellings that
    Python accepts (surrounding blanks, underscores) are not needed by the
    callers and raise here. *)
Definition py_int (s : string) : result Z :=
  let bad := Raise (ValueError ("invalid literal for int() with base 10: " +:+ s)) in
  match chars s with
  | "-"%char :: l => match digits_value l with Some v => Ok (- v) | None => bad end
  | "+"%char :: l => match digits_value l with Some v => Ok v | None => bad end
  | l => match digits_value l with Some v => Ok v | None => bad end
  end.

(** [s.endswith(c)] for a one-character suffix. *)
Definition ends_with_char (s : string) (c : ascii) : bool :=
  match rev (chars s) with
  | x :: _ => Ascii.eqb x c
  | [] => false
  end.

(** [s[:-1]] *)
Definition drop_last (s : string) : string :=
  str (removelast (chars s)).

(** [s.lower()] on ASCII letters. *)
Definition lower_char (c : ascii) : ascii :=
  let n := code c in
  if (65 <=? n) && (n <=? 90) then ascii_of_N (Z.to_N (n + 32)) else c.

Definition lower (s : string) : string := str (map lower_char (chars s)).

Fixpoint starts_with (p l : list ascii) : bool :=
  match p, l with
  | [], _ => true
  | _ :: _, [] => false
  | x :: p', y :: l' => Ascii.eqb x y && starts_with p' l'
  end.

Fixpoint occurs_in (p l : list ascii) : bool :=
  starts_with p l ||
  match l with
  | [] => false
  | _ :: l' => occurs_in p l'
  end.

(** [p in s] *)
Definition contains (p s : string) : bool := occurs_in (chars p) (chars s).

End PyStr.

(** ** The proleptic Gregorian calendar of [datetime]

    The helper functions of CPython's [datetime] module, with its names:
    days are numbered from 1 on 0001-01-01. *)

Module Gregorian.

Definition MINYEAR : Z := 1.
Definition MAXYEAR : Z := 9999.
(** [date.max.toordinal()] *)
Definition MAXORDINAL : Z := 3652059.

Definition DAYS_IN_MONTH (month : Z) : Z :=
  match month with
  | 1 => 31 | 2 => 28 | 3 => 31 | 4 => 30 | 5 => 31 | 6 => 30
  | 7 => 31 | 8 => 31 | 9 => 30 | 10 => 31 | 11 => 30 | 12 => 31
  | _ => -1
  end.

Definition DAYS_BEFORE_MONTH (month : Z) : Z :=
  match month with
  | 1 => 0 | 2 => 31 | 3 => 59 | 4 => 90 | 5 => 120 | 6 => 151
  | 7 => 181 | 8 => 212 | 9 => 243 | 10 => 273 | 11 => 304 | 12 => 334
  | _ => -1
  end.

Definition is_leap (year : Z) : bool :=
  (year mod 4 =? 0) && (negb (year mod 100 =? 0) || (year mod 400 =? 0)).

Definition days_before_year (year : Z) : Z :=
  let y := year - 1 in
  y * 365 + y / 4 - y / 100 + y / 400.

Definition days_in_month (year month : Z) : Z :=
  if (month =? 2) && is_leap year then 29 else DAYS_IN_MONTH month.

Definition days_before_month (year month : Z) : Z :=
  DAYS_BEFORE_MONTH month + Z.b2z ((2 <? month) && is_leap year).

Definition ymd2ord (year month day : Z) : Z :=
  days_before_year year + days_before_month year month + day.

Definition DI400Y : Z := 146097.
Definition DI100Y : Z := 36524.
Definition DI4Y : Z := 1461.

(** Second half of [_ord2ymd]: month and day from the zero-based day of
    the year, by an estimate that is corrected when it overshoots. *)
Definition month_day_of (leapyear : bool) (n : Z) : Z * Z :=
  let month := Z.shiftr (n + 50) 5 in
  let preceding := DAYS_BEFORE_MONTH month + Z.b2z ((2 <? month) && leapyear) in
  if n <? preceding then
    let month' := month - 1 in
    let preceding' :=
      preceding - (DAYS_IN_MONTH month' + Z.b2z ((month' =? 2) && leapyear)) in
    (month', n - preceding' + 1)
  else (month, n - preceding + 1).

Definition ord2ymd (ordinal : Z) : Z * Z * Z :=
  let n := ordinal - 1 in
  let n400 := n / DI400Y in
  let n := n mod DI400Y in
  let year := n400 * 400 + 1 in
  let n100 := n / DI100Y in
  let n := n mod DI100Y in
  let n4 := n / DI4Y in
  let n := n mod DI4Y in
  let n1 := n / 365 in
  let n := n mod 365 in
  let year := year + n100 * 100 + n4 * 4 + n1 in
  if (n1 =? 4) || (n100 =? 4) then (year - 1, 12, 31)
  else
    let leapyear := (n1 =? 3) && (negb (n4 =? 24) || (n100 =? 3)) in
    let '(month, day) := month_day_of leapyear n in
    (year, month, day).

(** The dates a [date] object can hold. *)
Definition valid_dateb (y m d : Z) : bool :=
  (MINYEAR <=? y) && (y <=? MAXYEAR) && (1 <=? m) && (m <=? 12)
  && (1 <=? d) && (d <=? days_in_month y m).

Definition valid_date (y m d : Z) : Prop :=
  MINYEAR <= y <= MAXYEAR /\ 1 <= m <= 12 /\ 1 <= d <= days_in_month y m.

(** [date.weekday()]: Monday is 0. *)
Definition weekday (ordinal : Z) : Z := (ordinal + 6) mod 7.

End Gregorian.

(** ** [datetime] *)

Module PyDatetime.
Import Gregorian PyStr.

Definition US_PER_SECOND : Z := 1000000.
Definition US_PER_MINUTE : Z := 60 * US_PER_SECOND.
Definition US_PER_HOUR : Z := 3600 * US_PER_SECOND.
Definition US_PER_DAY : Z := 86400 * US_PER_SECOND.

(** [wall]: microseconds on the object's own clock since the start of day
    1; [utcoffset]: [None] for a naive object, otherwise what
    [tzinfo.utcoffset] answers for it, in microseconds. *)
Record datetime := Datetime { wall : Z; utcoffset : option Z }.

(** A [date] (no time of day), as icalendar returns for a DATE value. *)
Record date := Date { date_year : Z; date_month : Z; date_day : Z }.

(** [timezone.utc] *)
Definition UTC : option Z := Some 0.

Definition toordinal (d : datetime) : Z := wall d / US_PER_DAY + 1.
Definition ymd (d : datetime) : Z * Z * Z := ord2ymd (toordinal d).
Definition hour (d : datetime) : Z := wall d mod US_PER_DAY / US_PER_HOUR.
Definition minute (d : datetime) : Z := wall d mod US_PER_HOUR / US_PER_MINUTE.
Definition second (d : datetime) : Z := wall d mod US_PER_MINUTE / US_PER_SECOND.
Definition microsecond (d : datetime) : Z := wall d mod US_PER_SECOND.

(** The instant on the UTC time line that an aware object denotes (for
    a naive one, its wall clock). *)
Definition instant (d : datetime) : Z :=
  wall d - default 0 (utcoffset d).

(** Whether a wall clock lies between [datetime.min] and [datetime.max]. *)
Definition wall_in_range (w : Z) : bool :=
  (0 <=? w) && (w <? MAXORDINAL * US_PER_DAY).

(** [datetime(year, month, day, hour, minute, second, microsecond, tzinfo)] *)
Definition datetime_new (y m d hh mm ss us : Z) (tz : option Z) : result datetime :=
  if negb ((MINYEAR <=? y) && (y <=? MAXYEAR)) then
    Raise (ValueError ("year " +:+ str (decimal y) +:+ " is out of range"))
  else if negb ((1 <=? m) && (m <=? 12)) then
    Raise (ValueError "month must be in 1..12")
  else if negb ((1 <=? d) && (d <=? days_in_month y m)) then
    Raise (ValueError "day is out of range for month")
  else if negb ((0 <=? hh) && (hh <=? 23)) then
    Raise (ValueError "hour must be in 0..23")
  else if negb ((0 <=? mm) && (mm <=? 59)) then
    Raise (ValueError "minute must be in 0..59")
  else if negb ((0 <=? ss) && (ss <=? 59)) then
    Raise (ValueError "second must be in 0..59")
  else if negb ((0 <=? us) && (us <=? 999999)) then
    Raise (ValueError "microsecond must be in 0..999999")
  else
    Ok (Datetime
          ((ymd2ord y m d - 1) * US_PER_DAY + hh * US_PER_HOUR
           + mm * US_PER_MINUTE + ss * US_PER_SECOND + us) tz).

(** [dt.replace(tzinfo=tz)] *)
Definition replace_tzinfo (d : datetime) (tz : option Z) : datetime :=
  Datetime (wall d) tz.

(** [timedelta(hours=n)] and [timedelta(days=n)], in microseconds. *)
Definition timedelta_hours (n : Z) : Z := n * US_PER_HOUR.
Definition timedelta_days (n : Z) : Z := n * US_PER_DAY.

(** [dt + delta]; the result keeps [dt]'s [tzinfo]. *)
Definition add_timedelta (d : datetime) (delta : Z) : result datetime :=
  let w := wall d + delta in
  if wall_in_range w then Ok (Datetime w (utcoffset d))
  else Raise (OverflowError "date value out of range").

(** [dt - delta] *)
Definition sub_timedelta (d : datetime) (delta : Z) : result datetime :=
  add_timedelta d (- delta).

(** A time zone: its UTC offset (microseconds) as [fromutc] sees it, from
    a UTC wall clock, and as [utcoffset] answers for a wall clock of the
    zone itself. *)
Record tzone := Tzone { offset_at_utc : Z -> Z; offset_at_wall : Z -> Z }.

(** [timezone.utc] as a target zone. *)
Definition utc_zone : tzone := Tzone (fun _ => 0) (fun _ => 0).

(** [dt.astimezone(tz)]. [local] is the system time zone, which Python
    asks when [dt] is naive. *)
Definition astimezone (local target : tzone) (d : datetime) : result datetime :=
  let myoffset :=
    match utcoffset d with
    | Some o => o
    | None => offset_at_wall local (wall d)
    end in
  utc ← sub_timedelta d myoffset;
  let off := offset_at_utc target (wall utc) in
  r ← add_timedelta utc off;
  Ok (Datetime (wall r) (Some off)).

(** Comparison of two datetimes: on the UTC time line when both are
    aware, on the wall clock when both are naive. *)
Definition dt_compare (a b : datetime) : result comparison :=
  match utcoffset a, utcoffset b with
  | Some _, Some _ => Ok (instant a ?= instant b)
  | None, None => Ok (wall a ?= wall b)
  | _, _ => Raise (TypeError "can't compare offset-naive and offset-aware datetimes")
  end.

(** [a >= b] *)
Definition dt_ge (a b : datetime) : result bool :=
  c ← dt_compare a b;
  Ok (match c with Lt => false | _ => true end).

(** [a < b] *)
Definition dt_lt (a b : datetime) : result bool :=
  c ← dt_compare a b;
  Ok (match c with Lt => true | _ => false end).

Definition colon : ascii := ":"%char.
Definition dash : ascii := "-"%char.
Definition plus : ascii := "+"%char.
Definition dot : ascii := "."%char.

(** [_format_offset] *)
Definition format_offset (off : option Z) : list ascii :=
  match off with
  | None => []
  | Some o =>
      let sign := if o <? 0 then dash else plus in
      let a := Z.abs o in
      let hh := a / US_PER_HOUR in
      let mm := a mod US_PER_HOUR / US_PER_MINUTE in
      let ss := a mod US_PER_MINUTE / US_PER_SECOND in
      let us := a mod US_PER_SECOND in
      sign :: zpad 2 hh ++ colon :: zpad 2 mm ++
      (if (ss =? 0) && (us =? 0) then []
       else colon :: zpad 2 ss ++ (if us =? 0 then [] else dot :: zpad 6 us))
  end.

Definition format_date (d : datetime) : list ascii :=
  let '(y, m, dd) := ymd d in
  zpad 4 y ++ dash :: zpad 2 m ++ dash :: zpad 2 dd.

(** The fraction of a second, written only when it is not zero. *)
Definition fraction_chars (us : Z) : list ascii :=
  if us =? 0 then [] else dot :: zpad 6 us.

(** The text [YYYY-MM-DD] of a date. *)
Definition date_text (y m d : Z) : string :=
  str (zpad 4 y ++ dash :: zpad 2 m ++ dash :: zpad 2 d).

(** [dt.isoformat(sep)] *)
Definition isoformat_chars (sep : ascii) (d : datetime) : list ascii :=
  format_date d ++ sep :: zpad 2 (hour d) ++ colon :: zpad 2 (minute d)
  ++ colon :: zpad 2 (second d)
  ++ fraction_chars (microsecond d) ++ format_offset (utcoffset d).

(** [dt.isoformat()] *)
Definition isoformat (d : datetime) : string := str (isoformat_chars "T"%char d).

(** [str(dt)] *)
Definition str_datetime (d : datetime) : string := str (isoformat_chars " "%char d).

(** [dt.strftime("%Y-%m-%d %H:%M")] *)
Definition strftime_ymd_hm (d : datetime) : string :=
  str (format_date d ++ " "%char :: zpad 2 (hour d) ++ colon :: zpad 2 (minute d)).

(** A field of [len] digits at position [pos]. *)
Definition field (l : list ascii) (pos len : nat) : option Z :=
  let seg := take len (drop pos l) in
  if (length seg =? len)%nat then digits_value seg else None.

Definition char_at (l : list ascii) (pos : nat) (c : ascii) : bool :=
  match l !! pos with
  | Some x => Ascii.eqb x c
  | None => false
  end.

(** The optional [.ffffff] after the seconds: the microseconds and what
    follows them. *)
Definition parse_fraction (l : list ascii) : option (Z * list ascii) :=
  match l with
  | c :: _ =>
      if Ascii.eqb c dot then
        us ← field l 1 6; Some (us, drop 7 l)
      else Some (0, l)
  | [] => Some (0, l)
  end.

(** The optional [+HH:MM] or [-HH:MM] that ends the string. *)
Definition parse_offset (l : list ascii) : option (option Z) :=
  match l with
  | [] => Some None
  | c :: _ =>
      if (Ascii.eqb c plus || Ascii.eqb c dash) && (length l =? 6)%nat
         && char_at l 3 colon then
        hh ← field l 1 2;
        mm ← field l 4 2;
        if (hh <=? 23) && (mm <=? 59) then
          let o := hh * US_PER_HOUR + mm * US_PER_MINUTE in
          Some (Some (if Ascii.eqb c dash then - o else o))
        else None
      else None
  end.

Definition parse_iso (l : list ascii) : option (result datetime) :=
  y ← field l 0 4;
  m ← field l 5 2;
  d ← field l 8 2;
  if negb (char_at l 4 dash && char_at l 7 dash) then None
  else if (length l =? 10)%nat then Some (datetime_new y m d 0 0 0 0 None)
  else
    hh ← field l 11 2;
    mm ← field l 14 2;
    ss ← field l 17 2;
    if negb (char_at l 13 colon && char_at l 16 colon) then None
    else
      '(us, rest) ← parse_fraction (drop 19 l);
      tz ← parse_offset rest;
      Some (datetime_new y m d hh mm ss us tz).

(** [datetime.fromisoformat(s)], for the spellings
    [YYYY-MM-DD] and [YYYY-MM-DD?HH:MM:SS[.ffffff][+HH:MM]]
    ([?] any one character), which cover every string [isoformat] makes
    for a UTC or naive object. *)
Definition fromisoformat (s : string) : result datetime :=
  match parse_iso (chars s) with
  | Some r => r
  | None => Raise (ValueError ("Invalid isoformat string: " +:+ s))
  end.

(** A normalized instant: an aware UTC object within [datetime]'s
    range. *)
Definition normalized_utc (u : datetime) : Prop :=
  utcoffset u = UTC /\ wall_in_range (wall u) = true.

(** [datetime(d.year, d.month, d.day, 12, 0, tzinfo=timezone.utc)] *)
Definition noon_utc (d : date) : result datetime :=
  datetime_new (date_year d) (date_month d) (date_day d) 12 0 0 0 UTC.

End PyDatetime.

(** ** Sorting

    [sorted(xs, key=..., reverse=True)] and [xs.sort(key=..., reverse=True)]
    are stable: the result is in descending key order and elements with
    equal keys keep their original order. That fixes the result, so any
    stable sort stands for it; [lt x y] is [key(x) < key(y)]. *)

Fixpoint insert_desc {A : Type} (lt : A -> A -> bool) (x : A) (l : list A) : list A :=
  match l with
  | [] => [x]
  | y :: l' => if lt x y then y :: insert_desc lt x l' else x :: l
  end.

Definition sorted_reverse {A : Type} (lt : A -> A -> bool) (l : list A) : list A :=
  foldr (insert_desc lt) [] l.

(** [lt] compares the keys of the elements at hand. *)
Definition keyed_on {A : Type} (lt : A -> A -> bool) (key : A -> Z) (l : list A) : Prop :=
  forall x y, x ∈ l -> y ∈ l -> lt x y = (key x <? key y).

(** Every element is followed by elements of smaller or equal key only. *)
Definition descending {A : Type} (key : A -> Z) : list A -> Prop :=
  StronglySorted (fun a b => key b <= key a).

(** ** The world outside the process *)

(** [time.struct_time], as feedparser stores it under [*_parsed]. *)
Record struct_time := StructTime {
  tm_year : Z; tm_mon : Z; tm_mday : Z; tm_hour : Z; tm_min : Z; tm_sec : Z;
  tm_wday : Z; tm_yday : Z; tm_isdst : Z }.

(** The Python objects that occur as values in a feedparser dictionary or
    are passed to [to_dt]. *)
Inductive pyobj :=
| ONone
| OStr (s : string)
| OStructTime (t : struct_time)
| ODatetime (d : PyDatetime.datetime).

Definition repr_struct_time (t : struct_time) : string :=
  let dec n := PyStr.str (PyStr.decimal n) in
  "time.struct_time(tm_year=" +:+ dec (tm_year t) +:+ ", tm_mon=" +:+ dec (tm_mon t)
  +:+ ", tm_mday=" +:+ dec (tm_mday t) +:+ ", tm_hour=" +:+ dec (tm_hour t)
  +:+ ", tm_min=" +:+ dec (tm_min t) +:+ ", tm_sec=" +:+ dec (tm_sec t)
  +:+ ", tm_wday=" +:+ dec (tm_wday t) +:+ ", tm_yday=" +:+ dec (tm_yday t)
  +:+ ", tm_isdst=" +:+ dec (tm_isdst t) +:+ ")".

(** [str(obj)] *)
Definition py_str (o : pyobj) : string :=
  match o with
  | ONone => "None"
  | OStr s => s
  | OStructTime t => repr_struct_time t
  | ODatetime d => PyDatetime.str_datetime d
  end.

(** Truth value of an object. *)
Definition py_truthy (o : pyobj) : bool :=
  match o with
  | ONone => false
  | OStr s => PyStr.truthy s
  | OStructTime _ => true
  | ODatetime _ => true
  end.

(** [obj.strip()] *)
Definition py_strip (o : pyobj) : result string :=
  match o with
  | OStr s => Ok (PyStr.strip s)
  | _ => Raise (AttributeError "object has no attribute 'strip'")
  end.

(** [datetime] called on the first six fields of [t], with
    [tzinfo=timezone.utc]. *)
Definition datetime_of_tuple (o : pyobj) : result PyDatetime.datetime :=
  match o with
  | OStructTime t =>
      PyDatetime.datetime_new (tm_year t) (tm_mon t) (tm_mday t)
        (tm_hour t) (tm_min t) (tm_sec t) 0 PyDatetime.UTC
  | _ => Raise (TypeError "an integer is required")
  end.

(** The result of [feedparser.parse]: [fp.feed] and [fp.entries]. *)
Record parsed_feed := ParsedFeed {
  feed : gmap string pyobj;
  entries : list (gmap string pyobj) }.

(** What [feedparser.parse] returns for a URL that it cannot download
    (unknown host, refused connection): it does not raise; the cause is
    kept under [bozo_exception] of a result whose [feed] is empty and that
    has no entries. Of a result, [fetch_rss] and the variant read [feed]
    and [entries] only. *)
Definition undownloaded : parsed_feed := ParsedFeed ∅ [].

(** What [DTSTART] holds: [dtstart.dt] is a [date] or a [datetime]. *)
Inductive vDDDTypes :=
| DDate (d : PyDatetime.date)
| DDatetime (d : PyDatetime.datetime).

(** A calendar component with the properties [fetch_ics] reads; icalendar
    fixes the type of each by its name. *)
Record component := Component {
  comp_name : string;
  comp_summary : option string;
  comp_dtstart : option vDDDTypes;
  comp_url : option string;
  comp_organizer : option string }.

Record World := {
  (** [dateutil.parser.parse] *)
  dateutil_parse : string -> result PyDatetime.datetime;
  (** the time zone of the machine *)
  local_zone : PyDatetime.tzone;
  (** [zoneinfo.ZoneInfo(key)]; [None] when the module or the key is
      missing *)
  zoneinfo : string -> option PyDatetime.tzone;
  (** [dateutil.tz.gettz(name)] *)
  dateutil_gettz : string -> option PyDatetime.tzone;
  (** [feedparser.parse(url)] *)
  feedparser_parse : string -> result parsed_feed;
  (** [requests.get(url, timeout=30)], [raise_for_status()],
      [Calendar.from_ical(resp.content)] and [cal.walk()] *)
  get_calendar : string -> result (list component);
  (** [yaml.safe_load] of the configuration file: the lists under [rss]
      and [ics] *)
  read_feeds : string -> result (list string * list string);
  (** [os.makedirs(path, exist_ok=True)] *)
  os_makedirs : string -> result unit;
  (** [with open(path, "w", encoding=enc) as f: f.write(text)]; [None]
      is the encoding of the locale. Raises [OSError] when the file
      cannot be opened or written, [UnicodeEncodeError] when the
      encoding cannot hold the text. *)
  write_text : option string -> string -> string -> result unit }.

(** The world in which [url] serves the feed [fp]. *)
Definition with_feed (w : World) (url : string) (fp : parsed_feed) : World :=
  {| dateutil_parse := dateutil_parse w;
     local_zone := local_zone w;
     zoneinfo := zoneinfo w;
     dateutil_gettz := dateutil_gettz w;
     feedparser_parse := fun u => if String.eqb u url then Ok fp else feedparser_parse w u;
     get_calendar := get_calendar w;
     read_feeds := read_feeds w;
     os_makedirs := os_makedirs w;
     write_text := write_text w |}.

(** The world in which [url] serves the calendar components [comps]. *)
Definition with_calendar (w : World) (url : string) (comps : list component) : World :=
  {| dateutil_parse := dateutil_parse w;
     local_zone := local_zone w;
     zoneinfo := zoneinfo w;
     dateutil_gettz := dateutil_gettz w;
     feedparser_parse := feedparser_parse w;
     get_calendar := fun u => if String.eqb u url then Ok comps else get_calendar w u;
     read_feeds := read_feeds w;
     os_makedirs := os_makedirs w;
     write_text := write_text w |}.

(** The world whose configuration file lists these URLs. *)
Definition with_sources (w : World) (rss_urls ics_urls : list string) : World :=
  {| dateutil_parse := dateutil_parse w;
     local_zone := local_zone w;
     zoneinfo := zoneinfo w;
     dateutil_gettz := dateutil_gettz w;
     feedparser_parse := feedparser_parse w;
     get_calendar := get_calendar w;
     read_feeds := fun _ => Ok (rss_urls, ics_urls);
     os_makedirs := os_makedirs w;
     write_text := write_text w |}.

(** [for x in xs: ...] where the body yields a value or raises: the
    first exception ends the loop. *)
Fixpoint for_each {A B : Type} (body : A -> result B) (xs : list A) : result (list B) :=
  match xs with
  | [] => Ok []
  | x :: rest => y ← body x; ys ← for_each body rest; Ok (y :: ys)
  end.

(** [items.append] over the bodies that did not [continue]. *)
Definition appended {A : Type} (rs : list (option A)) : list A :=
  omap id rs.

(** [os.path.join(a, b)] for a relative [b]. *)
Definition os_path_join (a b : string) : string :=
  match a with
  | EmptyString => b
  | _ => if PyStr.ends_with_char a "/"%char then a +:+ b else a +:+ "/" +:+ b
  end.

(** * [src/main.py] *)

Module Main.
Import PyStr PyDatetime.

Definition NY_TZ : string := "America/New_York".

Definition to_dt (w : World) (obj : pyobj) : result datetime :=
  match obj with
  | ODatetime d => Ok d
  | _ => dateutil_parse w (py_str obj)
  end.

(** The [try] block: conversion with the tz database. *)
Definition iso_ny_zoneinfo (w : World) (dt : datetime) : result string :=
  match zoneinfo w "America/New_York" with
  | Some ny =>
      local ← astimezone (local_zone w) ny dt;
      Ok (strftime_ymd_hm local)
  | None => Raise (Exn "ZoneInfoNotFoundError" "No time zone found with key America/New_York")
  end.

Definition iso_ny (w : World) (dt : datetime) : result string :=
  match iso_ny_zoneinfo w dt with
  | Ok s => Ok s
  | Raise _ =>
      u ← astimezone (local_zone w) utc_zone dt;
      Ok (strftime_ymd_hm u +:+ " UTC")
  end.

Definition within_window (dt_obj since_dt : datetime) : result bool :=
  dt_ge dt_obj since_dt.

(** The dictionaries that [fetch_rss] and [fetch_ics] build. *)
Record item := Item {
  it_type : string;
  it_source : string;
  it_title : string;
  it_link : string;
  it_dt : string }.

(** The [timestamp] of the data model: the instant (microseconds on the
    UTC time line) that the ["dt"] string of an item denotes. Every item
    an adapter builds carries the ISO string of a normalized instant
    ([stamped]); for any other string the value is 0. *)
Definition timestamp (it : item) : Z :=
  match fromisoformat (it_dt it) with
  | Ok d => instant d
  | Raise _ => 0
  end.

Definition stamped (it : item) : Prop :=
  exists u, normalized_utc u /\ it_dt it = isoformat u.

(** The loop over [("published", "updated", "created")]: the first key
    that is present and parses wins ([break]); a parse that raises is
    passed over. *)
Fixpoint text_candidate (w : World) (e : gmap string pyobj) (keys : list string)
  : option datetime :=
  match keys with
  | [] => None
  | key :: rest =>
      match e !! key with
      | Some v =>
          match to_dt w v with
          | Ok d => Some d
          | Raise _ => text_candidate w e rest
          end
      | None => text_candidate w e rest
      end
  end.

Definition text_keys : list string := ["published"; "updated"; "created"].

(** Lines 36-46: the timestamp of an entry, [None] when it has none. *)
Definition dt_candidate (w : World) (e : gmap string pyobj) : result (option datetime) :=
  match text_candidate w e text_keys with
  | Some d => Ok (Some d)
  | None =>
      match e !! "published_parsed" with
      | Some pp =>
          if py_truthy pp then d ← datetime_of_tuple pp; Ok (Some d)
          else Ok None
      | None => Ok None
      end
  end.

(** The body of the loop of [fetch_rss]: the item to append, or [None]
    after [continue]. *)
Definition rss_entry (w : World) (url : string) (fp : parsed_feed)
  (e : gmap string pyobj) : result (option item) :=
  c ← dt_candidate w e;
  match c with
  | None => Ok None
  | Some cand =>
      t ← py_strip (default (OStr EmptyString) (e !! "title"));
      let title := or_else t "(untitled)" in
      l ← py_strip (default (OStr EmptyString) (e !! "link"));
      let link := or_else l EmptyString in
      source ← py_strip
        (match feed fp !! "title" with
         | Some ft => if py_truthy ft then ft else OStr url
         | None => OStr url
         end);
      d ← to_dt w (ODatetime cand);
      u ← astimezone (local_zone w) utc_zone d;
      Ok (Some (Item "rss" source title link (isoformat u)))
  end.

Definition fetch_rss (w : World) (url : string) : result (list item) :=
  fp ← feedparser_parse w url;
  rs ← for_each (rss_entry w url fp) (entries fp);
  Ok (appended rs).

(** The body of the loop of [fetch_ics]. *)
Definition ics_component (w : World) (url : string) (comp : component)
  : result (option item) :=
  if negb (String.eqb (comp_name comp) "VEVENT") then Ok None
  else
    let summary := default "(no title)" (comp_summary comp) in
    match comp_dtstart comp with
    | None => Ok None
    | Some dtstart =>
        dt_utc ←
          match dtstart with
          | DDatetime dt =>
              let dt :=
                match utcoffset dt with
                | None => replace_tzinfo dt UTC
                | Some _ => dt
                end in
              astimezone (local_zone w) utc_zone dt
          | DDate d => noon_utc d
          end;
        let link :=
          match comp_url comp with
          | Some url_field => if truthy url_field then url_field else EmptyString
          | None => EmptyString
          end in
        let organizer := default EmptyString (comp_organizer comp) in
        Ok (Some (Item "ics" url summary link (isoformat dt_utc)))
    end.

Definition fetch_ics (w : World) (url : string) : result (list item) :=
  comps ← get_calendar w url;
  rs ← for_each (ics_component w url) comps;
  Ok (appended rs).

Definition load_feeds (w : World) (path : string) : result (list string * list string) :=
  read_feeds w path.

Definition is_type (ty : string) (i : item) : bool := String.eqb (it_type i) ty.

(** [key=lambda x: x["dt"]]: the ISO strings are compared as strings. *)
Definition dt_key_lt (a b : item) : bool := PyStr.ltb (it_dt a) (it_dt b).

Definition rss_bullet (w : World) (it : item) : result string :=
  d ← fromisoformat (it_dt it);
  dt_local ← iso_ny w d;
  let title := strip (replace_newlines (it_title it)) in
  let src := it_source it in
  let link := it_link it in
  Ok ("- **" +:+ dt_local +:+ "** — [" +:+ title +:+ "](" +:+ link +:+ ")  _"
      +:+ src +:+ "_").

Definition ics_bullet (w : World) (it : item) : result string :=
  d ← fromisoformat (it_dt it);
  dt_local ← iso_ny w d;
  let title := strip (replace_newlines (it_title it)) in
  let src := it_source it in
  let link := it_link it in
  if truthy link then
    Ok ("- **" +:+ dt_local +:+ "** — [" +:+ title +:+ "](" +:+ link +:+ ")  _"
        +:+ src +:+ "_")
  else
    Ok ("- **" +:+ dt_local +:+ "** — " +:+ title +:+ "  _" +:+ src +:+ "_").

(** The press-release section, lines 107-121. *)
Definition rss_section (w : World) (rss_items : list item) : result (list string) :=
  match rss_items with
  | _ :: _ =>
      bullets ← for_each (rss_bullet w) (sorted_reverse dt_key_lt rss_items);
      Ok (["## Press Releases (last 24h)"; EmptyString] ++ bullets ++ [EmptyString])
  | [] =>
      Ok ["## Press Releases"; "> No new items in the last 24 hours."; EmptyString]
  end.

(** The events section, lines 122-139. *)
Definition ics_section (w : World) (ics_items : list item) : result (list string) :=
  match ics_items with
  | _ :: _ =>
      bullets ← for_each (ics_bullet w) (sorted_reverse dt_key_lt ics_items);
      Ok (["## Hearings & Meetings (last 24h window start times)"; EmptyString]
          ++ bullets ++ [EmptyString])
  | [] =>
      Ok ["## Hearings & Meetings"; "> No events starting in the last 24 hours.";
          EmptyString]
  end.

(** The list [lines] at the [return] of [render_markdown]. *)
Definition render_lines (w : World) (items : list item) (report_date_str : string)
  : result (list string) :=
  let rss_items := filter (fun i => is_type "rss" i = true) items in
  let ics_items := filter (fun i => is_type "ics" i = true) items in
  let head := ["# Massachusetts Policy Feed — " +:+ report_date_str; EmptyString] in
  rss ← rss_section w rss_items;
  ics ← ics_section w ics_items;
  Ok (head ++ rss ++ ics).

Definition render_markdown (w : World) (items : list item) (report_date_str : string)
  : result string :=
  lines ← render_lines w items report_date_str;
  Ok (join_lines lines).

(** Command line. *)
Record args := Args { arg_feeds : string; arg_since : string; arg_reports_dir : string }.

Definition default_args : args := Args "src/feeds.yaml" "24h" "reports".

(** Line 151. *)
Definition since_of (now : datetime) (since : string) : result datetime :=
  if ends_with_char since "h"%char then
    n ← py_int (drop_last since); sub_timedelta now (timedelta_hours n)
  else
    n ← py_int (drop_last since); sub_timedelta now (timedelta_days n).

(** The inner loop of lines 157-160 and 166-169 on the list a fetch has
    returned: the items appended to [all_items] so far, and the exception
    that ended the loop early, if any. *)
Fixpoint keep_within (since : datetime) (fetched all_items : list item)
  : list item * option exn :=
  match fetched with
  | [] => (all_items, None)
  | it :: rest =>
      match (d ← fromisoformat (it_dt it); within_window d since) with
      | Ok true => keep_within since rest (all_items ++ [it])
      | Ok false => keep_within since rest all_items
      | Raise e => (all_items, Some e)
      end
  end.

Definition warning (what url : string) (e : exn) : string :=
  "[WARN] " +:+ what +:+ " fetch failed: " +:+ url +:+ ": " +:+ exn_msg e.

(** One round of either [for url in ...] loop with its [try]/[except];
    the state is [all_items] and what has been printed on [sys.stderr]. *)
Definition try_source (fetch : string -> result (list item)) (what : string)
  (since : datetime) (st : list item * list string) (url : string)
  : list item * list string :=
  let '(all_items, err) := st in
  match fetch url with
  | Raise e => (all_items, err ++ [warning what url e])
  | Ok fetched =>
      match keep_within since fetched all_items with
      | (all_items', None) => (all_items', err)
      | (all_items', Some e) => (all_items', err ++ [warning what url e])
      end
  end.

(** Lines 154-171. *)
Definition collect (w : World) (since : datetime) (rss_urls ics_urls : list string)
  : list item * list string :=
  let st := foldl (try_source (fetch_rss w) "RSS" since) ([], []) rss_urls in
  foldl (try_source (fetch_ics w) "ICS" since) st ics_urls.

(** What a run leaves behind: the report file and the line on
    [sys.stdout]. *)
Record report := Report { out_path : string; out_text : string; out_stdout : string }.

(** [main()]: [now] is [now_utc()], [report_date_str] the local date of
    [datetime.now()]. The first component is [sys.stderr]; the second is
    the report once it is written (lines 176-180), or the exception that
    ends the process. *)
Definition main (w : World) (a : args) (now : datetime) (report_date_str : string)
  : list string * result report :=
  match since_of now (arg_since a) with
  | Raise e => ([], Raise e)
  | Ok since =>
      match load_feeds w (arg_feeds a) with
      | Raise e => ([], Raise e)
      | Ok (rss_urls, ics_urls) =>
          let '(all_items, err) := collect w since rss_urls ics_urls in
          (err,
           md ← render_markdown w all_items report_date_str;
           _ ← os_makedirs w (arg_reports_dir a);
           let out_path := os_path_join (arg_reports_dir a) (report_date_str +:+ ".md") in
           _ ← write_text w None out_path md;
           Ok (Report out_path md
                 ("Wrote " +:+ out_path +:+ " with "
                  +:+ str (decimal (Z.of_nat (length all_items))) +:+ " items.")))
      end
  end.

End Main.

(** * [src/src/main.py], the RSS-only variant *)

Module RssOnly.
Import PyStr PyDatetime.

(** [int(os.environ.get("WINDOW_HOURS", "24"))] *)
Definition WINDOW_HOURS (env : option string) : result Z :=
  py_int (default "24" env).

Definition iso_boston (w : World) (dt_utc : datetime) : result string :=
  let target := default (local_zone w) (dateutil_gettz w "America/New_York") in
  local ← astimezone (local_zone w) target dt_utc;
  Ok (strftime_ymd_hm local).

(** The loop of [parse_dt]: [return] on the first key that parses. *)
Fixpoint text_candidate (entry : gmap string pyobj) (keys : list string)
  : option datetime :=
  match keys with
  | [] => None
  | k :: rest =>
      match entry !! k with
      | Some v =>
          match fromisoformat (py_str v) with
          | Ok d => Some d
          | Raise _ => text_candidate entry rest
          end
      | None => text_candidate entry rest
      end
  end.

Definition text_keys : list string := ["published"; "updated"; "created"].

(** [getattr(entry, key, None)] as a condition. *)
Definition has_truthy (entry : gmap string pyobj) (key : string) : option pyobj :=
  match entry !! key with
  | Some v => if py_truthy v then Some v else None
  | None => None
  end.

Definition parse_dt (entry : gmap string pyobj) : result (option datetime) :=
  match text_candidate entry text_keys with
  | Some d => Ok (Some d)
  | None =>
      match has_truthy entry "published_parsed" with
      | Some pp => d ← datetime_of_tuple pp; Ok (Some d)
      | None =>
          match has_truthy entry "updated_parsed" with
          | Some up => d ← datetime_of_tuple up; Ok (Some d)
          | None => Ok None
          end
      end
  end.

Definition load_feeds (w : World) : result (list string) :=
  fs ← read_feeds w "src/feeds.yaml"; Ok fs.1.

Record item := Item {
  it_when : datetime;
  it_title : string;
  it_link : string;
  it_source : string }.

(** [e.get(key) or ""] *)
Definition get_or_empty (e : gmap string pyobj) (key : string) : pyobj :=
  match e !! key with
  | Some v => if py_truthy v then v else OStr EmptyString
  | None => OStr EmptyString
  end.

(** The body of the inner loop of [main], lines 46-70. *)
Definition entry_item (w : World) (since : datetime) (source : string)
  (e : gmap string pyobj) : result (option item) :=
  p ← parse_dt e;
  match p with
  | None => Ok None
  | Some dt =>
      let dt :=
        match utcoffset dt with
        | None => replace_tzinfo dt UTC
        | Some _ => dt
        end in
      dt_utc ← astimezone (local_zone w) utc_zone dt;
      old ← dt_lt dt_utc since;
      if (old : bool) then Ok None
      else
        t ← py_strip (get_or_empty e "title");
        let title := or_else t "(no title)" in
        link ← py_strip (get_or_empty e "link");
        let text_for_filter :=
          lower (title +:+ " " +:+ py_str (get_or_empty e "summary")) in
        let keep := contains "introduc" text_for_filter || true in
        if negb keep then Ok None
        else Ok (Some (Item dt_utc title link source))
  end.

(** One round of [for url in urls], lines 43-70. *)
Definition feed_items (w : World) (since : datetime) (url : string) : result (list item) :=
  fp ← feedparser_parse w url;
  source ←
    (if (size (feed fp) =? 0)%nat then Ok url
     else py_strip
            (match feed fp !! "title" with
             | Some ft => if py_truthy ft then ft else OStr url
             | None => OStr url
             end));
  rs ← for_each (entry_item w since source) (entries fp);
  Ok (appended rs).

(** [key=lambda x: x["when"]]; every [when] is aware, so [<] never raises. *)
Definition when_lt (a b : item) : bool :=
  match dt_lt (it_when a) (it_when b) with
  | Ok r => r
  | Raise _ => false
  end.

Definition bullet (w : World) (it : item) : result string :=
  t ← iso_boston w (it_when it);
  Ok ("- **" +:+ t +:+ "** — [" +:+ it_title it +:+ "](" +:+ it_link it +:+ ")  _"
      +:+ it_source it +:+ "_").

(** Lines 75-81. *)
Definition render_lines (w : World) (items : list item) (date_title : string)
  : result (list string) :=
  let head := ["# Massachusetts Bills Introduced — " +:+ date_title; EmptyString] in
  match items with
  | [] => Ok (head ++ ["> No new items found in the last 24 hours."] ++ [EmptyString])
  | _ :: _ =>
      bullets ← for_each (bullet w) items;
      Ok (head ++ bullets ++ [EmptyString])
  end.

(** The sorted [items] of line 72. *)
Definition collect (w : World) (since : datetime) (urls : list string)
  : result (list item) :=
  per_url ← for_each (feed_items w since) urls;
  Ok (sorted_reverse when_lt (concat per_url)).

Record report := Report { out_path : string; out_text : string; out_stdout : string }.

(** [main()]: [None] stands for [sys.exit(0)] after the warning that no
    feed is configured. [now] is [datetime.now(timezone.utc)], [date_title]
    today's date in New York. *)
Definition main (w : World) (env : option string) (now : datetime) (date_title : string)
  : result (option report) :=
  hours ← WINDOW_HOURS env;
  since ← sub_timedelta now (timedelta_hours hours);
  urls ← load_feeds w;
  match urls with
  | [] => Ok None
  | _ :: _ =>
      items ← collect w since urls;
      lines ← render_lines w items date_title;
      _ ← os_makedirs w "reports";
      let out_path := "reports/" +:+ date_title +:+ ".md" in
      _ ← write_text w (Some "utf-8") out_path (join_lines lines);
      Ok (Some (Report out_path (join_lines lines)
                  ("Wrote " +:+ out_path +:+ " with "
                   +:+ str (decimal (Z.of_nat (length items))) +:+ " items.")))
  end.

End RssOnly.

(** * Concrete worlds for the examples *)

Module Examples.
Import PyStr Gregorian PyDatetime.

(** The first Sunday on or after the first day of a month. *)
Definition first_sunday (y m : Z) : Z :=
  let o := ymd2ord y m 1 in
  o + (6 - weekday o) mod 7.

(** The wall clock of 00:00 on a day, plus some hours. *)
Definition at_hour (ordinal h : Z) : Z :=
  (ordinal - 1) * US_PER_DAY + h * US_PER_HOUR.

Definition year_of_wall (wl : Z) : Z := (ord2ymd (wl / US_PER_DAY + 1)).1.1.

Definition EST : Z := -5 * US_PER_HOUR.
Definition EDT : Z := -4 * US_PER_HOUR.

(** America/New_York under the rule in force since 2007: daylight time
    from the second Sunday of March, 02:00 EST, to the first Sunday of
    November, 02:00 EDT. *)
Definition us_eastern : tzone :=
  Tzone
    (fun u =>
       let y := year_of_wall u in
       if (at_hour (first_sunday y 3 + 7) 7 <=? u) && (u <? at_hour (first_sunday y 11) 6)
       then EDT else EST)
    (fun wl =>
       let y := year_of_wall wl in
       if (at_hour (first_sunday y 3 + 7) 3 <=? wl) && (wl <? at_hour (first_sunday y 11) 2)
       then EDT else EST).

(** A table of URLs. *)
Fixpoint lookup_url {A : Type} (table : list (string * A)) (url : string) : result A :=
  match table with
  | [] => Raise (Exn "ConnectionError" ("cannot reach " +:+ url))
  | (u, a) :: rest => if String.eqb u url then Ok a else lookup_url rest url
  end.

(** A machine with the given local zone and tz database, reading the
    given feeds and calendars, and writing where it is asked to. On the
    ISO spellings used in the examples dateutil's parser and
    [fromisoformat] agree. *)
Definition world_of (local : tzone) (tzdb : option tzone)
  (rss : list (string * parsed_feed)) (ics : list (string * list component)) : World :=
  {| dateutil_parse := fromisoformat;
     local_zone := local;
     zoneinfo := fun key => if String.eqb key "America/New_York" then tzdb else None;
     dateutil_gettz := fun key => if String.eqb key "America/New_York" then tzdb else None;
     feedparser_parse := lookup_url rss;
     get_calendar := lookup_url ics;
     read_feeds := fun _ => Ok (map fst rss, map fst ics);
     os_makedirs := fun _ => Ok tt;
     write_text := fun _ _ _ => Ok tt |}.

Definition entry_of (fields : list (string * pyobj)) : gmap string pyobj :=
  list_to_map fields.

(** A feed whose only entry is dated without a time zone. *)
Definition naive_feed : parsed_feed :=
  ParsedFeed (entry_of [("title", OStr "Mass.gov news")])
    [entry_of [("title", OStr "Budget hearing announced");
               ("link", OStr "https://example.org/budget");
               ("published", OStr "2024-03-15 10:00:00")]].

(** A feed whose only entry has no link. *)
Definition linkless_feed : parsed_feed :=
  ParsedFeed (entry_of [("title", OStr "Mass.gov news")])
    [entry_of [("title", OStr "Budget hearing announced");
               ("published", OStr "2024-03-15T10:00:00+00:00")]].

(** A calendar with one whole-day event. *)
Definition whole_day_calendar : list component :=
  [Component "VCALENDAR" None None None None;
   Component "VEVENT" (Some "Joint Committee hearing")
     (Some (DDate (Date 2024 3 15))) None None].

(** A calendar whose only event starts at a floating time: DTSTART has a
    time of day and no time zone. *)
Definition floating_calendar : list component :=
  [Component "VEVENT" (Some "Ways and Means hearing")
     (Some (DDatetime (Datetime (at_hour (ymd2ord 2024 3 15) 10) None))) None None].

(** A calendar whose only event has an empty SUMMARY. *)
Definition blank_summary_calendar : list component :=
  [Component "VEVENT" (Some EmptyString)
     (Some (DDate (Date 2024 3 15))) (Some "https://example.org/hearing") None].

Definition feed_url : string := "https://example.org/feed.xml".
Definition calendar_url : string := "https://example.org/hearings.ics".

(** A machine in New York with a tz database. *)
Definition new_york_machine
  (rss : list (string * parsed_feed)) (ics : list (string * list component)) : World :=
  world_of us_eastern (Some us_eastern) rss ics.

(** A machine on UTC without a tz database. *)
Definition bare_utc_machine
  (rss : list (string * parsed_feed)) (ics : list (string * list component)) : World :=
  world_of utc_zone None rss ics.

(** 2024-03-15 18:00 UTC *)
Definition sample_now : datetime :=
  Datetime (at_hour (ymd2ord 2024 3 15) 18) UTC.

(** 2024-03-14 18:00 UTC, a day before [sample_now]. *)
Definition sample_since : datetime :=
  Datetime (at_hour (ymd2ord 2024 3 14) 18) UTC.

Definition dated_entry (title published : string) : gmap string pyobj :=
  entry_of [("title", OStr title);
            ("link", OStr "https://example.org/notice");
            ("published", OStr published)].

(** A feed of three entries, the last two published in the same second. *)
Definition busy_feed : parsed_feed :=
  ParsedFeed (entry_of [("title", OStr "Mass.gov news")])
    [dated_entry "Morning notice" "2024-03-15T08:00:00+00:00";
     dated_entry "First at ten" "2024-03-15T10:00:00+00:00";
     dated_entry "Second at ten" "2024-03-15T10:00:00+00:00"].

(** An entry whose only date is a text that does not parse. *)
Definition undated_entry : gmap string pyobj :=
  dated_entry "Undated notice" "sometime soon".

(** An event without DTSTART. *)
Definition undated_event : component :=
  Component "VEVENT" (Some "Unscheduled hearing") None None None.

(** A URL that no table of the examples holds. *)
Definition missing_url : string := "https://example.org/missing.xml".

(** An entry dated only by a time tuple, whose seconds are 60. *)
Definition leap_second_entry : gmap string pyobj :=
  entry_of [("title", OStr "Year-end notice");
            ("published_parsed", OStructTime (StructTime 2016 12 31 23 59 60 5 366 0))].

(** A feed with a well-dated entry followed by [leap_second_entry]. *)
Definition leap_second_feed : parsed_feed :=
  ParsedFeed (entry_of [("title", OStr "Mass.gov news")])
    [dated_entry "Morning notice" "2024-03-15T08:00:00+00:00"; leap_second_entry].

(** The URL of a feed whose host is down. *)
Definition down_url : string := "https://example.org/down.xml".

(** A machine on UTC that reads the busy feed, and gets from feedparser
    the result of a failed download for [down_url]; no calendar is within
    reach. *)
Definition feed_down_machine : World :=
  world_of utc_zone None [(feed_url, busy_feed); (down_url, undownloaded)] [].

(** The same world on a file system that takes no report. *)
Definition read_only (w : World) : World :=
  {| dateutil_parse := dateutil_parse w;
     local_zone := local_zone w;
     zoneinfo := zoneinfo w;
     dateutil_gettz := dateutil_gettz w;
     feedparser_parse := feedparser_parse w;
     get_calendar := get_calendar w;
     read_feeds := read_feeds w;
     os_makedirs := os_makedirs w;
     write_text := fun _ path _ =>
       Raise (Exn "PermissionError" ("[Errno 13] Permission denied: '" +:+ path +:+ "'")) |}.

(** An entry dated only by [updated_parsed]. *)
Definition updated_only_entry : gmap string pyobj :=
  entry_of [("title", OStr "Amended notice");
            ("updated_parsed", OStructTime (StructTime 2024 3 15 9 30 0 4 75 0))].

End Examples.

(** * Facts about the runtime model *)

Import PyStr Gregorian PyDatetime.

Ltac calc_bool :=
  cbn [andb orb negb Z.ltb Z.eqb Z.leb Z.compare Pos.compare Pos.compare_cont
       Pos.eqb Z.b2z] in *.

Section GregorianFacts.

Lemma month_cases m :
  1 <= m <= 12 ->
  m = 1 \/ m = 2 \/ m = 3 \/ m = 4 \/ m = 5 \/ m = 6 \/
  m = 7 \/ m = 8 \/ m = 9 \/ m = 10 \/ m = 11 \/ m = 12.
Proof. lia. Qed.

Ltac each_month m Hm :=
  destruct (month_cases m Hm)
    as [->|[->|[->|[->|[->|[->|[->|[->|[->|[->|[->| ->]]]]]]]]]]].

Lemma in_numbers_from (lo len : nat) (x : Z) :
  Z.of_nat lo <= x < Z.of_nat lo + Z.of_nat len ->
  In x (map Z.of_nat (seq lo len)).
Proof.
  intros H. apply in_map_iff. exists (Z.to_nat x). split; [lia|].
  apply in_seq. lia.
Qed.

Lemma days_in_month_eq y m :
  days_in_month y m = DAYS_IN_MONTH m + Z.b2z ((m =? 2) && is_leap y).
Proof.
  unfold days_in_month.
  destruct (Z.eqb_spec m 2) as [-> | _], (is_leap y); reflexivity || (simpl; lia).
Qed.

(** The month estimate of [_ord2ymd] is right on every day of both kinds
    of year: checked day by day. *)
Lemma month_day_of_encode_all (leap : bool) :
  forallb (fun m =>
    forallb (fun d =>
      let n := DAYS_BEFORE_MONTH m + Z.b2z ((2 <? m) && leap) + d - 1 in
      ((month_day_of leap n).1 =? m) && ((month_day_of leap n).2 =? d))
    (map Z.of_nat (seq 1 (Z.to_nat (DAYS_IN_MONTH m + Z.b2z ((m =? 2) && leap))))))
  (map Z.of_nat (seq 1 12)) = true.
Proof. destruct leap; vm_compute; reflexivity. Qed.

Lemma month_day_of_encode leap m d :
  1 <= m <= 12 ->
  1 <= d <= DAYS_IN_MONTH m + Z.b2z ((m =? 2) && leap) ->
  month_day_of leap (DAYS_BEFORE_MONTH m + Z.b2z ((2 <? m) && leap) + d - 1) = (m, d).
Proof.
  intros Hm Hd.
  pose proof (month_day_of_encode_all leap) as Hc.
  rewrite forallb_forall in Hc.
  assert (Hin : In m (map Z.of_nat (seq 1 12))) by (apply in_numbers_from; lia).
  specialize (Hc m Hin). rewrite forallb_forall in Hc.
  assert (Hind : In d (map Z.of_nat
    (seq 1 (Z.to_nat (DAYS_IN_MONTH m + Z.b2z ((m =? 2) && leap))))))
    by (apply in_numbers_from; lia).
  specialize (Hc d Hind). cbv zeta in Hc.
  destruct (month_day_of leap _) as [m' d'].
  apply andb_true_iff in Hc as [H1 H2]. apply Z.eqb_eq in H1, H2.
  simpl in H1, H2. congruence.
Qed.

Lemma month_day_of_decode_all (leap : bool) :
  forallb (fun n =>
    let m := (month_day_of leap n).1 in
    let d := (month_day_of leap n).2 in
    (1 <=? m) && (m <=? 12) && (1 <=? d)
    && (d <=? DAYS_IN_MONTH m + Z.b2z ((m =? 2) && leap))
    && (DAYS_BEFORE_MONTH m + Z.b2z ((2 <? m) && leap) + d - 1 =? n))
  (map Z.of_nat (seq 0 (Z.to_nat (365 + Z.b2z leap)))) = true.
Proof. destruct leap; vm_compute; reflexivity. Qed.

Lemma month_day_of_decode leap n :
  0 <= n <= 364 + Z.b2z leap ->
  let m := (month_day_of leap n).1 in
  let d := (month_day_of leap n).2 in
  1 <= m <= 12 /\
  1 <= d <= DAYS_IN_MONTH m + Z.b2z ((m =? 2) && leap) /\
  DAYS_BEFORE_MONTH m + Z.b2z ((2 <? m) && leap) + d - 1 = n.
Proof.
  intros Hn.
  pose proof (month_day_of_decode_all leap) as Hc.
  rewrite forallb_forall in Hc.
  assert (Hin : In n (map Z.of_nat (seq 0 (Z.to_nat (365 + Z.b2z leap)))))
    by (apply in_numbers_from; destruct leap; simpl Z.b2z in *; lia).
  specialize (Hc n Hin). cbv zeta in *.
  rewrite !andb_true_iff in Hc. lia.
Qed.

Lemma divmod_unique n k q r :
  0 <= r < k -> n = k * q + r -> n / k = q /\ n mod k = r.
Proof.
  intros Hr Hn. split.
  - symmetry. apply Z.div_unique with r; [left; lia | lia].
  - symmetry. apply Z.mod_unique with q; [left; lia | lia].
Qed.

(** A year number split along the 400-, 100- and 4-year cycles. *)
Lemma year_compose a b c e :
  0 <= a -> 0 <= b < 4 -> 0 <= c < 25 -> 0 <= e < 4 ->
  days_before_year (400 * a + 100 * b + 4 * c + e + 1)
    = 146097 * a + 36524 * b + 1461 * c + 365 * e /\
  is_leap (400 * a + 100 * b + 4 * c + e + 1)
    = (e =? 3) && (negb (c =? 24) || (b =? 3)).
Proof.
  intros Ha Hb Hc He. unfold days_before_year, is_leap.
  split; Z.div_mod_to_equations; lia.
Qed.

Lemma year_decomp y :
  1 <= y ->
  exists a b c e,
    y = 400 * a + 100 * b + 4 * c + e + 1 /\
    0 <= a /\ 0 <= b < 4 /\ 0 <= c < 25 /\ 0 <= e < 4.
Proof.
  intros Hy.
  exists ((y - 1) / 400), ((y - 1) mod 400 / 100), ((y - 1) mod 100 / 4), ((y - 1) mod 4).
  repeat split; Z.div_mod_to_equations; lia.
Qed.

Lemma day_of_year_bound y m d :
  1 <= m <= 12 -> 1 <= d <= days_in_month y m ->
  0 <= days_before_month y m + d - 1 <= 364 + Z.b2z (is_leap y).
Proof.
  intros Hm Hd. rewrite days_in_month_eq in Hd. unfold days_before_month.
  destruct (is_leap y); each_month m Hm;
    unfold DAYS_BEFORE_MONTH, DAYS_IN_MONTH in *; calc_bool; lia.
Qed.

Lemma last_day_of_year y m d :
  1 <= m <= 12 -> 1 <= d <= days_in_month y m ->
  days_before_month y m + d - 1 = 365 -> m = 12 /\ d = 31.
Proof.
  intros Hm Hd. rewrite days_in_month_eq in Hd. unfold days_before_month.
  destruct (is_leap y); each_month m Hm;
    unfold DAYS_BEFORE_MONTH, DAYS_IN_MONTH in *; calc_bool; lia.
Qed.

(** [_ord2ymd] inverts [_ymd2ord] on every date. *)
Lemma ord2ymd_ymd2ord y m d :
  valid_date y m d -> ord2ymd (ymd2ord y m d) = (y, m, d).
Proof.
  intros (Hy & Hm & Hd). unfold MINYEAR, MAXYEAR in Hy.
  destruct (year_decomp y) as (a & b & c & e & -> & Ha & Hb & Hc & He); [lia|].
  destruct (year_compose a b c e Ha Hb Hc He) as [Hdby Hleap].
  set (y := 400 * a + 100 * b + 4 * c + e + 1) in *.
  pose proof (day_of_year_bound y m d Hm Hd) as Hdoy.
  pose proof (last_day_of_year y m d Hm Hd) as Hlast.
  assert (Hmd : month_day_of (is_leap y) (days_before_month y m + d - 1) = (m, d)).
  { unfold days_before_month. apply month_day_of_encode; [assumption|].
    rewrite <- days_in_month_eq. assumption. }
  unfold ymd2ord.
  set (doy := days_before_month y m + d - 1) in *.
  replace (days_before_year y + days_before_month y m + d)
    with (days_before_year y + doy + 1) by (subst doy; lia).
  rewrite Hdby. unfold ord2ymd.
  replace (146097 * a + 36524 * b + 1461 * c + 365 * e + doy + 1 - 1)
    with (146097 * a + 36524 * b + 1461 * c + 365 * e + doy) by lia.
  rewrite Hleap in Hdoy.
  assert (Hl : Z.b2z ((e =? 3) && (negb (c =? 24) || (b =? 3))) = 1 ->
               e = 3 /\ (c <> 24 \/ b = 3)).
  { destruct (Z.eqb_spec e 3), (Z.eqb_spec c 24), (Z.eqb_spec b 3); simpl; lia. }
  assert (Hl0 : 0 <= Z.b2z ((e =? 3) && (negb (c =? 24) || (b =? 3))) <= 1).
  { destruct ((e =? 3) && (negb (c =? 24) || (b =? 3))); simpl; lia. }
  unfold DI400Y, DI100Y, DI4Y.
  destruct (divmod_unique (146097 * a + 36524 * b + 1461 * c + 365 * e + doy) 146097 a
              (36524 * b + 1461 * c + 365 * e + doy)) as [-> ->]; [lia | lia |].
  destruct (Z.eq_dec doy 365) as [H365 | Hnot].
  - (* 31 December of a leap year: one of the two overflow branches *)
    destruct (Hlast H365) as [-> ->].
    destruct (Hl ltac:(lia)) as [He3 Hcb]. rewrite H365.
    destruct (Z.eq_dec c 24) as [Hc24 | Hc24].
    + assert (b = 3) as Hb3 by lia.
      destruct (divmod_unique (36524 * b + 1461 * c + 365 * e + 365) 36524 4 0)
        as [-> ->]; [lia | lia |].
      cbn [Z.eqb Pos.eqb orb]. rewrite orb_true_r.
      f_equal. f_equal. subst y. Z.div_mod_to_equations. lia.
    + destruct (divmod_unique (36524 * b + 1461 * c + 365 * e + 365) 36524 b
                  (1461 * c + 365 * e + 365)) as [-> ->]; [lia | lia |].
      destruct (divmod_unique (1461 * c + 365 * e + 365) 1461 c (365 * e + 365))
        as [-> ->]; [lia | lia |].
      destruct (divmod_unique (365 * e + 365) 365 4 0) as [-> ->]; [lia | lia |].
      cbn [Z.eqb Pos.eqb orb]. f_equal. f_equal. subst y. lia.
  - destruct (divmod_unique (36524 * b + 1461 * c + 365 * e + doy) 36524 b
                (1461 * c + 365 * e + doy)) as [-> ->]; [lia | lia |].
    destruct (divmod_unique (1461 * c + 365 * e + doy) 1461 c (365 * e + doy)) as [-> ->];
      [lia | lia |].
    destruct (divmod_unique (365 * e + doy) 365 e doy) as [-> ->]; [lia | lia |].
    replace ((e =? 4) || (b =? 4)) with false
      by (symmetry; apply orb_false_iff; split; apply Z.eqb_neq; lia).
    rewrite <- Hleap, Hmd. f_equal. f_equal. subst y. lia.
Qed.

(** [_ymd2ord] inverts [_ord2ymd] on every day up to [date.max], and
    [_ord2ymd] yields dates only. *)
Lemma ymd2ord_ord2ymd n :
  1 <= n <= MAXORDINAL ->
  valid_date (ord2ymd n).1.1 (ord2ymd n).1.2 (ord2ymd n).2 /\
  ymd2ord (ord2ymd n).1.1 (ord2ymd n).1.2 (ord2ymd n).2 = n.
Proof.
  unfold MAXORDINAL. intros Hn.
  set (a := (n - 1) / 146097). set (r1 := (n - 1) mod 146097).
  set (b := r1 / 36524). set (r2 := r1 mod 36524).
  set (c := r2 / 1461). set (r3 := r2 mod 1461).
  set (e := r3 / 365). set (doy := r3 mod 365).
  assert (Ha : 0 <= a <= 24) by (subst a; Z.div_mod_to_equations; lia).
  assert (Hr1 : n - 1 = 146097 * a + r1 /\ 0 <= r1 < 146097)
    by (subst a r1; Z.div_mod_to_equations; lia).
  assert (Hr2 : r1 = 36524 * b + r2 /\ 0 <= r2 < 36524 /\ 0 <= b <= 4)
    by (subst b r2; Z.div_mod_to_equations; lia).
  assert (Hr3 : r2 = 1461 * c + r3 /\ 0 <= r3 < 1461 /\ 0 <= c < 25)
    by (subst c r3; Z.div_mod_to_equations; lia).
  assert (Hr4 : r3 = 365 * e + doy /\ 0 <= doy < 365 /\ 0 <= e <= 4)
    by (subst e doy; Z.div_mod_to_equations; lia).
  unfold ord2ymd, DI400Y, DI100Y, DI4Y.
  fold a r1. fold b r2. fold c r3. fold e doy.
  clearbody a r1 b r2 c r3 e doy.
  destruct Hr1 as [Hr1 Hr1b], Hr2 as (Hr2 & Hr2b & Hb), Hr3 as (Hr3 & Hr3b & Hc),
    Hr4 as (Hr4 & Hdoy & He).
  unfold valid_date, ymd2ord, days_before_month, MINYEAR, MAXYEAR.
  destruct (Z.eqb_spec e 4) as [-> | He4]; [| destruct (Z.eqb_spec b 4) as [-> | Hb4]];
    cbn [orb fst snd].
  - (* last day of a leap year inside a four-year block *)
    assert (b < 4) by lia. assert (c < 24 \/ (c = 24 /\ b = 3)) by lia.
    replace (a * 400 + 1 + b * 100 + c * 4 + 4 - 1)
      with (400 * a + 100 * b + 4 * c + 3 + 1) by lia.
    destruct (year_compose a b c 3) as [-> Hleap]; try lia.
    rewrite days_in_month_eq, Hleap.
    replace ((3 =? 3) && (negb (c =? 24) || (b =? 3))) with true
      by (symmetry; apply andb_true_iff; split; [reflexivity|];
          destruct (Z.eqb_spec c 24), (Z.eqb_spec b 3); simpl; lia).
    unfold DAYS_IN_MONTH, DAYS_BEFORE_MONTH. calc_bool. lia.
  - (* last day of a 400-year cycle *)
    replace (a * 400 + 1 + 4 * 100 + c * 4 + e - 1)
      with (400 * a + 100 * 3 + 4 * 24 + 3 + 1) by lia.
    destruct (year_compose a 3 24 3) as [-> Hleap]; try lia.
    rewrite days_in_month_eq, Hleap.
    unfold DAYS_IN_MONTH, DAYS_BEFORE_MONTH. calc_bool. lia.
  - assert (Hb' : 0 <= b < 4) by lia. assert (He' : 0 <= e < 4) by lia.
    set (leap := (e =? 3) && (negb (c =? 24) || (b =? 3))).
    assert (Hleapdoy : 0 <= doy <= 364 + Z.b2z leap) by (destruct leap; simpl; lia).
    pose proof (month_day_of_decode leap doy Hleapdoy) as Hdec. cbv zeta in Hdec.
    destruct (month_day_of leap doy) as [m d]. cbn [fst snd] in *.
    destruct Hdec as (Hm & Hd & Hdoyeq).
    replace (a * 400 + 1 + b * 100 + c * 4 + e)
      with (400 * a + 100 * b + 4 * c + e + 1) by lia.
    destruct (year_compose a b c e) as [-> Hleap]; try lia.
    rewrite days_in_month_eq, Hleap. fold leap.
    assert (a = 24 -> 100 * b + 4 * c + e + 1 <= 399) by lia.
    lia.
Qed.

End GregorianFacts.

Section GregorianOrder.

Lemma days_before_year_succ y :
  days_before_year (y + 1) = days_before_year y + 365 + Z.b2z (is_leap y).
Proof.
  unfold days_before_year. replace (y + 1 - 1) with (y - 1 + 1) by lia.
  destruct (is_leap y) eqn:E; unfold is_leap in E; simpl Z.b2z;
    Z.div_mod_to_equations; lia.
Qed.

Lemma days_before_year_mono y y' :
  y <= y' -> days_before_year y <= days_before_year y'.
Proof. intros H. unfold days_before_year. Z.div_mod_to_equations. lia. Qed.

Lemma ymd2ord_lt_year y1 m1 d1 y2 m2 d2 :
  valid_date y1 m1 d1 -> valid_date y2 m2 d2 -> y1 < y2 ->
  ymd2ord y1 m1 d1 < ymd2ord y2 m2 d2.
Proof.
  intros (_ & Hm1 & Hd1) (_ & Hm2 & Hd2) Hlt. unfold ymd2ord.
  pose proof (day_of_year_bound y1 m1 d1 Hm1 Hd1).
  pose proof (day_of_year_bound y2 m2 d2 Hm2 Hd2).
  pose proof (days_before_year_succ y1).
  pose proof (days_before_year_mono (y1 + 1) y2 ltac:(lia)).
  lia.
Qed.

Lemma ymd2ord_lt_month y m1 d1 m2 d2 :
  valid_date y m1 d1 -> valid_date y m2 d2 -> m1 < m2 ->
  ymd2ord y m1 d1 < ymd2ord y m2 d2.
Proof.
  intros (_ & Hm1 & Hd1) (_ & Hm2 & Hd2) Hlt. unfold ymd2ord.
  rewrite days_in_month_eq in Hd1, Hd2. unfold days_before_month.
  destruct (is_leap y);
    destruct (month_cases m1 Hm1)
      as [->|[->|[->|[->|[->|[->|[->|[->|[->|[->|[->| ->]]]]]]]]]]];
    destruct (month_cases m2 Hm2)
      as [->|[->|[->|[->|[->|[->|[->|[->|[->|[->|[->| ->]]]]]]]]]]];
    try lia;
    unfold DAYS_BEFORE_MONTH, DAYS_IN_MONTH in *; calc_bool; lia.
Qed.

(** Days are numbered in the order of (year, month, day). *)
Lemma ymd2ord_compare y1 m1 d1 y2 m2 d2 :
  valid_date y1 m1 d1 -> valid_date y2 m2 d2 ->
  (ymd2ord y1 m1 d1 ?= ymd2ord y2 m2 d2) =
  match y1 ?= y2 with
  | Eq => match m1 ?= m2 with Eq => d1 ?= d2 | c => c end
  | c => c
  end.
Proof.
  intros V1 V2.
  destruct (Z.compare_spec y1 y2) as [-> | Hy | Hy].
  - destruct (Z.compare_spec m1 m2) as [-> | Hm | Hm].
    + unfold ymd2ord. destruct (Z.compare_spec d1 d2);
        [apply Z.compare_eq_iff | apply Z.compare_lt_iff | apply Z.compare_gt_iff]; lia.
    + apply Z.compare_lt_iff. apply ymd2ord_lt_month; assumption.
    + apply Z.compare_gt_iff. apply ymd2ord_lt_month; assumption.
  - apply Z.compare_lt_iff. apply ymd2ord_lt_year; assumption.
  - apply Z.compare_gt_iff. apply ymd2ord_lt_year; assumption.
Qed.

End GregorianOrder.

Section DigitFacts.

Lemma code_digit k : 0 <= k <= 9 -> code (digit k) = 48 + k.
Proof.
  intros Hk. unfold code, digit.
  rewrite N_ascii_embedding; [lia|].
  change 256%N with (Z.to_N 256). apply Z2N.inj_lt; lia.
Qed.

Lemma digit_value_digit k : 0 <= k <= 9 -> digit_value (digit k) = Some k.
Proof.
  intros Hk. unfold digit_value. rewrite code_digit by assumption.
  replace ((48 <=? 48 + k) && (48 + k <=? 57)) with true
    by (symmetry; apply andb_true_iff; split; apply Z.leb_le; lia).
  f_equal. lia.
Qed.

Lemma mod10_digit n : 0 <= n mod 10 <= 9.
Proof. pose proof (Z.mod_pos_bound n 10). lia. Qed.

Lemma length_fixed_digits w n : length (fixed_digits w n) = w.
Proof. induction w as [|w IH]; simpl; [reflexivity | now rewrite IH]. Qed.

Lemma pow10_pos (w : nat) : 0 < 10 ^ Z.of_nat w.
Proof. apply Z.pow_pos_nonneg; lia. Qed.

Lemma pow10_succ (w : nat) : 10 ^ Z.of_nat (S w) = 10 * 10 ^ Z.of_nat w.
Proof. rewrite Nat2Z.inj_succ, Z.pow_succ_r by lia. reflexivity. Qed.

(** The leading digit and the rest recombine. *)
Lemma mod_pow10_split (w : nat) n :
  n mod 10 ^ Z.of_nat (S w)
  = (n / 10 ^ Z.of_nat w mod 10) * 10 ^ Z.of_nat w + n mod 10 ^ Z.of_nat w.
Proof.
  rewrite pow10_succ. pose proof (pow10_pos w).
  rewrite (Z.mul_comm 10), Z.rem_mul_r by lia. lia.
Qed.

Lemma digits_value_from_fixed w n acc :
  digits_value_from acc (fixed_digits w n)
  = Some (acc * 10 ^ Z.of_nat w + n mod 10 ^ Z.of_nat w).
Proof.
  revert acc. induction w as [|w IH]; intros acc.
  - simpl. rewrite Z.mod_1_r. f_equal. lia.
  - cbn [fixed_digits digits_value_from].
    rewrite digit_value_digit by apply mod10_digit.
    rewrite IH, mod_pow10_split, pow10_succ. f_equal. lia.
Qed.

Lemma digits_value_fixed w n :
  (0 < w)%nat -> 0 <= n < 10 ^ Z.of_nat w ->
  digits_value (fixed_digits w n) = Some n.
Proof.
  intros Hw Hn. destruct w as [|w]; [lia|].
  unfold digits_value. cbn [fixed_digits].
  change (digit (n / 10 ^ Z.of_nat w mod 10) :: fixed_digits w n)
    with (fixed_digits (S w) n).
  rewrite digits_value_from_fixed, Z.mod_small by assumption. reflexivity.
Qed.

Lemma zpad_fixed w n : n < 10 ^ Z.of_nat w -> zpad w n = fixed_digits w n.
Proof.
  intros Hn. unfold zpad.
  destruct (Z.ltb_spec n (10 ^ Z.of_nat w)); [reflexivity | lia].
Qed.

(** Zero-padded numbers of one width compare as the numbers do. *)
Lemma compare_chars_fixed w a b r1 r2 :
  compare_chars (fixed_digits w a ++ r1) (fixed_digits w b ++ r2)
  = match a mod 10 ^ Z.of_nat w ?= b mod 10 ^ Z.of_nat w with
    | Eq => compare_chars r1 r2
    | c => c
    end.
Proof.
  induction w as [|w IH].
  - simpl. rewrite !Z.mod_1_r. reflexivity.
  - cbn [fixed_digits app compare_chars].
    rewrite !code_digit by apply mod10_digit.
    rewrite IH, !mod_pow10_split.
    pose proof (pow10_pos w) as HP.
    set (P := 10 ^ Z.of_nat w) in *.
    pose proof (Z.mod_pos_bound a P HP). pose proof (Z.mod_pos_bound b P HP).
    set (da := a / P mod 10). set (db := b / P mod 10).
    set (ra := a mod P) in *. set (rb := b mod P) in *.
    destruct (Z.compare_spec (48 + da) (48 + db)) as [E | L | G].
    + assert (da = db) as -> by lia.
      destruct (Z.compare_spec ra rb) as [-> | L | G].
      * rewrite Z.compare_refl. reflexivity.
      * replace (db * P + ra ?= db * P + rb) with Lt
          by (symmetry; apply Z.compare_lt_iff; lia). reflexivity.
      * replace (db * P + ra ?= db * P + rb) with Gt
          by (symmetry; apply Z.compare_gt_iff; lia). reflexivity.
    + replace (da * P + ra ?= db * P + rb) with Lt
        by (symmetry; apply Z.compare_lt_iff; nia). reflexivity.
    + replace (da * P + ra ?= db * P + rb) with Gt
        by (symmetry; apply Z.compare_gt_iff; nia). reflexivity.
Qed.

Lemma compare_chars_same c r1 r2 :
  compare_chars (c :: r1) (c :: r2) = compare_chars r1 r2.
Proof. cbn [compare_chars]. rewrite Z.compare_refl. reflexivity. Qed.

Lemma compare_chars_refl l : compare_chars l l = Eq.
Proof. induction l as [|c l IH]; [reflexivity|]. rewrite compare_chars_same. exact IH. Qed.

Lemma chars_str l : chars (str l) = l.
Proof. apply list_ascii_of_string_of_list_ascii. Qed.

Lemma str_chars s : str (chars s) = s.
Proof. apply string_of_list_ascii_of_string. Qed.

End DigitFacts.

Ltac us_consts :=
  change US_PER_DAY with 86400000000 in *;
  change US_PER_HOUR with 3600000000 in *;
  change US_PER_MINUTE with 60000000 in *;
  change US_PER_SECOND with 1000000 in *;
  change MAXORDINAL with 3652059 in *.

Section DatetimeFacts.

Lemma wall_in_range_iff w :
  wall_in_range w = true <-> 0 <= w < MAXORDINAL * US_PER_DAY.
Proof. unfold wall_in_range. rewrite andb_true_iff, Z.leb_le, Z.ltb_lt. tauto. Qed.

(** The fields of an in-range object are those of a date and a time of
    day, and they add up to its wall clock. *)
Lemma fields_in_range (u : datetime) :
  wall_in_range (wall u) = true ->
  1 <= toordinal u <= MAXORDINAL /\
  0 <= hour u <= 23 /\ 0 <= minute u <= 59 /\ 0 <= second u <= 59 /\
  0 <= microsecond u <= 999999 /\
  wall u = (toordinal u - 1) * US_PER_DAY + hour u * US_PER_HOUR
           + minute u * US_PER_MINUTE + second u * US_PER_SECOND + microsecond u.
Proof.
  rewrite wall_in_range_iff. unfold toordinal, hour, minute, second, microsecond.
  us_consts. intros H. repeat split; Z.div_mod_to_equations; lia.
Qed.

Lemma ymd_valid (u : datetime) :
  wall_in_range (wall u) = true ->
  valid_date (ymd u).1.1 (ymd u).1.2 (ymd u).2 /\
  ymd2ord (ymd u).1.1 (ymd u).1.2 (ymd u).2 = toordinal u.
Proof.
  intros H. apply ymd2ord_ord2ymd. apply fields_in_range. assumption.
Qed.

Lemma valid_date_bounds y m d :
  valid_date y m d -> 1 <= y <= 9999 /\ 1 <= m <= 12 /\ 1 <= d <= 31.
Proof.
  intros (Hy & Hm & Hd). unfold MINYEAR, MAXYEAR in Hy.
  repeat split; try lia. rewrite days_in_month_eq in Hd.
  destruct (is_leap y);
    destruct (month_cases m Hm)
      as [->|[->|[->|[->|[->|[->|[->|[->|[->|[->|[->| ->]]]]]]]]]]];
    unfold DAYS_IN_MONTH in Hd; calc_bool; lia.
Qed.

Lemma format_date_fixed (u : datetime) :
  wall_in_range (wall u) = true ->
  format_date u
  = fixed_digits 4 (ymd u).1.1 ++ dash :: fixed_digits 2 (ymd u).1.2
    ++ dash :: fixed_digits 2 (ymd u).2.
Proof.
  intros H. destruct (ymd_valid u H) as [V _].
  apply valid_date_bounds in V. unfold format_date.
  destruct (ymd u) as [[y m] d]. cbn [fst snd] in *.
  rewrite !zpad_fixed by (simpl; lia). reflexivity.
Qed.

Lemma fraction_chars_fixed us :
  0 <= us <= 999999 ->
  fraction_chars us = if us =? 0 then [] else dot :: fixed_digits 6 us.
Proof.
  intros H. unfold fraction_chars. rewrite zpad_fixed by (simpl; lia). reflexivity.
Qed.

Lemma format_offset_utc : format_offset UTC = chars "+00:00".
Proof. reflexivity. Qed.

Lemma isoformat_chars_utc sep (u : datetime) :
  normalized_utc u ->
  isoformat_chars sep u
  = fixed_digits 4 (ymd u).1.1 ++ dash :: fixed_digits 2 (ymd u).1.2
    ++ dash :: fixed_digits 2 (ymd u).2
    ++ sep :: fixed_digits 2 (hour u) ++ colon :: fixed_digits 2 (minute u)
    ++ colon :: fixed_digits 2 (second u)
    ++ fraction_chars (microsecond u) ++ chars "+00:00".
Proof.
  intros [Hoff Hr]. unfold isoformat_chars.
  destruct (fields_in_range u Hr) as (_ & Hh & Hm & Hs & Hus & _).
  rewrite format_date_fixed, Hoff, format_offset_utc by assumption.
  rewrite !zpad_fixed by (simpl; lia).
  rewrite <- !app_assoc. cbn [app]. rewrite <- !app_assoc. cbn [app].
  reflexivity.
Qed.

Lemma field_fixed (w : nat) n (post : list ascii) :
  (0 < w)%nat -> 0 <= n < 10 ^ Z.of_nat w ->
  field (fixed_digits w n ++ post) 0 w = Some n.
Proof.
  intros Hw Hn. unfold field. rewrite drop_0.
  rewrite take_app_length' by (symmetry; apply length_fixed_digits).
  rewrite length_fixed_digits, Nat.eqb_refl.
  apply digits_value_fixed; assumption.
Qed.

Lemma field_cons c l pos len : field (c :: l) (S pos) len = field l pos len.
Proof. reflexivity. Qed.

Lemma field_app pre l pos len n :
  length pre = n -> (n <= pos)%nat ->
  field (pre ++ l) pos len = field l (pos - n) len.
Proof.
  intros <- Hle. unfold field. rewrite drop_app_ge by assumption. reflexivity.
Qed.

Lemma char_at_cons x l pos c : char_at (x :: l) (S pos) c = char_at l pos c.
Proof. reflexivity. Qed.

Lemma char_at_head c l : char_at (c :: l) 0 c = true.
Proof. unfold char_at. cbn. apply Ascii.eqb_refl. Qed.

Lemma char_at_app pre l pos c n :
  length pre = n -> (n <= pos)%nat ->
  char_at (pre ++ l) pos c = char_at l (pos - n) c.
Proof.
  intros <- Hle. unfold char_at. rewrite lookup_app_r by assumption. reflexivity.
Qed.

Lemma drop_app_known {A} (pre l : list A) pos n :
  length pre = n -> (n <= pos)%nat -> drop pos (pre ++ l) = drop (pos - n) l.
Proof. intros <- Hle. apply drop_app_ge. assumption. Qed.

Lemma parse_offset_utc : parse_offset (chars "+00:00") = Some UTC.
Proof. reflexivity. Qed.

Lemma parse_fraction_utc us :
  0 <= us <= 999999 ->
  parse_fraction (fraction_chars us ++ chars "+00:00") = Some (us, chars "+00:00").
Proof.
  intros Hus. rewrite fraction_chars_fixed by assumption.
  destruct (Z.eqb_spec us 0) as [-> | Hne]; [reflexivity|].
  cbn [app parse_fraction]. rewrite Ascii.eqb_refl.
  rewrite field_cons, field_fixed by (lia || (simpl; lia)).
  cbn [mbind option_bind]. reflexivity.
Qed.

(** The wall clock that the fields of an in-range object add up to, as
    [datetime_new] computes it. *)
Lemma datetime_new_fields (u : datetime) :
  wall_in_range (wall u) = true ->
  datetime_new (ymd u).1.1 (ymd u).1.2 (ymd u).2 (hour u) (minute u) (second u)
    (microsecond u) (utcoffset u) = Ok u.
Proof.
  intros Hr.
  destruct (fields_in_range u Hr) as (Hord & Hh & Hm & Hs & Hus & Hwall).
  destruct (ymd_valid u Hr) as [(Hy & Hmo & Hd) Hymd].
  unfold datetime_new.
  repeat match goal with
  | |- context [negb ((?a <=? ?b) && (?c <=? ?d))] =>
      replace ((a <=? b) && (c <=? d)) with true
        by (symmetry; apply andb_true_iff; split; apply Z.leb_le; lia);
      cbn [negb]
  end.
  rewrite Hymd, <- Hwall. destruct u; reflexivity.
Qed.

(** [fromisoformat] reads back what [isoformat] writes for a normalized
    instant. *)
Lemma fromisoformat_isoformat (u : datetime) :
  normalized_utc u -> fromisoformat (isoformat u) = Ok u.
Proof.
  intros Hn. pose proof Hn as [Hoff Hr].
  destruct (fields_in_range u Hr) as (Hord & Hh & Hm & Hs & Hus & Hwall).
  destruct (ymd_valid u Hr) as [V Hymd].
  pose proof (valid_date_bounds _ _ _ V) as (Hy & Hmo & Hd).
  pose proof (datetime_new_fields u Hr) as Hnew.
  unfold fromisoformat, isoformat. rewrite chars_str, isoformat_chars_utc by assumption.
  set (y := (ymd u).1.1) in *. set (m := (ymd u).1.2) in *. set (d := (ymd u).2) in *.
  set (tail := fraction_chars (microsecond u) ++ chars "+00:00").
  assert (L4 : forall n, length (fixed_digits 4 n) = 4%nat)
    by (intros; apply length_fixed_digits).
  assert (L2 : forall n, length (fixed_digits 2 n) = 2%nat)
    by (intros; apply length_fixed_digits).
  unfold parse_iso.
  repeat first
    [ rewrite field_fixed by (lia || (simpl; lia))
    | rewrite field_cons
    | rewrite (field_app (fixed_digits 4 _) _ _ _ 4) by (apply L4 || lia); cbn [Nat.sub]
    | rewrite (field_app (fixed_digits 2 _) _ _ _ 2) by (apply L2 || lia); cbn [Nat.sub] ].
  cbn [mbind option_bind].
  repeat first
    [ rewrite char_at_head
    | rewrite char_at_cons
    | rewrite (char_at_app (fixed_digits 4 _) _ _ _ 4) by (apply L4 || lia); cbn [Nat.sub]
    | rewrite (char_at_app (fixed_digits 2 _) _ _ _ 2) by (apply L2 || lia); cbn [Nat.sub] ].
  cbn [andb negb].
  replace (length _ =? 10)%nat with false.
  2:{ symmetry. apply Nat.eqb_neq. rewrite !length_app, L4. cbn [length].
      rewrite !length_app, L2. cbn [length]. rewrite !length_app, L2. cbn [length]. lia. }
  replace (drop 19 _) with tail.
  2:{ symmetry.
      repeat first
        [ rewrite (drop_app_known (fixed_digits 4 _) _ _ 4) by (apply L4 || lia); cbn [Nat.sub]
        | rewrite (drop_app_known (fixed_digits 2 _) _ _ 2) by (apply L2 || lia); cbn [Nat.sub]
        | progress cbn [drop] ].
      reflexivity. }
  subst tail. rewrite parse_fraction_utc by assumption.
  cbn [mbind option_bind]. rewrite parse_offset_utc. cbn [mbind option_bind].
  rewrite <- Hoff. exact Hnew.
Qed.

End DatetimeFacts.

Section IsoOrder.

Lemma compare_fraction us1 us2 :
  0 <= us1 <= 999999 -> 0 <= us2 <= 999999 ->
  compare_chars (fraction_chars us1 ++ chars "+00:00")
                (fraction_chars us2 ++ chars "+00:00")
  = (us1 ?= us2).
Proof.
  intros H1 H2. rewrite !fraction_chars_fixed by assumption.
  destruct (Z.eqb_spec us1 0) as [-> | N1], (Z.eqb_spec us2 0) as [-> | N2].
  - reflexivity.
  - cbn [app]. symmetry. replace (0 ?= us2) with Lt
      by (symmetry; apply Z.compare_lt_iff; lia). reflexivity.
  - cbn [app]. symmetry. replace (us1 ?= 0) with Gt
      by (symmetry; apply Z.compare_gt_iff; lia). reflexivity.
  - cbn [app]. rewrite compare_chars_same, compare_chars_fixed, compare_chars_refl.
    rewrite !Z.mod_small by (simpl; lia). destruct (us1 ?= us2); reflexivity.
Qed.

(** Lexicographic order on the time line read off the fields. *)
Lemma compare_by_fields o1 h1 m1 s1 us1 o2 h2 m2 s2 us2 :
  0 <= h1 <= 23 -> 0 <= m1 <= 59 -> 0 <= s1 <= 59 -> 0 <= us1 <= 999999 ->
  0 <= h2 <= 23 -> 0 <= m2 <= 59 -> 0 <= s2 <= 59 -> 0 <= us2 <= 999999 ->
  match o1 ?= o2 with
  | Eq => match h1 ?= h2 with
          | Eq => match m1 ?= m2 with
                  | Eq => match s1 ?= s2 with
                          | Eq => us1 ?= us2
                          | c => c
                          end
                  | c => c
                  end
          | c => c
          end
  | c => c
  end
  = ((o1 - 1) * US_PER_DAY + h1 * US_PER_HOUR + m1 * US_PER_MINUTE
     + s1 * US_PER_SECOND + us1
     ?= (o2 - 1) * US_PER_DAY + h2 * US_PER_HOUR + m2 * US_PER_MINUTE
        + s2 * US_PER_SECOND + us2).
Proof.
  intros. us_consts. symmetry.
  destruct (Z.compare_spec o1 o2);
    [destruct (Z.compare_spec h1 h2);
      [destruct (Z.compare_spec m1 m2);
        [destruct (Z.compare_spec s1 s2);
          [destruct (Z.compare_spec us1 us2)| |]| |]| |]| |];
    first [apply Z.compare_eq_iff | apply Z.compare_lt_iff | apply Z.compare_gt_iff];
    lia.
Qed.

(** On normalized instants the ISO strings are in the order of the
    instants. *)
Lemma isoformat_compare (u1 u2 : datetime) :
  normalized_utc u1 -> normalized_utc u2 ->
  PyStr.compare (isoformat u1) (isoformat u2) = (wall u1 ?= wall u2).
Proof.
  intros N1 N2. pose proof N1 as [_ R1]. pose proof N2 as [_ R2].
  destruct (fields_in_range u1 R1) as (_ & Hh1 & Hm1 & Hs1 & Hus1 & Hw1).
  destruct (fields_in_range u2 R2) as (_ & Hh2 & Hm2 & Hs2 & Hus2 & Hw2).
  destruct (ymd_valid u1 R1) as [V1 E1]. destruct (ymd_valid u2 R2) as [V2 E2].
  pose proof (valid_date_bounds _ _ _ V1) as (By1 & Bm1 & Bd1).
  pose proof (valid_date_bounds _ _ _ V2) as (By2 & Bm2 & Bd2).
  unfold PyStr.compare, isoformat.
  rewrite !chars_str, !isoformat_chars_utc by assumption.
  repeat first [rewrite compare_chars_fixed | rewrite compare_chars_same].
  rewrite compare_fraction by assumption.
  rewrite !Z.mod_small by (simpl; lia).
  rewrite Hw1, Hw2, <- E1, <- E2.
  rewrite <- compare_by_fields by assumption.
  rewrite (ymd2ord_compare _ _ _ _ _ _ V1 V2).
  destruct ((ymd u1).1.1 ?= (ymd u2).1.1); [|reflexivity..].
  destruct ((ymd u1).1.2 ?= (ymd u2).1.2); [|reflexivity..].
  destruct ((ymd u1).2 ?= (ymd u2).2); reflexivity.
Qed.

Lemma isoformat_ltb (u1 u2 : datetime) :
  normalized_utc u1 -> normalized_utc u2 ->
  PyStr.ltb (isoformat u1) (isoformat u2) = (wall u1 <? wall u2).
Proof.
  intros N1 N2. unfold PyStr.ltb. rewrite isoformat_compare by assumption.
  unfold Z.ltb. destruct (wall u1 ?= wall u2); reflexivity.
Qed.

Lemma isoformat_inj (u1 u2 : datetime) :
  normalized_utc u1 -> normalized_utc u2 ->
  isoformat u1 = isoformat u2 -> u1 = u2.
Proof.
  intros N1 N2 E.
  pose proof (fromisoformat_isoformat u1 N1) as F1.
  pose proof (fromisoformat_isoformat u2 N2) as F2.
  rewrite E in F1. congruence.
Qed.

End IsoOrder.

(** * Facts about loops and sorting *)

Lemma bind_Ok_inv {A B : Type} (r : result A) (k : A -> result B) (b : B) :
  r ≫= k = Ok b -> exists a, r = Ok a /\ k a = Ok b.
Proof. destruct r as [a|e]; cbn; [eauto | discriminate]. Qed.

Ltac bind_inv H :=
  repeat (let a := fresh "a" in
          let Ha := fresh "Ha" in
          apply bind_Ok_inv in H; destruct H as (a & Ha & H)).

Section LoopFacts.
Context {A B : Type}.
Implicit Types (f : A -> result B) (l : list A).

Lemma for_each_app f l1 l2 :
  for_each f (l1 ++ l2)
  = (ys1 ← for_each f l1; ys2 ← for_each f l2; Ok (ys1 ++ ys2)).
Proof.
  induction l1 as [|x l1 IH]; cbn [app for_each].
  - cbn. destruct (for_each f l2); reflexivity.
  - destruct (f x) as [y|e]; cbn; [|reflexivity]. rewrite IH.
    destruct (for_each f l1) as [ys1|e]; cbn; [|reflexivity].
    destruct (for_each f l2); reflexivity.
Qed.

Lemma for_each_Ok f l ys :
  for_each f l = Ok ys <-> Forall2 (fun x y => f x = Ok y) l ys.
Proof.
  revert ys. induction l as [|x l IH]; intros ys; cbn [for_each].
  - split; [intros [= <-]; constructor | intros H; inversion H; reflexivity].
  - split.
    + destruct (f x) as [y|e] eqn:E; cbn; [|discriminate].
      destruct (for_each f l) as [ys'|e] eqn:E'; cbn; [|discriminate].
      intros [= <-]. constructor; [assumption | apply IH; reflexivity].
    + intros H. inversion H as [|x' y l' ys' Hxy Hrest]; subst.
      rewrite Hxy. cbn. apply IH in Hrest. rewrite Hrest. reflexivity.
Qed.

Lemma for_each_total f l :
  (forall x, x ∈ l -> exists y, f x = Ok y) -> exists ys, for_each f l = Ok ys.
Proof.
  induction l as [|x l IH]; intros H; cbn [for_each].
  - eexists; reflexivity.
  - destruct (H x) as [y Hy]; [left|]. rewrite Hy. cbn.
    destruct IH as [ys Hys]; [intros; apply H; right; assumption|].
    rewrite Hys. eexists; reflexivity.
Qed.

Lemma for_each_ext f g l :
  (forall x, x ∈ l -> f x = g x) -> for_each f l = for_each g l.
Proof.
  induction l as [|x l IH]; intros H; cbn [for_each]; [reflexivity|].
  rewrite (H x) by left. rewrite IH by (intros; apply H; right; assumption).
  reflexivity.
Qed.

End LoopFacts.

Lemma appended_app {A} (rs1 rs2 : list (option A)) :
  appended (rs1 ++ rs2) = appended rs1 ++ appended rs2.
Proof. unfold appended. apply omap_app. Qed.

Lemma elem_of_appended {A} (x : A) (rs : list (option A)) :
  x ∈ appended rs <-> Some x ∈ rs.
Proof.
  unfold appended. rewrite list_elem_of_omap. split.
  - intros (o & Ho & Hx). simpl in Hx. subst. assumption.
  - intros H. exists (Some x). split; [assumption | reflexivity].
Qed.

Section SortFacts.
Context {A : Type} (lt : A -> A -> bool) (key : A -> Z).
Implicit Types (l : list A) (x y : A).

Lemma insert_desc_perm x l : insert_desc lt x l ≡ₚ x :: l.
Proof.
  induction l as [|y l IH]; cbn [insert_desc]; [reflexivity|].
  destruct (lt x y); [|reflexivity].
  rewrite IH. apply Permutation_swap.
Qed.

Lemma sorted_reverse_perm l : sorted_reverse lt l ≡ₚ l.
Proof.
  induction l as [|x l IH]; [reflexivity|].
  unfold sorted_reverse in *. cbn [foldr]. rewrite insert_desc_perm, IH. reflexivity.
Qed.

Lemma elem_of_sorted_reverse x l : x ∈ sorted_reverse lt l <-> x ∈ l.
Proof. rewrite sorted_reverse_perm. reflexivity. Qed.

Lemma keyed_on_perm l l' : l ≡ₚ l' -> keyed_on lt key l -> keyed_on lt key l'.
Proof. intros P H x y Hx Hy. apply H; rewrite P; assumption. Qed.

Lemma keyed_on_tail x l : keyed_on lt key (x :: l) -> keyed_on lt key l.
Proof. intros H a b Ha Hb. apply H; right; assumption. Qed.

Lemma insert_desc_descending x l :
  keyed_on lt key (x :: l) -> descending key l -> descending key (insert_desc lt x l).
Proof.
  unfold descending. induction l as [|y l IH]; intros K S; cbn [insert_desc].
  - repeat constructor.
  - inversion S as [|? ? S' F]; subst.
    rewrite (K x y) by (repeat constructor).
    destruct (Z.ltb_spec (key x) (key y)) as [L | G].
    + constructor.
      * apply IH; [|assumption].
        intros a b Ha Hb. apply K.
        -- apply elem_of_cons in Ha as [-> | Ha]; [left | right; right; assumption].
        -- apply elem_of_cons in Hb as [-> | Hb]; [left | right; right; assumption].
      * rewrite (Forall_forall _ _). intros z Hz.
        rewrite insert_desc_perm in Hz.
        apply elem_of_cons in Hz as [-> | Hz]; [lia|].
        rewrite Forall_forall in F. apply F. assumption.
    + constructor; [assumption|]. constructor; [lia|].
      eapply Forall_impl; [exact F|]. intros z Hz. simpl in Hz. lia.
Qed.

Lemma sorted_reverse_descending l :
  keyed_on lt key l -> descending key (sorted_reverse lt l).
Proof.
  induction l as [|x l IH]; intros K.
  - constructor.
  - unfold sorted_reverse in *. cbn [foldr]. apply insert_desc_descending.
    + eapply keyed_on_perm; [|exact K]. constructor. symmetry. apply sorted_reverse_perm.
    + apply IH. eapply keyed_on_tail. exact K.
Qed.

Lemma descending_adjacent l (i : nat) a b :
  descending key l -> l !! i = Some a -> l !! S i = Some b -> key b <= key a.
Proof.
  intros S. revert i. induction S as [|x l S IH F]; intros i Ha Hb.
  - discriminate.
  - destruct i as [|i].
    + cbn in Ha, Hb. injection Ha as ->.
      rewrite Forall_forall in F. apply F. eapply list_elem_of_lookup_2. exact Hb.
    + cbn in Ha, Hb. eapply IH; eassumption.
Qed.

Lemma filter_insert_desc k x l :
  keyed_on lt key (x :: l) ->
  filter (fun z => key z = k) (insert_desc lt x l)
  = filter (fun z => key z = k) (x :: l).
Proof.
  induction l as [|y l IH]; intros K; cbn [insert_desc]; [reflexivity|].
  rewrite (K x y) by (repeat constructor).
  destruct (Z.ltb_spec (key x) (key y)) as [L | G]; [|reflexivity].
  rewrite filter_cons, IH.
  2:{ intros a b Ha Hb. apply K.
      - apply elem_of_cons in Ha as [-> | Ha]; [left | right; right; assumption].
      - apply elem_of_cons in Hb as [-> | Hb]; [left | right; right; assumption]. }
  rewrite !filter_cons.
  destruct (decide (key y = k)), (decide (key x = k)); try reflexivity. lia.
Qed.

(** Stability: the elements of one key keep their order. *)
Lemma sorted_reverse_stable k l :
  keyed_on lt key l ->
  filter (fun z => key z = k) (sorted_reverse lt l) = filter (fun z => key z = k) l.
Proof.
  induction l as [|x l IH]; intros K; [reflexivity|].
  unfold sorted_reverse in *. cbn [foldr]. rewrite filter_insert_desc.
  - rewrite !filter_cons, IH by (eapply keyed_on_tail; exact K). reflexivity.
  - eapply keyed_on_perm; [|exact K]. constructor. symmetry. apply sorted_reverse_perm.
Qed.

End SortFacts.

(** * Facts about the adapters *)

Section NormalizationFacts.

Lemma add_timedelta_Ok d delta r :
  add_timedelta d delta = Ok r ->
  wall r = wall d + delta /\ utcoffset r = utcoffset d /\ wall_in_range (wall r) = true.
Proof.
  unfold add_timedelta. destruct (wall_in_range (wall d + delta)) eqn:E; [|discriminate].
  intros [= <-]. cbn. repeat split. exact E.
Qed.

Lemma sub_timedelta_Ok d delta r :
  sub_timedelta d delta = Ok r ->
  wall r = wall d - delta /\ utcoffset r = utcoffset d /\ wall_in_range (wall r) = true.
Proof.
  unfold sub_timedelta. intros H. apply add_timedelta_Ok in H as (H1 & H2 & H3).
  repeat split; assumption.
Qed.

(** [astimezone(timezone.utc)] yields a normalized instant: the wall
    clock minus the offset that was in force, the system's for a naive
    object. *)
Lemma astimezone_utc_Ok local d u :
  astimezone local utc_zone d = Ok u ->
  normalized_utc u /\
  wall u = wall d - match utcoffset d with
                    | Some o => o
                    | None => offset_at_wall local (wall d)
                    end.
Proof.
  unfold astimezone.
  destruct (sub_timedelta d _) as [utc|e] eqn:E1; cbn; [|discriminate].
  destruct (add_timedelta utc _) as [r|e] eqn:E2; cbn; [|discriminate].
  intros [= <-]. apply sub_timedelta_Ok in E1 as (W1 & _ & _).
  apply add_timedelta_Ok in E2 as (W2 & _ & R2). cbn in W2.
  split; [split; [reflexivity | exact R2]|]. cbn. lia.
Qed.

(** It succeeds on what is already normalized, and changes nothing. *)
Lemma astimezone_utc_normalized local u :
  normalized_utc u -> astimezone local utc_zone u = Ok u.
Proof.
  intros [Hoff Hr]. unfold astimezone, sub_timedelta, add_timedelta.
  rewrite Hoff. cbn. replace (wall u + - 0) with (wall u) by lia.
  rewrite Hr. cbn. replace (wall u + 0) with (wall u) by lia. rewrite Hr. cbn.
  destruct u as [wl off]. cbn in *. subst off. reflexivity.
Qed.

Lemma ymd2ord_range y m d :
  valid_date y m d -> 1 <= ymd2ord y m d <= MAXORDINAL.
Proof.
  intros (Hy & Hm & Hd). unfold MINYEAR, MAXYEAR in Hy. unfold ymd2ord.
  pose proof (day_of_year_bound y m d Hm Hd).
  pose proof (days_before_year_succ y).
  pose proof (days_before_year_mono 1 y ltac:(lia)).
  pose proof (days_before_year_mono (y + 1) 10000 ltac:(lia)).
  change (days_before_year 1) with 0 in *.
  change (days_before_year 10000) with 3652059 in *.
  change MAXORDINAL with 3652059.
  destruct (is_leap y); simpl Z.b2z in *; lia.
Qed.

Lemma datetime_new_Ok y m d hh mm ss us tz u :
  datetime_new y m d hh mm ss us tz = Ok u ->
  valid_date y m d /\ 0 <= hh <= 23 /\ 0 <= mm <= 59 /\ 0 <= ss <= 59 /\
  0 <= us <= 999999 /\
  u = Datetime ((ymd2ord y m d - 1) * US_PER_DAY + hh * US_PER_HOUR
                + mm * US_PER_MINUTE + ss * US_PER_SECOND + us) tz /\
  wall_in_range (wall u) = true.
Proof.
  unfold datetime_new.
  repeat match goal with
  | |- context [negb ?b] => destruct b eqn:?; cbn [negb]; [|discriminate]
  end.
  intros [= <-].
  repeat match goal with
  | H : _ && _ = true |- _ => apply andb_true_iff in H as [? ?]
  | H : (_ <=? _) = true |- _ => apply Z.leb_le in H
  end.
  assert (V : valid_date y m d) by (unfold valid_date; lia).
  pose proof (ymd2ord_range y m d V).
  repeat split; try lia. cbn [wall]. apply wall_in_range_iff. us_consts. lia.
Qed.

Lemma datetime_new_valid y m d hh mm ss us tz :
  valid_date y m d -> 0 <= hh <= 23 -> 0 <= mm <= 59 -> 0 <= ss <= 59 ->
  0 <= us <= 999999 ->
  datetime_new y m d hh mm ss us tz
  = Ok (Datetime ((ymd2ord y m d - 1) * US_PER_DAY + hh * US_PER_HOUR
                  + mm * US_PER_MINUTE + ss * US_PER_SECOND + us) tz).
Proof.
  intros (Hy & Hm & Hd) Hh Hmi Hs Hus. unfold datetime_new.
  repeat match goal with
  | |- context [negb ((?a <=? ?b) && (?c <=? ?d))] =>
      replace ((a <=? b) && (c <=? d)) with true
        by (symmetry; apply andb_true_iff; split; apply Z.leb_le; lia);
      cbn [negb]
  end.
  reflexivity.
Qed.

Lemma noon_utc_Ok d u :
  noon_utc d = Ok u ->
  normalized_utc u /\ valid_date (date_year d) (date_month d) (date_day d) /\
  wall u = (ymd2ord (date_year d) (date_month d) (date_day d) - 1) * US_PER_DAY
           + 12 * US_PER_HOUR.
Proof.
  unfold noon_utc. intros H.
  apply datetime_new_Ok in H as (V & _ & _ & _ & _ & -> & R).
  split; [split; [reflexivity | exact R]|]. split; [exact V|]. cbn. lia.
Qed.

End NormalizationFacts.

Section AdapterFacts.
Variable w : World.

Lemma stamped_timestamp it u :
  normalized_utc u -> Main.it_dt it = isoformat u ->
  fromisoformat (Main.it_dt it) = Ok u /\ Main.timestamp it = wall u.
Proof.
  intros N E. unfold Main.timestamp. rewrite E, fromisoformat_isoformat by assumption.
  split; [reflexivity|]. unfold instant. destruct N as [-> _]. cbn. lia.
Qed.

Lemma rss_entry_stamped url fp e it :
  Main.rss_entry w url fp e = Ok (Some it) -> Main.stamped it.
Proof.
  unfold Main.rss_entry. intros H.
  apply bind_Ok_inv in H as ([cand|] & _ & H); [|discriminate].
  bind_inv H. injection H as <-.
  match goal with
  | E : astimezone _ _ _ = Ok ?u |- _ =>
      exists u; split; [apply (astimezone_utc_Ok _ _ _ E) | reflexivity]
  end.
Qed.

Lemma ics_component_stamped url comp it :
  Main.ics_component w url comp = Ok (Some it) -> Main.stamped it.
Proof.
  unfold Main.ics_component. intros H.
  destruct (negb _); [discriminate|].
  destruct (comp_dtstart comp) as [[d|dt]|]; [| |discriminate];
    apply bind_Ok_inv in H as (u & E & H); injection H as <-;
    exists u; (split; [|reflexivity]).
  - apply noon_utc_Ok in E. apply E.
  - apply astimezone_utc_Ok in E. apply E.
Qed.

Lemma for_each_appended_Forall {X Y} (f : X -> result (option Y)) (P : Y -> Prop) xs rs :
  (forall x y, f x = Ok (Some y) -> P y) ->
  for_each f xs = Ok rs -> Forall P (appended rs).
Proof.
  intros Hf H. apply for_each_Ok in H. apply Forall_forall. intros y Hy.
  apply elem_of_appended in Hy.
  apply list_elem_of_lookup in Hy as [i Hi].
  destruct (Forall2_lookup_r _ _ _ _ _ H Hi) as (x & _ & Hx).
  eapply Hf. exact Hx.
Qed.

Lemma fetch_rss_stamped url items :
  Main.fetch_rss w url = Ok items -> Forall Main.stamped items.
Proof.
  unfold Main.fetch_rss. intros H. bind_inv H. injection H as <-.
  eapply for_each_appended_Forall; [|eassumption].
  intros e it. apply rss_entry_stamped.
Qed.

Lemma fetch_ics_stamped url items :
  Main.fetch_ics w url = Ok items -> Forall Main.stamped items.
Proof.
  unfold Main.fetch_ics. intros H. bind_inv H. injection H as <-.
  eapply for_each_appended_Forall; [|eassumption].
  intros e it. apply ics_component_stamped.
Qed.

End AdapterFacts.

(** * Facts about the run driver *)

Section DriverFacts.
Variable w : World.

Lemma within_window_aware dt since o1 o2 :
  utcoffset dt = Some o1 -> utcoffset since = Some o2 ->
  Main.within_window dt since = Ok (bool_decide (instant since <= instant dt)).
Proof.
  intros H1 H2. unfold Main.within_window, dt_ge, dt_compare. rewrite H1, H2. cbn.
  f_equal. destruct (Z.compare_spec (instant dt) (instant since));
    symmetry; [apply bool_decide_eq_true | apply bool_decide_eq_false
              | apply bool_decide_eq_true]; lia.
Qed.

Lemma dt_lt_aware dt since o1 o2 :
  utcoffset dt = Some o1 -> utcoffset since = Some o2 ->
  dt_lt dt since = Ok (bool_decide (instant dt < instant since)).
Proof.
  intros H1 H2. unfold dt_lt, dt_compare. rewrite H1, H2. cbn.
  f_equal. destruct (Z.compare_spec (instant dt) (instant since));
    symmetry; [apply bool_decide_eq_false | apply bool_decide_eq_true
              | apply bool_decide_eq_false]; lia.
Qed.

(** On items that carry a normalized instant the inner loop never
    raises, and it keeps exactly those not older than [since]. *)
Lemma keep_within_stamped since o fetched acc :
  utcoffset since = Some o -> Forall Main.stamped fetched ->
  Main.keep_within since fetched acc
  = (acc ++ filter (fun it => instant since <= Main.timestamp it) fetched, None).
Proof.
  intros Hs HF. revert acc. induction HF as [|it fetched (u & N & E) _ IH]; intros acc.
  - cbn. rewrite app_nil_r. reflexivity.
  - cbn [Main.keep_within].
    destruct (stamped_timestamp it u N E) as [Hp Ht]. rewrite Hp.
    cbn [mbind result_bind].
    rewrite (within_window_aware u since 0 o) by (assumption || apply N).
    assert (Hi : instant u = Main.timestamp it).
    { rewrite Ht. unfold instant. destruct N as [-> _]. cbn. lia. }
    rewrite Hi, filter_cons.
    destruct (decide (instant since <= Main.timestamp it)) as [Y | Y].
    + rewrite bool_decide_eq_true_2 by assumption. rewrite IH, <- app_assoc. reflexivity.
    + rewrite bool_decide_eq_false_2 by assumption. apply IH.
Qed.

Lemma keep_within_acc since fetched acc :
  Main.keep_within since fetched acc
  = (acc ++ (Main.keep_within since fetched []).1, (Main.keep_within since fetched []).2).
Proof.
  revert acc. induction fetched as [|it fetched IH]; intros acc; cbn [Main.keep_within].
  - cbn. rewrite app_nil_r. reflexivity.
  - destruct (_ ≫= _) as [[|]|e]; cbn.
    + rewrite (IH (acc ++ [it])), (IH [it]). cbn. rewrite <- app_assoc. reflexivity.
    + apply IH.
    + rewrite app_nil_r. reflexivity.
Qed.

(** What one source adds to [all_items] and to [sys.stderr]. *)
Lemma try_source_acc fetch what since st url :
  Main.try_source fetch what since st url
  = (st.1 ++ (Main.try_source fetch what since ([], []) url).1,
     st.2 ++ (Main.try_source fetch what since ([], []) url).2).
Proof.
  destruct st as [items err]. unfold Main.try_source. cbn [fst snd].
  destruct (fetch url) as [fetched|e]; cbn.
  - rewrite (keep_within_acc since fetched items).
    destruct (Main.keep_within since fetched []) as [kept [e|]]; cbn;
      rewrite ?app_nil_r; reflexivity.
  - rewrite app_nil_r. reflexivity.
Qed.

Lemma foldl_try_source fetch what since st urls :
  foldl (Main.try_source fetch what since) st urls
  = (st.1 ++ concat (map (fun u => (Main.try_source fetch what since ([], []) u).1) urls),
     st.2 ++ concat (map (fun u => (Main.try_source fetch what since ([], []) u).2) urls)).
Proof.
  revert st. induction urls as [|u urls IH]; intros st; cbn [foldl map concat].
  - rewrite !app_nil_r. destruct st; reflexivity.
  - rewrite IH, (try_source_acc fetch what since st u). cbn [fst snd].
    rewrite <- !app_assoc. reflexivity.
Qed.

Lemma try_source_raise fetch what since url e :
  fetch url = Raise e ->
  Main.try_source fetch what since ([], []) url = ([], [Main.warning what url e]).
Proof. intros H. unfold Main.try_source. rewrite H. reflexivity. Qed.

Lemma try_source_ok fetch what since o url fetched :
  utcoffset since = Some o -> Forall Main.stamped fetched ->
  fetch url = Ok fetched ->
  Main.try_source fetch what since ([], []) url
  = (filter (fun it => instant since <= Main.timestamp it) fetched, []).
Proof.
  intros Hs HF H. unfold Main.try_source. rewrite H.
  rewrite (keep_within_stamped since o) by assumption. reflexivity.
Qed.

Lemma try_source_items_stamped fetch what since url :
  (forall items, fetch url = Ok items -> Forall Main.stamped items) ->
  Forall Main.stamped (Main.try_source fetch what since ([], []) url).1.
Proof.
  intros Hf. unfold Main.try_source. destruct (fetch url) as [fetched|e] eqn:E; cbn.
  2:{ constructor. }
  specialize (Hf fetched eq_refl).
  assert (G : forall acc, Forall Main.stamped acc ->
            Forall Main.stamped (Main.keep_within since fetched acc).1).
  { clear E. induction Hf as [|it fetched Hit _ IH]; intros acc Hacc; cbn [Main.keep_within].
    - exact Hacc.
    - destruct (_ ≫= _) as [[|]|e]; cbn.
      + apply IH. apply Forall_app. split; [assumption | repeat constructor; assumption].
      + apply IH. assumption.
      + assumption. }
  specialize (G [] ltac:(constructor)).
  destruct (Main.keep_within since fetched []) as [kept [e|]]; exact G.
Qed.

(** Every item a run collects carries a normalized instant. *)
Lemma collect_stamped since rss_urls ics_urls :
  Forall Main.stamped (Main.collect w since rss_urls ics_urls).1.
Proof.
  unfold Main.collect. rewrite !foldl_try_source. cbn [fst snd app].
  apply Forall_app. split; apply Forall_concat, Forall_map, Forall_forall;
    intros u _; apply try_source_items_stamped.
  - apply fetch_rss_stamped.
  - apply fetch_ics_stamped.
Qed.

End DriverFacts.

(** * The claims *)

Section VariantFacts.
Variable w : World.

(** In the variant the body of the loop drops an entry for its age only:
    once past the window test it appends or raises. *)
Lemma entry_item_window since o source e dt dt_utc :
  utcoffset since = Some o ->
  RssOnly.parse_dt e = Ok (Some dt) ->
  astimezone (local_zone w) utc_zone
    (match utcoffset dt with None => replace_tzinfo dt UTC | Some _ => dt end)
  = Ok dt_utc ->
  (RssOnly.entry_item w since source e = Ok None <-> instant dt_utc < instant since).
Proof.
  intros Hs Hp Ha. unfold RssOnly.entry_item. rewrite Hp. cbn [mbind result_bind].
  rewrite Ha. cbn [mbind result_bind].
  destruct (astimezone_utc_Ok _ _ _ Ha) as [[Hoff _] _].
  rewrite (dt_lt_aware dt_utc since 0 o) by assumption. cbn [mbind result_bind].
  destruct (decide (instant dt_utc < instant since)) as [Y | N].
  - rewrite bool_decide_eq_true_2 by assumption. tauto.
  - rewrite bool_decide_eq_false_2 by assumption.
    split; [|lia].
    destruct (py_strip (RssOnly.get_or_empty e "title")); cbn [mbind result_bind];
      [|discriminate].
    destruct (py_strip (RssOnly.get_or_empty e "link")); cbn [mbind result_bind];
      [|discriminate].
    rewrite orb_true_r. discriminate.
Qed.

End VariantFacts.

(** C1. The Window Filter keeps an item exactly when its normalized
    timestamp is at or after [now - window], in both programs: the
    comparison of [within_window], the loop of [main] that applies it to
    the fetched items through their ISO strings, and the test
    [dt_utc < since] of the RSS-only variant. The boundary is inclusive: an
    item stamped exactly [now - window] is kept, one stamped a second
    earlier is not. *)
Theorem window_filter_inclusive (w : World) (now since : datetime) (window off : Z) :
  utcoffset now = Some off ->
  sub_timedelta now window = Ok since ->
  (forall dt o, utcoffset dt = Some o ->
     Main.within_window dt since
     = Ok (bool_decide (instant now - window <= instant dt))) /\
  (forall fetched acc, Forall Main.stamped fetched ->
     Main.keep_within since fetched acc
     = (acc ++ filter (fun it => instant now - window <= Main.timestamp it) fetched,
        None)) /\
  (forall it acc, Main.stamped it ->
     Main.timestamp it = instant now - window ->
     Main.keep_within since [it] acc = (acc ++ [it], None)) /\
  (forall it acc, Main.stamped it ->
     Main.timestamp it = instant now - window - US_PER_SECOND ->
     Main.keep_within since [it] acc = (acc, None)) /\
  (forall source e dt dt_utc,
     RssOnly.parse_dt e = Ok (Some dt) ->
     astimezone (local_zone w) utc_zone
       (match utcoffset dt with None => replace_tzinfo dt UTC | Some _ => dt end)
     = Ok dt_utc ->
     (RssOnly.entry_item w since source e = Ok None
      <-> instant dt_utc < instant now - window)).
Proof.
  intros Hnow Hsince.
  destruct (sub_timedelta_Ok _ _ _ Hsince) as (Hw & Hoff & _).
  assert (Hs : utcoffset since = Some off) by congruence.
  assert (Hi : instant since = instant now - window).
  { unfold instant. rewrite Hw, Hs, Hnow. cbn. lia. }
  assert (Hkeep : forall fetched acc, Forall Main.stamped fetched ->
     Main.keep_within since fetched acc
     = (acc ++ filter (fun it => instant now - window <= Main.timestamp it) fetched,
        None)).
  { intros fetched acc HF. rewrite (keep_within_stamped since off) by assumption.
    rewrite Hi. reflexivity. }
  split; [|split; [|split; [|split]]].
  - intros dt o Hdt. rewrite (within_window_aware dt since o off) by assumption.
    rewrite Hi. reflexivity.
  - exact Hkeep.
  - intros it acc Hst Ht. rewrite Hkeep by (repeat constructor; assumption).
    rewrite filter_cons, decide_True by lia. reflexivity.
  - intros it acc Hst Ht. rewrite Hkeep by (repeat constructor; assumption).
    rewrite filter_cons, decide_False by (us_consts; lia). cbn. rewrite app_nil_r.
    reflexivity.
  - intros source e dt dt_utc Hp Ha. rewrite <- Hi.
    apply (entry_item_window w since off source e dt); assumption.
Qed.

(** An item stamped 2024-03-14 18:00:00 UTC, and one stamped a second
    earlier. *)
Lemma window_filter_inclusive_witness :
  utcoffset Examples.sample_now = Some 0 /\
  sub_timedelta Examples.sample_now (timedelta_hours 24)
  = Ok (Datetime (wall Examples.sample_now - timedelta_hours 24) UTC) /\
  Main.within_window
    (Datetime (wall Examples.sample_now - timedelta_hours 24) UTC)
    (Datetime (wall Examples.sample_now - timedelta_hours 24) UTC) = Ok true /\
  Main.within_window
    (Datetime (wall Examples.sample_now - timedelta_hours 24 - US_PER_SECOND) UTC)
    (Datetime (wall Examples.sample_now - timedelta_hours 24) UTC) = Ok false.
Proof.
  split; [reflexivity|]. split; [reflexivity|].
  destruct (window_filter_inclusive (Examples.bare_utc_machine [] [])
              Examples.sample_now
              (Datetime (wall Examples.sample_now - timedelta_hours 24) UTC)
              (timedelta_hours 24) 0 eq_refl eq_refl) as [H _].
  split.
  - exact (H (Datetime (wall Examples.sample_now - timedelta_hours 24) UTC) 0 eq_refl).
  - exact (H (Datetime (wall Examples.sample_now - timedelta_hours 24 - US_PER_SECOND) UTC)
             0 eq_refl).
Defined.

Section NaiveTimestamps.
Variable w : World.

(** [fetch_rss] hands a naive candidate to [astimezone], which reads it
    on the clock of the machine. *)
Lemma rss_naive_read_as_local url fp e d it :
  Main.dt_candidate w e = Ok (Some d) -> utcoffset d = None ->
  Main.rss_entry w url fp e = Ok (Some it) ->
  exists u, Main.it_dt it = isoformat u /\ normalized_utc u /\
            wall u = wall d - offset_at_wall (local_zone w) (wall d).
Proof.
  intros Hc Hn H. unfold Main.rss_entry in H. rewrite Hc in H.
  cbn [mbind result_bind] in H. bind_inv H. injection H as <-.
  match goal with
  | E : Main.to_dt w (ODatetime d) = Ok ?x |- _ => cbn in E; injection E as <-
  end.
  match goal with
  | E : astimezone _ _ _ = Ok ?u |- _ =>
      exists u; destruct (astimezone_utc_Ok _ _ _ E) as [N W]
  end.
  rewrite Hn in W. repeat split; try assumption; apply N.
Qed.

(** [fetch_ics] tags a naive DTSTART as UTC before it converts. *)
Lemma ics_naive_read_as_utc url comp dt :
  comp_name comp = "VEVENT" -> comp_dtstart comp = Some (DDatetime dt) ->
  utcoffset dt = None -> wall_in_range (wall dt) = true ->
  exists it, Main.ics_component w url comp = Ok (Some it) /\
             Main.it_dt it = isoformat (replace_tzinfo dt UTC).
Proof.
  intros Hname Hstart Hn Hr. unfold Main.ics_component.
  rewrite Hname, Hstart, Hn. cbn [String.eqb negb].
  rewrite astimezone_utc_normalized by (split; [reflexivity | exact Hr]).
  cbn [mbind result_bind]. eexists. split; reflexivity.
Qed.

(** So does the loop of the RSS-only variant. *)
Lemma variant_naive_read_as_utc since source e dt :
  RssOnly.parse_dt e = Ok (Some dt) ->
  utcoffset dt = None -> wall_in_range (wall dt) = true ->
  forall it, RssOnly.entry_item w since source e = Ok (Some it) ->
             RssOnly.it_when it = replace_tzinfo dt UTC.
Proof.
  intros Hp Hn Hr it H. unfold RssOnly.entry_item in H. rewrite Hp in H.
  cbn [mbind result_bind] in H. rewrite Hn in H.
  rewrite astimezone_utc_normalized in H by (split; [reflexivity | exact Hr]).
  cbn [mbind result_bind] in H.
  apply bind_Ok_inv in H as ([|] & _ & H); [discriminate|].
  bind_inv H. destruct (negb _); [discriminate|]. injection H as <-. reflexivity.
Qed.

End NaiveTimestamps.

(** C2. A timestamp without a time zone is to be read as UTC. [fetch_ics]
    and the RSS-only variant do so; [fetch_rss] of [src/main.py] does not:
    on a machine in New York the entry published at ["2024-03-15 10:00:00"]
    is stored as 14:00 UTC, where the wall clock tagged UTC is 10:00 UTC.
    The same wall clock in a calendar, and the same entry in the variant,
    come out as 10:00 UTC. *)
Theorem naive_rss_timestamp_read_as_local_time :
  let w := Examples.new_york_machine
             [(Examples.feed_url, Examples.naive_feed)]
             [(Examples.calendar_url, Examples.floating_calendar)] in
  Main.fetch_rss w Examples.feed_url
  = Ok [Main.Item "rss" "Mass.gov news" "Budget hearing announced"
          "https://example.org/budget" "2024-03-15T14:00:00+00:00"] /\
  (d ← dateutil_parse w "2024-03-15 10:00:00"; Ok (utcoffset d, isoformat (replace_tzinfo d UTC)))
  = Ok (None, "2024-03-15T10:00:00+00:00") /\
  Main.fetch_ics w Examples.calendar_url
  = Ok [Main.Item "ics" Examples.calendar_url "Ways and Means hearing" EmptyString
          "2024-03-15T10:00:00+00:00"] /\
  (items ← RssOnly.feed_items w (Datetime 0 UTC) Examples.feed_url;
   Ok (map (fun it => isoformat (RssOnly.it_when it)) items))
  = Ok ["2024-03-15T10:00:00+00:00"].
Proof. vm_compute. repeat split; reflexivity. Qed.

Section FallbackChain.
Variable w : World.
Variable e : gmap string pyobj.

Lemma main_text_candidate_wins keys (i : nat) key v d :
  keys !! i = Some key -> e !! key = Some v -> Main.to_dt w v = Ok d ->
  (forall (j : nat) key', (j < i)%nat -> keys !! j = Some key' ->
     forall v', e !! key' = Some v' -> is_ok (Main.to_dt w v') = false) ->
  Main.text_candidate w e keys = Some d.
Proof.
  revert i. induction keys as [|k keys IH]; intros i Hi Hv Hd Hbefore; [discriminate|].
  destruct i as [|i]; cbn [Main.text_candidate].
  - cbn in Hi. injection Hi as ->. rewrite Hv, Hd. reflexivity.
  - cbn in Hi.
    assert (Hrest : Main.text_candidate w e keys = Some d).
    { apply (IH i); try assumption. intros j key' Hj Hk v' Hv'.
      apply (Hbefore (S j) key'); [lia | exact Hk | exact Hv']. }
    destruct (e !! k) as [v0|] eqn:E0; [|exact Hrest].
    specialize (Hbefore 0%nat k ltac:(lia) eq_refl v0 E0).
    destruct (Main.to_dt w v0); [discriminate | exact Hrest].
Qed.

Lemma main_text_candidate_none keys :
  (forall key v, key ∈ keys -> e !! key = Some v -> is_ok (Main.to_dt w v) = false) ->
  Main.text_candidate w e keys = None.
Proof.
  induction keys as [|k keys IH]; intros H; cbn [Main.text_candidate]; [reflexivity|].
  assert (Hrest : Main.text_candidate w e keys = None)
    by (apply IH; intros key v Hin; apply H; right; exact Hin).
  destruct (e !! k) as [v0|] eqn:E0; [|exact Hrest].
  specialize (H k v0 ltac:(left) E0).
  destruct (Main.to_dt w v0); [discriminate | exact Hrest].
Qed.

Lemma variant_text_candidate_wins keys (i : nat) key v d :
  keys !! i = Some key -> e !! key = Some v -> fromisoformat (py_str v) = Ok d ->
  (forall (j : nat) key', (j < i)%nat -> keys !! j = Some key' ->
     forall v', e !! key' = Some v' -> is_ok (fromisoformat (py_str v')) = false) ->
  RssOnly.text_candidate e keys = Some d.
Proof.
  revert i. induction keys as [|k keys IH]; intros i Hi Hv Hd Hbefore; [discriminate|].
  destruct i as [|i]; cbn [RssOnly.text_candidate].
  - cbn in Hi. injection Hi as ->. rewrite Hv, Hd. reflexivity.
  - cbn in Hi.
    assert (Hrest : RssOnly.text_candidate e keys = Some d).
    { apply (IH i); try assumption. intros j key' Hj Hk v' Hv'.
      apply (Hbefore (S j) key'); [lia | exact Hk | exact Hv']. }
    destruct (e !! k) as [v0|] eqn:E0; [|exact Hrest].
    specialize (Hbefore 0%nat k ltac:(lia) eq_refl v0 E0).
    destruct (fromisoformat (py_str v0)); [discriminate | exact Hrest].
Qed.

Lemma variant_text_candidate_none keys :
  (forall key v, key ∈ keys -> e !! key = Some v ->
     is_ok (fromisoformat (py_str v)) = false) ->
  RssOnly.text_candidate e keys = None.
Proof.
  induction keys as [|k keys IH]; intros H; cbn [RssOnly.text_candidate]; [reflexivity|].
  assert (Hrest : RssOnly.text_candidate e keys = None)
    by (apply IH; intros key v Hin; apply H; right; exact Hin).
  destruct (e !! k) as [v0|] eqn:E0; [|exact Hrest].
  specialize (H k v0 ltac:(left) E0).
  destruct (fromisoformat (py_str v0)); [discriminate | exact Hrest].
Qed.

End FallbackChain.

(** C3. The timestamp of an RSS entry is the first value that parses
    among the text fields [published], [updated], [created], in this
    order: a field that is absent or whose parse raises is passed over.
    When none of the three parses and [published_parsed] holds a time
    tuple, the timestamp is the datetime of its first six fields with
    [tzinfo=timezone.utc]. This holds for [fetch_rss] (parsing with
    dateutil) and for [parse_dt] of the variant (parsing with
    [fromisoformat]). *)
Theorem rss_timestamp_fallback_order (w : World) (e : gmap string pyobj) :
  (forall (i : nat) key v d,
     ["published"; "updated"; "created"] !! i = Some key ->
     e !! key = Some v -> Main.to_dt w v = Ok d ->
     (forall (j : nat) key', (j < i)%nat ->
        ["published"; "updated"; "created"] !! j = Some key' ->
        forall v', e !! key' = Some v' -> is_ok (Main.to_dt w v') = false) ->
     Main.dt_candidate w e = Ok (Some d)) /\
  ((forall key v, key ∈ ["published"; "updated"; "created"] -> e !! key = Some v ->
      is_ok (Main.to_dt w v) = false) ->
   forall t, e !! "published_parsed" = Some (OStructTime t) ->
     Main.dt_candidate w e
     = (d ← datetime_new (tm_year t) (tm_mon t) (tm_mday t)
             (tm_hour t) (tm_min t) (tm_sec t) 0 UTC;
        Ok (Some d))) /\
  (forall (i : nat) key v d,
     ["published"; "updated"; "created"] !! i = Some key ->
     e !! key = Some v -> fromisoformat (py_str v) = Ok d ->
     (forall (j : nat) key', (j < i)%nat ->
        ["published"; "updated"; "created"] !! j = Some key' ->
        forall v', e !! key' = Some v' -> is_ok (fromisoformat (py_str v')) = false) ->
     RssOnly.parse_dt e = Ok (Some d)) /\
  ((forall key v, key ∈ ["published"; "updated"; "created"] -> e !! key = Some v ->
      is_ok (fromisoformat (py_str v)) = false) ->
   forall t, e !! "published_parsed" = Some (OStructTime t) ->
     RssOnly.parse_dt e
     = (d ← datetime_new (tm_year t) (tm_mon t) (tm_mday t)
             (tm_hour t) (tm_min t) (tm_sec t) 0 UTC;
        Ok (Some d))).
Proof.
  split; [|split; [|split]].
  - intros i key v d Hi Hv Hd Hbefore. unfold Main.dt_candidate.
    rewrite (main_text_candidate_wins w e Main.text_keys i key v d Hi Hv Hd Hbefore).
    reflexivity.
  - intros Hnone t Ht. unfold Main.dt_candidate.
    rewrite (main_text_candidate_none w e Main.text_keys Hnone), Ht. reflexivity.
  - intros i key v d Hi Hv Hd Hbefore. unfold RssOnly.parse_dt.
    rewrite (variant_text_candidate_wins e RssOnly.text_keys i key v d Hi Hv Hd Hbefore).
    reflexivity.
  - intros Hnone t Ht. unfold RssOnly.parse_dt, RssOnly.has_truthy.
    rewrite (variant_text_candidate_none e RssOnly.text_keys Hnone), Ht. reflexivity.
Qed.

(** An entry whose [published] does not parse and whose [updated] does. *)
Lemma rss_timestamp_fallback_order_witness :
  let w := Examples.bare_utc_machine [] [] in
  let e := Examples.entry_of [("published", OStr "yesterday");
                              ("updated", OStr "2024-03-15T10:00:00+00:00")] in
  ["published"; "updated"; "created"] !! 1%nat = Some "updated" /\
  e !! "updated" = Some (OStr "2024-03-15T10:00:00+00:00") /\
  Main.to_dt w (OStr "2024-03-15T10:00:00+00:00")
  = Ok (Datetime (Examples.at_hour (ymd2ord 2024 3 15) 10) UTC) /\
  Main.dt_candidate w e = Ok (Some (Datetime (Examples.at_hour (ymd2ord 2024 3 15) 10) UTC)).
Proof.
  intros w e.
  assert (H1 : ["published"; "updated"; "created"] !! 1%nat = Some "updated")
    by reflexivity.
  assert (H2 : e !! "updated" = Some (OStr "2024-03-15T10:00:00+00:00"))
    by (vm_compute; reflexivity).
  assert (H3 : Main.to_dt w (OStr "2024-03-15T10:00:00+00:00")
               = Ok (Datetime (Examples.at_hour (ymd2ord 2024 3 15) 10) UTC))
    by (vm_compute; reflexivity).
  split; [exact H1|]. split; [exact H2|]. split; [exact H3|].
  apply (proj1 (rss_timestamp_fallback_order w e) 1%nat "updated" _ _ H1 H2 H3).
  intros j key' Hj Hk v' Hv'. destruct j as [|j]; [|lia].
  injection Hk as <-.
  assert (H0 : e !! "published" = Some (OStr "yesterday")) by (vm_compute; reflexivity).
  rewrite H0 in Hv'. injection Hv' as <-. vm_compute. reflexivity.
Defined.

Section DisplayFacts.
Variable w : World.

Lemma str_app l1 l2 : str (l1 ++ l2) = str l1 +:+ str l2.
Proof.
  unfold str. induction l1 as [|c l1 IH]; cbn; [reflexivity|]. rewrite IH. reflexivity.
Qed.

Lemma append_assoc (a b c : string) : (a +:+ b) +:+ c = a +:+ (b +:+ c).
Proof.
  induction a as [|x a IH]; [reflexivity|].
  change (String x ((a +:+ b) +:+ c) = String x (a +:+ (b +:+ c))).
  f_equal. exact IH.
Qed.

Lemma strftime_ymd_hm_text r :
  strftime_ymd_hm r
  = date_text (ymd r).1.1 (ymd r).1.2 (ymd r).2
    +:+ " " +:+ str (zpad 2 (hour r)) +:+ ":" +:+ str (zpad 2 (minute r)).
Proof.
  unfold strftime_ymd_hm, date_text, format_date.
  destruct (ymd r) as [[y m] d]. cbn [fst snd].
  rewrite str_app. f_equal.
  change (str (" "%char :: zpad 2 (hour r) ++ colon :: zpad 2 (minute r)))
    with (String " "%char (str (zpad 2 (hour r) ++ colon :: zpad 2 (minute r)))).
  rewrite str_app. reflexivity.
Qed.

(** The clock of a zone at noon UTC of a day: the same day, as long as
    the zone is less than twelve hours away from UTC. *)
Lemma noon_shifted y m d off r :
  valid_date y m d ->
  - 12 * US_PER_HOUR <= off < 12 * US_PER_HOUR ->
  wall r = (ymd2ord y m d - 1) * US_PER_DAY + 12 * US_PER_HOUR + off ->
  wall_in_range (wall r) = true /\ ymd r = (y, m, d) /\
  hour r = (12 * US_PER_HOUR + off) / US_PER_HOUR /\
  minute r = (12 * US_PER_HOUR + off) mod US_PER_HOUR / US_PER_MINUTE.
Proof.
  intros V Hoff Hw. pose proof (ymd2ord_range y m d V) as Hord.
  unfold ymd, toordinal, hour, minute. rewrite Hw. clear Hw r.
  set (o := ymd2ord y m d) in *.
  assert (Hday : ((o - 1) * US_PER_DAY + 12 * US_PER_HOUR + off) / US_PER_DAY = o - 1)
    by (us_consts; Z.div_mod_to_equations; lia).
  split; [|split; [|split]].
  - apply wall_in_range_iff. us_consts. lia.
  - rewrite Hday. replace (o - 1 + 1) with o by lia.
    subst o. apply ord2ymd_ymd2ord. exact V.
  - us_consts. Z.div_mod_to_equations. lia.
  - us_consts. Z.div_mod_to_equations. lia.
Qed.

(** [iso_ny] on noon UTC of a day, with a tz database. *)
Lemma iso_ny_noon_zone y m d u ny off :
  valid_date y m d ->
  datetime_new y m d 12 0 0 0 UTC = Ok u ->
  zoneinfo w "America/New_York" = Some ny ->
  offset_at_utc ny (wall u) = off ->
  - 12 * US_PER_HOUR <= off < 12 * US_PER_HOUR ->
  Main.iso_ny w u
  = Ok (date_text y m d +:+ " "
        +:+ str (zpad 2 ((12 * US_PER_HOUR + off) / US_PER_HOUR)) +:+ ":"
        +:+ str (zpad 2 ((12 * US_PER_HOUR + off) mod US_PER_HOUR / US_PER_MINUTE))).
Proof.
  intros V Hnew Hz Hoff Hrange.
  pose proof (datetime_new_Ok _ _ _ _ _ _ _ _ _ Hnew) as (_ & _ & _ & _ & _ & Hu & Hr).
  assert (Hw : wall u = (ymd2ord y m d - 1) * US_PER_DAY + 12 * US_PER_HOUR)
    by (rewrite Hu; cbn [wall]; lia).
  assert (Ho : utcoffset u = UTC) by (rewrite Hu; reflexivity).
  clear Hu Hnew.
  set (r := Datetime (wall u + off) (Some off)).
  destruct (noon_shifted y m d off r V Hrange) as (R & Hymd & Hh & Hm).
  { subst r. cbn [wall]. rewrite Hw. reflexivity. }
  unfold Main.iso_ny, Main.iso_ny_zoneinfo. rewrite Hz.
  unfold astimezone, sub_timedelta, add_timedelta. rewrite Ho. cbn [UTC].
  replace (wall u + - 0) with (wall u) by lia. rewrite Hr.
  cbn [mbind result_bind wall utcoffset]. rewrite Hoff.
  change (wall_in_range (wall u + off)) with (wall_in_range (wall r)). rewrite R.
  cbn [mbind result_bind wall]. fold r.
  rewrite strftime_ymd_hm_text, Hymd, Hh, Hm. reflexivity.
Qed.

(** [iso_ny] on noon UTC of a day, without a tz database. *)
Lemma iso_ny_noon_bare y m d u :
  valid_date y m d ->
  datetime_new y m d 12 0 0 0 UTC = Ok u ->
  zoneinfo w "America/New_York" = None ->
  Main.iso_ny w u = Ok (date_text y m d +:+ " 12:00 UTC").
Proof.
  intros V Hnew Hz.
  pose proof (datetime_new_Ok _ _ _ _ _ _ _ _ _ Hnew) as (_ & _ & _ & _ & _ & Hu & Hr).
  assert (Hw : wall u = (ymd2ord y m d - 1) * US_PER_DAY + 12 * US_PER_HOUR + 0)
    by (rewrite Hu; cbn [wall]; lia).
  assert (Ho : utcoffset u = UTC) by (rewrite Hu; reflexivity).
  clear Hu Hnew.
  destruct (noon_shifted y m d 0 u V ltac:(us_consts; lia) Hw) as (_ & Hymd & Hh & Hm).
  unfold Main.iso_ny, Main.iso_ny_zoneinfo. rewrite Hz.
  rewrite astimezone_utc_normalized by (split; assumption). cbn [mbind result_bind].
  rewrite strftime_ymd_hm_text, Hymd, Hh, Hm. cbn [fst snd].
  change (str (zpad 2 ((12 * US_PER_HOUR + 0) / US_PER_HOUR))) with "12".
  change (str (zpad 2 ((12 * US_PER_HOUR + 0) mod US_PER_HOUR / US_PER_MINUTE))) with "00".
  rewrite !append_assoc. reflexivity.
Qed.

End DisplayFacts.

(** The original wording of C4 fails: on a machine with the tz database
    the whole-day event of 2024-03-15 is stored as 12:00 UTC and shown at
    08:00, New York time, not at 12:00. *)
Lemma date_only_event_not_displayed_at_noon :
  let w := Examples.new_york_machine []
             [(Examples.calendar_url, Examples.whole_day_calendar)] in
  let it := Main.Item "ics" Examples.calendar_url "Joint Committee hearing" EmptyString
              "2024-03-15T12:00:00+00:00" in
  Main.fetch_ics w Examples.calendar_url = Ok [it] /\
  Main.ics_bullet w it
  = Ok "- **2024-03-15 08:00** — Joint Committee hearing  _https://example.org/hearings.ics_" /\
  ~ (exists rest, Main.ics_bullet w it = Ok ("- **2024-03-15 12:00" +:+ rest)).
Proof.
  intros w it.
  assert (H : Main.ics_bullet w it
    = Ok "- **2024-03-15 08:00** — Joint Committee hearing  _https://example.org/hearings.ics_")
    by (vm_compute; reflexivity).
  split; [vm_compute; reflexivity|]. split; [exact H|].
  intros [rest Hrest]. rewrite H in Hrest. discriminate Hrest.
Qed.

(** C4, amended. A VEVENT whose DTSTART is a date becomes an item stamped
    12:00 UTC on that date. The report shows it on the same date, at the
    New York clock of that instant: 12:00 moved by the offset of the zone
    (07:00 under EST, 08:00 under EDT). Without a tz database it shows
    12:00 with the suffix UTC. *)
Theorem date_only_event_noon_utc_same_day
  (w : World) (url : string) (comp : component) (d : date) :
  comp_name comp = "VEVENT" ->
  comp_dtstart comp = Some (DDate d) ->
  valid_date (date_year d) (date_month d) (date_day d) ->
  exists it u,
    Main.ics_component w url comp = Ok (Some it) /\
    datetime_new (date_year d) (date_month d) (date_day d) 12 0 0 0 UTC = Ok u /\
    Main.it_dt it = isoformat u /\
    fromisoformat (Main.it_dt it) = Ok u /\
    (forall ny off,
       zoneinfo w "America/New_York" = Some ny ->
       offset_at_utc ny (wall u) = off ->
       - 12 * US_PER_HOUR <= off < 12 * US_PER_HOUR ->
       Main.iso_ny w u
       = Ok (date_text (date_year d) (date_month d) (date_day d) +:+ " "
             +:+ str (zpad 2 ((12 * US_PER_HOUR + off) / US_PER_HOUR)) +:+ ":"
             +:+ str (zpad 2 ((12 * US_PER_HOUR + off) mod US_PER_HOUR
                              / US_PER_MINUTE)))) /\
    (forall ny,
       zoneinfo w "America/New_York" = Some ny ->
       offset_at_utc ny (wall u) = - 5 * US_PER_HOUR ->
       Main.iso_ny w u
       = Ok (date_text (date_year d) (date_month d) (date_day d) +:+ " 07:00")) /\
    (forall ny,
       zoneinfo w "America/New_York" = Some ny ->
       offset_at_utc ny (wall u) = - 4 * US_PER_HOUR ->
       Main.iso_ny w u
       = Ok (date_text (date_year d) (date_month d) (date_day d) +:+ " 08:00")) /\
    (zoneinfo w "America/New_York" = None ->
       Main.iso_ny w u
       = Ok (date_text (date_year d) (date_month d) (date_day d) +:+ " 12:00 UTC")).
Proof.
  intros Hname Hstart V.
  pose proof (datetime_new_valid (date_year d) (date_month d) (date_day d) 12 0 0 0 UTC V
                ltac:(lia) ltac:(lia) ltac:(lia) ltac:(lia)) as Hnew.
  set (u := Datetime _ UTC) in Hnew.
  assert (N : normalized_utc u).
  { apply noon_utc_Ok with (d := d). exact Hnew. }
  exists (Main.Item "ics" url (default "(no title)" (comp_summary comp))
            (match comp_url comp with
             | Some url_field => if truthy url_field then url_field else EmptyString
             | None => EmptyString
             end)
            (isoformat u)), u.
  split; [|split; [exact Hnew|split; [reflexivity|split]]].
  - unfold Main.ics_component. rewrite Hname, Hstart. cbn [String.eqb negb].
    unfold noon_utc. rewrite Hnew. reflexivity.
  - cbn [Main.it_dt]. apply fromisoformat_isoformat. exact N.
  - split; [|split; [|split]].
    + intros ny off Hz Hoff Hrange.
      apply (iso_ny_noon_zone w _ _ _ u ny off); assumption.
    + intros ny Hz Hoff.
      rewrite (iso_ny_noon_zone w _ _ _ u ny _ V Hnew Hz Hoff) by (us_consts; lia).
      apply (f_equal (fun s => Ok (date_text (date_year d) (date_month d) (date_day d)
                                     +:+ s))).
      vm_compute. reflexivity.
    + intros ny Hz Hoff.
      rewrite (iso_ny_noon_zone w _ _ _ u ny _ V Hnew Hz Hoff) by (us_consts; lia).
      apply (f_equal (fun s => Ok (date_text (date_year d) (date_month d) (date_day d)
                                     +:+ s))).
      vm_compute. reflexivity.
    + intros Hz. apply (iso_ny_noon_bare w _ _ _ u); assumption.
Qed.

(** The whole-day event of 2024-03-15 on a machine in New York. *)
Lemma date_only_event_noon_utc_same_day_witness :
  let comp := Component "VEVENT" (Some "Joint Committee hearing")
                (Some (DDate (Date 2024 3 15))) None None in
  comp_name comp = "VEVENT" /\
  comp_dtstart comp = Some (DDate (Date 2024 3 15)) /\
  valid_date 2024 3 15 /\
  exists it u,
    Main.ics_component (Examples.new_york_machine [] []) Examples.calendar_url comp
    = Ok (Some it) /\
    datetime_new 2024 3 15 12 0 0 0 UTC = Ok u /\
    Main.it_dt it = isoformat u.
Proof.
  intros comp.
  assert (V : valid_date 2024 3 15) by (unfold valid_date; vm_compute; intuition discriminate).
  split; [reflexivity|]. split; [reflexivity|]. split; [exact V|].
  destruct (date_only_event_noon_utc_same_day (Examples.new_york_machine [] [])
              Examples.calendar_url comp (Date 2024 3 15) eq_refl eq_refl V)
    as (it & u & H1 & H2 & H3 & _).
  exists it, u. split; [exact H1|]. split; [exact H2 | exact H3].
Defined.

Lemma Forall_filtered {A} (P Q : A -> Prop) `{forall x, Decision (Q x)} (l : list A) :
  Forall P l -> Forall P (filter Q l).
Proof.
  rewrite !Forall_forall. intros HF x Hx. apply list_elem_of_filter in Hx as [_ Hx].
  apply HF. exact Hx.
Qed.

Section OrderFacts.
Variable w : World.

(** On items that carry a normalized instant the key of the sort, the
    ISO string, orders as the timestamp does. *)
Lemma dt_key_lt_stamped (l : list Main.item) :
  Forall Main.stamped l -> keyed_on Main.dt_key_lt Main.timestamp l.
Proof.
  intros HF a b Ha Hb. rewrite Forall_forall in HF.
  destruct (HF a Ha) as (ua & Na & Ea). destruct (HF b Hb) as (ub & Nb & Eb).
  destruct (stamped_timestamp a ua Na Ea) as [_ Ta].
  destruct (stamped_timestamp b ub Nb Eb) as [_ Tb].
  unfold Main.dt_key_lt. rewrite Ea, Eb, Ta, Tb. apply isoformat_ltb; assumption.
Qed.

Lemma entry_item_when since source e it :
  RssOnly.entry_item w since source e = Ok (Some it) ->
  normalized_utc (RssOnly.it_when it).
Proof.
  unfold RssOnly.entry_item. intros H.
  apply bind_Ok_inv in H as ([dt|] & _ & H); [|discriminate].
  apply bind_Ok_inv in H as (dt_utc & Ha & H).
  apply bind_Ok_inv in H as ([|] & _ & H); [discriminate|].
  bind_inv H. destruct (negb _); [discriminate|]. injection H as <-.
  cbn [RssOnly.it_when]. apply (astimezone_utc_Ok _ _ _ Ha).
Qed.

Lemma feed_items_when since url items :
  RssOnly.feed_items w since url = Ok items ->
  Forall (fun it => normalized_utc (RssOnly.it_when it)) items.
Proof.
  unfold RssOnly.feed_items. intros H. bind_inv H. injection H as <-.
  eapply for_each_appended_Forall; [|eassumption].
  intros e it. apply entry_item_when.
Qed.

Lemma when_lt_normalized (l : list RssOnly.item) :
  Forall (fun it => normalized_utc (RssOnly.it_when it)) l ->
  keyed_on RssOnly.when_lt (fun it => instant (RssOnly.it_when it)) l.
Proof.
  intros HF a b Ha Hb. rewrite Forall_forall in HF.
  destruct (HF a Ha) as [Oa _]. destruct (HF b Hb) as [Ob _].
  unfold RssOnly.when_lt. rewrite (dt_lt_aware _ _ 0 0) by assumption.
  destruct (Z.ltb_spec (instant (RssOnly.it_when a)) (instant (RssOnly.it_when b)));
    [apply bool_decide_eq_true_2 | apply bool_decide_eq_false_2]; lia.
Qed.

Lemma variant_per_url_when since urls per_url :
  for_each (RssOnly.feed_items w since) urls = Ok per_url ->
  Forall (fun it => normalized_utc (RssOnly.it_when it)) (concat per_url).
Proof.
  intros H. apply for_each_Ok in H. apply Forall_concat.
  apply Forall_forall. intros items Hin.
  apply list_elem_of_lookup in Hin as [i Hi].
  destruct (Forall2_lookup_r _ _ _ _ _ H Hi) as (url & _ & Hu).
  eapply feed_items_when. exact Hu.
Qed.

Lemma rss_section_shown l x rest :
  l = x :: rest ->
  Main.rss_section w l =
    (bullets ← for_each (Main.rss_bullet w) (sorted_reverse Main.dt_key_lt l);
     Ok (["## Press Releases (last 24h)"; EmptyString] ++ bullets ++ [EmptyString])).
Proof. intros ->. reflexivity. Qed.

Lemma ics_section_shown l x rest :
  l = x :: rest ->
  Main.ics_section w l =
    (bullets ← for_each (Main.ics_bullet w) (sorted_reverse Main.dt_key_lt l);
     Ok (["## Hearings & Meetings (last 24h window start times)"; EmptyString]
         ++ bullets ++ [EmptyString])).
Proof. intros ->. reflexivity. Qed.

End OrderFacts.

(** C5. In each category section of the report the items stand in
    descending order of timestamp, and items of equal timestamp keep the
    order in which they were collected. [shown] is the list that
    [render_markdown] walks for the section of type [ty]: the sort
    compares the ISO strings of the items, which order as their instants
    do. The same holds for the one list of the RSS-only variant, sorted on
    the [when] of its items. *)
Theorem sections_sorted_descending_stable
  (w : World) (since : datetime) (rss_urls ics_urls : list string) (ty : string) :
  let items := (Main.collect w since rss_urls ics_urls).1 in
  let section := filter (fun i => Main.is_type ty i = true) items in
  let shown := sorted_reverse Main.dt_key_lt section in
  (forall (i : nat) a b, shown !! i = Some a -> shown !! S i = Some b ->
     Main.timestamp b <= Main.timestamp a) /\
  (forall t, filter (fun it => Main.timestamp it = t) shown
             = filter (fun it => Main.timestamp it = t) section) /\
  shown ≡ₚ section /\
  (forall x rest lines, section = x :: rest ->
     Main.rss_section w section = Ok lines ->
     exists bullets, for_each (Main.rss_bullet w) shown = Ok bullets /\
       lines = ["## Press Releases (last 24h)"; EmptyString] ++ bullets ++ [EmptyString]) /\
  (forall x rest lines, section = x :: rest ->
     Main.ics_section w section = Ok lines ->
     exists bullets, for_each (Main.ics_bullet w) shown = Ok bullets /\
       lines = ["## Hearings & Meetings (last 24h window start times)"; EmptyString]
               ++ bullets ++ [EmptyString]) /\
  (forall urls items', RssOnly.collect w since urls = Ok items' ->
     (forall (i : nat) a b, items' !! i = Some a -> items' !! S i = Some b ->
        instant (RssOnly.it_when b) <= instant (RssOnly.it_when a)) /\
     exists per_url,
       for_each (RssOnly.feed_items w since) urls = Ok per_url /\
       items' ≡ₚ concat per_url /\
       forall t, filter (fun it => instant (RssOnly.it_when it) = t) items'
                 = filter (fun it => instant (RssOnly.it_when it) = t) (concat per_url)).
Proof.
  intros items section shown.
  assert (K : keyed_on Main.dt_key_lt Main.timestamp section).
  { apply dt_key_lt_stamped. apply Forall_filtered. apply collect_stamped. }
  split; [|split; [|split; [|split; [|split]]]].
  - intros i a b Ha Hb.
    apply (descending_adjacent Main.timestamp shown i a b); [|assumption..].
    apply sorted_reverse_descending. exact K.
  - intros t. apply sorted_reverse_stable. exact K.
  - apply sorted_reverse_perm.
  - intros x rest lines Hs H. rewrite (rss_section_shown w _ _ _ Hs) in H.
    apply bind_Ok_inv in H as (bullets & Hb & H).
    injection H as <-. exists bullets. split; [exact Hb | reflexivity].
  - intros x rest lines Hs H. rewrite (ics_section_shown w _ _ _ Hs) in H.
    apply bind_Ok_inv in H as (bullets & Hb & H).
    injection H as <-. exists bullets. split; [exact Hb | reflexivity].
  - intros urls items' H. unfold RssOnly.collect in H.
    apply bind_Ok_inv in H as (per_url & Hp & H). injection H as <-.
    pose proof (when_lt_normalized _ (variant_per_url_when w since urls per_url Hp)) as K'.
    split.
    + intros i a b Ha Hb.
      apply (descending_adjacent (fun it => instant (RssOnly.it_when it))
               (sorted_reverse RssOnly.when_lt (concat per_url)) i a b);
        [|assumption..].
      apply sorted_reverse_descending. exact K'.
    + exists per_url. split; [exact Hp|]. split; [apply sorted_reverse_perm|].
      intros t.
      apply (sorted_reverse_stable RssOnly.when_lt (fun it => instant (RssOnly.it_when it))).
      exact K'.
Qed.

(** Three entries of one feed, the last two of the same second: the two
    come first, in the order of the feed, and the older entry last. *)
Lemma sections_sorted_descending_stable_witness :
  map Main.it_title
    (sorted_reverse Main.dt_key_lt
       (filter (fun i => Main.is_type "rss" i = true)
          (Main.collect
             (Examples.bare_utc_machine [(Examples.feed_url, Examples.busy_feed)] [])
             Examples.sample_since [Examples.feed_url] []).1))
  = ["First at ten"; "Second at ten"; "Morning notice"] /\
  Main.timestamp
    (Main.Item "rss" "Mass.gov news" "Morning notice" "https://example.org/notice"
       "2024-03-15T08:00:00+00:00")
  <= Main.timestamp
       (Main.Item "rss" "Mass.gov news" "Second at ten" "https://example.org/notice"
          "2024-03-15T10:00:00+00:00").
Proof.
  split; [vm_compute; reflexivity|].
  destruct (sections_sorted_descending_stable
              (Examples.bare_utc_machine [(Examples.feed_url, Examples.busy_feed)] [])
              Examples.sample_since [Examples.feed_url] [] "rss") as [H _].
  apply (H 1%nat); vm_compute; reflexivity.
Defined.

Section DroppedRecords.

Lemma for_each_skip {A B : Type} (f : A -> result (option B)) l1 x l2 :
  f x = Ok None ->
  (rs ← for_each f (l1 ++ x :: l2); Ok (appended rs))
  = (rs ← for_each f (l1 ++ l2); Ok (appended rs)).
Proof.
  intros H. rewrite !for_each_app. cbn [for_each]. rewrite H.
  destruct (for_each f l1) as [ys1|e1]; cbn; [|reflexivity].
  destruct (for_each f l2) as [ys2|e2]; cbn; [|reflexivity].
  rewrite !appended_app. reflexivity.
Qed.

Lemma try_source_ext f g what since st urls :
  (forall u, f u = g u) ->
  foldl (Main.try_source f what since) st urls
  = foldl (Main.try_source g what since) st urls.
Proof.
  intros H. revert st. induction urls as [|u urls IH]; intros st; cbn [foldl];
    [reflexivity|].
  rewrite IH. f_equal. unfold Main.try_source. rewrite H. reflexivity.
Qed.

(** A run depends on the world through what the fetches return, the
    configuration, the zones of the display, and the file system. *)
Lemma main_ext (w1 w2 : World) a now date :
  (forall u, Main.fetch_rss w1 u = Main.fetch_rss w2 u) ->
  (forall u, Main.fetch_ics w1 u = Main.fetch_ics w2 u) ->
  read_feeds w1 = read_feeds w2 ->
  zoneinfo w1 = zoneinfo w2 ->
  local_zone w1 = local_zone w2 ->
  os_makedirs w1 = os_makedirs w2 ->
  write_text w1 = write_text w2 ->
  Main.main w1 a now date = Main.main w2 a now date.
Proof.
  intros Hrss Hics Hcfg Hz Hl Hmk Hwr. unfold Main.main.
  destruct (Main.since_of now (Main.arg_since a)) as [since|]; [|reflexivity].
  unfold Main.load_feeds. rewrite Hcfg.
  destruct (read_feeds w2 _) as [[rss_urls ics_urls]|]; [|reflexivity].
  assert (Hc : Main.collect w1 since rss_urls ics_urls
               = Main.collect w2 since rss_urls ics_urls).
  { unfold Main.collect. rewrite (try_source_ext _ _ _ _ _ _ Hrss).
    apply try_source_ext. exact Hics. }
  rewrite Hc. destruct (Main.collect w2 since rss_urls ics_urls) as [all_items err].
  assert (Hiso : forall d, Main.iso_ny w1 d = Main.iso_ny w2 d).
  { intros d. unfold Main.iso_ny, Main.iso_ny_zoneinfo. rewrite Hz, Hl. reflexivity. }
  assert (Hmd : Main.render_markdown w1 all_items date
                = Main.render_markdown w2 all_items date).
  { unfold Main.render_markdown, Main.render_lines, Main.rss_section, Main.ics_section.
    rewrite (for_each_ext (Main.rss_bullet w1) (Main.rss_bullet w2))
      by (intros it _; unfold Main.rss_bullet; destruct (fromisoformat _); cbn;
          [rewrite Hiso|]; reflexivity).
    rewrite (for_each_ext (Main.ics_bullet w1) (Main.ics_bullet w2))
      by (intros it _; unfold Main.ics_bullet; destruct (fromisoformat _); cbn;
          [rewrite Hiso|]; reflexivity).
    reflexivity. }
  rewrite Hmd, Hmk, Hwr. reflexivity.
Qed.

Lemma variant_main_ext (w1 w2 : World) env now date :
  (forall since u, RssOnly.feed_items w1 since u = RssOnly.feed_items w2 since u) ->
  read_feeds w1 = read_feeds w2 ->
  dateutil_gettz w1 = dateutil_gettz w2 ->
  local_zone w1 = local_zone w2 ->
  os_makedirs w1 = os_makedirs w2 ->
  write_text w1 = write_text w2 ->
  RssOnly.main w1 env now date = RssOnly.main w2 env now date.
Proof.
  intros Hf Hcfg Hz Hl Hmk Hwr. unfold RssOnly.main.
  destruct (RssOnly.WINDOW_HOURS env) as [hours|]; [|reflexivity]. cbn.
  destruct (sub_timedelta now (timedelta_hours hours)) as [since|]; [|reflexivity]. cbn.
  unfold RssOnly.load_feeds. rewrite Hcfg.
  destruct (read_feeds w2 _) as [fs|]; [|reflexivity]. cbn.
  destruct fs.1 as [|u urls]; [reflexivity|].
  unfold RssOnly.collect.
  rewrite (for_each_ext (RssOnly.feed_items w1 since) (RssOnly.feed_items w2 since))
    by (intros; apply Hf).
  destruct (for_each _ _) as [per_url|]; [|reflexivity]. cbn.
  assert (Hr : forall its, RssOnly.render_lines w1 its date
                           = RssOnly.render_lines w2 its date).
  { intros its. unfold RssOnly.render_lines.
    rewrite (for_each_ext (RssOnly.bullet w1) (RssOnly.bullet w2))
      by (intros it _; unfold RssOnly.bullet, RssOnly.iso_boston; rewrite Hz, Hl;
          reflexivity).
    reflexivity. }
  rewrite Hr, Hmk, Hwr. reflexivity.
Qed.

Variable w : World.

Lemma rss_entry_undated url fp e :
  (forall key v, key ∈ Main.text_keys -> e !! key = Some v ->
     is_ok (Main.to_dt w v) = false) ->
  RssOnly.has_truthy e "published_parsed" = None ->
  Main.rss_entry w url fp e = Ok None.
Proof.
  intros Htext Hpp. unfold Main.rss_entry, Main.dt_candidate.
  rewrite (main_text_candidate_none w e _ Htext).
  unfold RssOnly.has_truthy in Hpp.
  destruct (e !! "published_parsed") as [pp|]; [|reflexivity].
  destruct (py_truthy pp); [discriminate | reflexivity].
Qed.

Lemma entry_item_undated since source e :
  (forall key v, key ∈ RssOnly.text_keys -> e !! key = Some v ->
     is_ok (fromisoformat (py_str v)) = false) ->
  RssOnly.has_truthy e "published_parsed" = None ->
  RssOnly.has_truthy e "updated_parsed" = None ->
  RssOnly.entry_item w since source e = Ok None.
Proof.
  intros Htext Hpp Hup. unfold RssOnly.entry_item, RssOnly.parse_dt.
  rewrite (variant_text_candidate_none e _ Htext), Hpp, Hup. reflexivity.
Qed.

Lemma ics_component_undated url c :
  comp_dtstart c = None -> Main.ics_component w url c = Ok None.
Proof.
  intros H. unfold Main.ics_component. rewrite H.
  destruct (negb _); reflexivity.
Qed.

Lemma fetch_rss_other_url url fp u :
  String.eqb u url = false ->
  Main.fetch_rss (with_feed w url fp) u = Main.fetch_rss w u.
Proof.
  intros H. unfold Main.fetch_rss. cbn [feedparser_parse with_feed]. rewrite H.
  reflexivity.
Qed.

Lemma fetch_ics_other_url url comps u :
  String.eqb u url = false ->
  Main.fetch_ics (with_calendar w url comps) u = Main.fetch_ics w u.
Proof.
  intros H. unfold Main.fetch_ics. cbn [get_calendar with_calendar]. rewrite H.
  reflexivity.
Qed.

Lemma feed_items_other_url url fp since u :
  String.eqb u url = false ->
  RssOnly.feed_items (with_feed w url fp) since u = RssOnly.feed_items w since u.
Proof.
  intros H. unfold RssOnly.feed_items. cbn [feedparser_parse with_feed]. rewrite H.
  reflexivity.
Qed.

Lemma fetch_rss_skip url meta es1 e es2 u :
  Main.rss_entry w url (ParsedFeed meta (es1 ++ e :: es2)) e = Ok None ->
  Main.fetch_rss (with_feed w url (ParsedFeed meta (es1 ++ e :: es2))) u
  = Main.fetch_rss (with_feed w url (ParsedFeed meta (es1 ++ es2))) u.
Proof.
  intros H. destruct (String.eqb u url) eqn:E.
  - apply String.eqb_eq in E. subst u.
    unfold Main.fetch_rss. cbn [feedparser_parse with_feed].
    rewrite String.eqb_refl. cbn [mbind result_bind entries].
    etransitivity;
      [exact (for_each_skip
                (Main.rss_entry w url (ParsedFeed meta (es1 ++ e :: es2))) es1 e es2 H)|].
    reflexivity.
  - rewrite !fetch_rss_other_url by exact E. reflexivity.
Qed.

Lemma fetch_ics_skip url cs1 c cs2 u :
  Main.ics_component w url c = Ok None ->
  Main.fetch_ics (with_calendar w url (cs1 ++ c :: cs2)) u
  = Main.fetch_ics (with_calendar w url (cs1 ++ cs2)) u.
Proof.
  intros H. destruct (String.eqb u url) eqn:E.
  - apply String.eqb_eq in E. subst u.
    unfold Main.fetch_ics. cbn [get_calendar with_calendar].
    rewrite String.eqb_refl. cbn [mbind result_bind].
    etransitivity; [exact (for_each_skip (Main.ics_component w url) cs1 c cs2 H)|].
    reflexivity.
  - rewrite !fetch_ics_other_url by exact E. reflexivity.
Qed.

Lemma feed_items_skip url meta es1 e es2 since u :
  (forall source, RssOnly.entry_item w since source e = Ok None) ->
  RssOnly.feed_items (with_feed w url (ParsedFeed meta (es1 ++ e :: es2))) since u
  = RssOnly.feed_items (with_feed w url (ParsedFeed meta (es1 ++ es2))) since u.
Proof.
  intros H. destruct (String.eqb u url) eqn:E.
  - apply String.eqb_eq in E. subst u.
    unfold RssOnly.feed_items. cbn [feedparser_parse with_feed].
    rewrite String.eqb_refl. cbn [mbind result_bind entries feed].
    destruct (if (size meta =? 0)%nat then _ else _) as [source|]; [|reflexivity].
    cbn [mbind result_bind].
    etransitivity;
      [exact (for_each_skip (RssOnly.entry_item w since source) es1 e es2 (H source))|].
    reflexivity.
  - rewrite !feed_items_other_url by exact E. reflexivity.
Qed.

End DroppedRecords.

(** C6. A record without a timestamp leaves no trace. An RSS entry none
    of whose text fields parses and that has no [published_parsed] makes
    the loop of [fetch_rss] [continue]; so does a VEVENT without DTSTART
    in [fetch_ics], and in the variant an entry that has no
    [updated_parsed] either. A run on the feed with the record and a run
    on the feed without it end alike: the same lines on [sys.stderr], the
    same report, the same count on [sys.stdout]. *)
Theorem unresolved_records_dropped_silently (w : World) (url : string) :
  (forall meta es1 e es2 a now date,
     (forall key v, key ∈ Main.text_keys -> e !! key = Some v ->
        is_ok (Main.to_dt w v) = false) ->
     RssOnly.has_truthy e "published_parsed" = None ->
     Main.rss_entry w url (ParsedFeed meta (es1 ++ e :: es2)) e = Ok None /\
     Main.fetch_rss (with_feed w url (ParsedFeed meta (es1 ++ e :: es2))) url
     = Main.fetch_rss (with_feed w url (ParsedFeed meta (es1 ++ es2))) url /\
     Main.main (with_feed w url (ParsedFeed meta (es1 ++ e :: es2))) a now date
     = Main.main (with_feed w url (ParsedFeed meta (es1 ++ es2))) a now date) /\
  (forall cs1 c cs2 a now date,
     comp_dtstart c = None ->
     Main.ics_component w url c = Ok None /\
     Main.fetch_ics (with_calendar w url (cs1 ++ c :: cs2)) url
     = Main.fetch_ics (with_calendar w url (cs1 ++ cs2)) url /\
     Main.main (with_calendar w url (cs1 ++ c :: cs2)) a now date
     = Main.main (with_calendar w url (cs1 ++ cs2)) a now date) /\
  (forall meta es1 e es2 env now date,
     (forall key v, key ∈ RssOnly.text_keys -> e !! key = Some v ->
        is_ok (fromisoformat (py_str v)) = false) ->
     RssOnly.has_truthy e "published_parsed" = None ->
     RssOnly.has_truthy e "updated_parsed" = None ->
     (forall since source, RssOnly.entry_item w since source e = Ok None) /\
     RssOnly.main (with_feed w url (ParsedFeed meta (es1 ++ e :: es2))) env now date
     = RssOnly.main (with_feed w url (ParsedFeed meta (es1 ++ es2))) env now date).
Proof.
  split; [|split].
  - intros meta es1 e es2 a now date Htext Hpp.
    pose proof (rss_entry_undated w url (ParsedFeed meta (es1 ++ e :: es2)) e Htext Hpp)
      as He.
    split; [exact He|]. split; [apply fetch_rss_skip; exact He|].
    apply main_ext; try reflexivity.
    intros u. apply fetch_rss_skip. exact He.
  - intros cs1 c cs2 a now date Hc.
    pose proof (ics_component_undated w url c Hc) as He.
    split; [exact He|]. split; [apply fetch_ics_skip; exact He|].
    apply main_ext; try reflexivity.
    intros u. apply fetch_ics_skip. exact He.
  - intros meta es1 e es2 env now date Htext Hpp Hup.
    assert (He : forall since source, RssOnly.entry_item w since source e = Ok None)
      by (intros; apply entry_item_undated; assumption).
    split; [exact He|].
    apply variant_main_ext; try reflexivity.
    intros since u. apply feed_items_skip. apply He.
Qed.

(** A feed of two entries, the second dated "sometime soon", and a
    calendar with an event that has no DTSTART. *)
Lemma unresolved_records_dropped_silently_witness :
  Main.main
    (with_feed (Examples.bare_utc_machine [] []) Examples.feed_url
       (ParsedFeed (Examples.entry_of [("title", OStr "Mass.gov news")])
          ([Examples.dated_entry "Morning notice" "2024-03-15T08:00:00+00:00"]
           ++ Examples.undated_entry :: [])))
    Main.default_args Examples.sample_now "2024-03-15"
  = Main.main
      (with_feed (Examples.bare_utc_machine [] []) Examples.feed_url
         (ParsedFeed (Examples.entry_of [("title", OStr "Mass.gov news")])
            ([Examples.dated_entry "Morning notice" "2024-03-15T08:00:00+00:00"] ++ [])))
      Main.default_args Examples.sample_now "2024-03-15" /\
  Main.ics_component (Examples.bare_utc_machine [] []) Examples.feed_url
    Examples.undated_event = Ok None.
Proof.
  destruct (unresolved_records_dropped_silently
              (Examples.bare_utc_machine [] []) Examples.feed_url) as (Hrss & Hics & _).
  split.
  - apply (Hrss (Examples.entry_of [("title", OStr "Mass.gov news")])
             [Examples.dated_entry "Morning notice" "2024-03-15T08:00:00+00:00"]
             Examples.undated_entry [] Main.default_args Examples.sample_now "2024-03-15").
    + intros key v Hin Hv.
      apply list_elem_of_In in Hin.
      destruct Hin as [<-|[<-|[<-|[]]]]; vm_compute in Hv;
        try discriminate Hv; injection Hv as <-; vm_compute; reflexivity.
    + vm_compute. reflexivity.
  - apply (Hics [] Examples.undated_event [] Main.default_args Examples.sample_now
             "2024-03-15"). reflexivity.
Defined.

Section Bullets.
Variable w : World.

(** The loop of the press-release section has no test on [link]. *)
Lemma rss_bullet_hyperlink it d t :
  fromisoformat (Main.it_dt it) = Ok d -> Main.iso_ny w d = Ok t ->
  Main.rss_bullet w it
  = Ok ("- **" +:+ t +:+ "** — [" +:+ strip (replace_newlines (Main.it_title it))
        +:+ "](" +:+ Main.it_link it +:+ ")  _" +:+ Main.it_source it +:+ "_").
Proof. intros Hd Ht. unfold Main.rss_bullet. rewrite Hd. cbn. rewrite Ht. reflexivity. Qed.

(** The loop of the events section tests [if link]. *)
Lemma ics_bullet_hyperlink it d t :
  fromisoformat (Main.it_dt it) = Ok d -> Main.iso_ny w d = Ok t ->
  Main.it_link it <> EmptyString ->
  Main.ics_bullet w it
  = Ok ("- **" +:+ t +:+ "** — [" +:+ strip (replace_newlines (Main.it_title it))
        +:+ "](" +:+ Main.it_link it +:+ ")  _" +:+ Main.it_source it +:+ "_").
Proof.
  intros Hd Ht Hl. unfold Main.ics_bullet. rewrite Hd. cbn. rewrite Ht. cbn.
  destruct (Main.it_link it); [congruence | reflexivity].
Qed.

Lemma ics_bullet_plain it d t :
  fromisoformat (Main.it_dt it) = Ok d -> Main.iso_ny w d = Ok t ->
  Main.it_link it = EmptyString ->
  Main.ics_bullet w it
  = Ok ("- **" +:+ t +:+ "** — " +:+ strip (replace_newlines (Main.it_title it))
        +:+ "  _" +:+ Main.it_source it +:+ "_").
Proof.
  intros Hd Ht Hl. unfold Main.ics_bullet. rewrite Hd. cbn. rewrite Ht. cbn.
  rewrite Hl. reflexivity.
Qed.

Lemma variant_bullet_hyperlink it t :
  RssOnly.iso_boston w (RssOnly.it_when it) = Ok t ->
  RssOnly.bullet w it
  = Ok ("- **" +:+ t +:+ "** — [" +:+ RssOnly.it_title it +:+ "]("
        +:+ RssOnly.it_link it +:+ ")  _" +:+ RssOnly.it_source it +:+ "_").
Proof. intros Ht. unfold RssOnly.bullet. rewrite Ht. reflexivity. Qed.

End Bullets.

(** C7. Not as stated for press releases. A feed whose entry has no link
    and a calendar whose event has no URL, read on a machine on UTC
    without a tz database: both items carry the empty link. The event is
    rendered as plain text; the press release is rendered as a hyperlink
    with an empty target, and so is the entry in the RSS-only variant. *)
Theorem linkless_press_release_rendered_as_hyperlink :
  Main.fetch_rss
    (Examples.bare_utc_machine [(Examples.feed_url, Examples.linkless_feed)]
       [(Examples.calendar_url, Examples.whole_day_calendar)])
    Examples.feed_url
  = Ok [Main.Item "rss" "Mass.gov news" "Budget hearing announced" EmptyString
          "2024-03-15T10:00:00+00:00"] /\
  Main.fetch_ics
    (Examples.bare_utc_machine [(Examples.feed_url, Examples.linkless_feed)]
       [(Examples.calendar_url, Examples.whole_day_calendar)])
    Examples.calendar_url
  = Ok [Main.Item "ics" "https://example.org/hearings.ics" "Joint Committee hearing"
          EmptyString "2024-03-15T12:00:00+00:00"] /\
  Main.main
    (Examples.bare_utc_machine [(Examples.feed_url, Examples.linkless_feed)]
       [(Examples.calendar_url, Examples.whole_day_calendar)])
    Main.default_args Examples.sample_now "2024-03-15"
  = ([],
     Ok (Main.Report "reports/2024-03-15.md"
           (join_lines
              ["# Massachusetts Policy Feed — 2024-03-15";
               EmptyString;
               "## Press Releases (last 24h)";
               EmptyString;
               "- **2024-03-15 10:00 UTC** — [Budget hearing announced]()  _Mass.gov news_";
               EmptyString;
               "## Hearings & Meetings (last 24h window start times)";
               EmptyString;
               "- **2024-03-15 12:00 UTC** — Joint Committee hearing  _https://example.org/hearings.ics_";
               EmptyString])
           "Wrote reports/2024-03-15.md with 2 items.")) /\
  RssOnly.main
    (Examples.bare_utc_machine [(Examples.feed_url, Examples.linkless_feed)] [])
    None Examples.sample_now "2024-03-15"
  = Ok (Some (RssOnly.Report "reports/2024-03-15.md"
                (join_lines
                   ["# Massachusetts Bills Introduced — 2024-03-15";
                    EmptyString;
                    "- **2024-03-15 10:00** — [Budget hearing announced]()  _Mass.gov news_";
                    EmptyString])
                "Wrote reports/2024-03-15.md with 1 items.")).
Proof. vm_compute. repeat split; reflexivity. Qed.

Section Titles.
Variable w : World.

Lemma or_else_nonempty (s fallback : string) :
  fallback <> EmptyString -> or_else s fallback <> EmptyString.
Proof.
  intros Hf. unfold or_else, truthy. destruct s; [exact Hf | discriminate].
Qed.

(** [fetch_rss] substitutes its placeholder for a missing or blank title. *)
Lemma rss_entry_title_nonempty url fp e it :
  Main.rss_entry w url fp e = Ok (Some it) -> Main.it_title it <> EmptyString.
Proof.
  unfold Main.rss_entry. intros H.
  apply bind_Ok_inv in H as ([cand|] & _ & H); [|discriminate].
  bind_inv H. injection H as <-. cbn [Main.it_title].
  apply or_else_nonempty. discriminate.
Qed.

(** So does the variant. *)
Lemma entry_item_title_nonempty since source e it :
  RssOnly.entry_item w since source e = Ok (Some it) ->
  RssOnly.it_title it <> EmptyString.
Proof.
  unfold RssOnly.entry_item. intros H.
  apply bind_Ok_inv in H as ([dt|] & _ & H); [|discriminate].
  apply bind_Ok_inv in H as (dt_utc & _ & H).
  apply bind_Ok_inv in H as ([|] & _ & H); [discriminate|].
  bind_inv H. destruct (negb _); [discriminate|]. injection H as <-.
  cbn [RssOnly.it_title]. apply or_else_nonempty. discriminate.
Qed.

(** [fetch_ics] substitutes its placeholder when SUMMARY is missing, and
    copies a SUMMARY that is present, blank or not. *)
Lemma ics_component_title url comp it :
  Main.ics_component w url comp = Ok (Some it) ->
  Main.it_title it = default "(no title)" (comp_summary comp).
Proof.
  unfold Main.ics_component. intros H.
  destruct (negb _); [discriminate|].
  destruct (comp_dtstart comp) as [dtstart|]; [|discriminate].
  bind_inv H. injection H as <-. reflexivity.
Qed.

End Titles.

(** C8. Not as stated for calendar events. A VEVENT whose SUMMARY is
    present and empty yields an item with the empty title: the
    placeholder of [fetch_ics] is the default of [comp.get], used only
    when the property is missing. The report shows a hyperlink without
    text. *)
Theorem blank_summary_event_has_empty_title :
  Main.fetch_ics
    (Examples.bare_utc_machine [] [(Examples.calendar_url, Examples.blank_summary_calendar)])
    Examples.calendar_url
  = Ok [Main.Item "ics" "https://example.org/hearings.ics" EmptyString
          "https://example.org/hearing" "2024-03-15T12:00:00+00:00"] /\
  Main.render_lines
    (Examples.bare_utc_machine [] [(Examples.calendar_url, Examples.blank_summary_calendar)])
    (Main.collect
       (Examples.bare_utc_machine [] [(Examples.calendar_url, Examples.blank_summary_calendar)])
       Examples.sample_since [] [Examples.calendar_url]).1
    "2024-03-15"
  = Ok ["# Massachusetts Policy Feed — 2024-03-15";
        EmptyString;
        "## Press Releases";
        "> No new items in the last 24 hours.";
        EmptyString;
        "## Hearings & Meetings (last 24h window start times)";
        EmptyString;
        "- **2024-03-15 12:00 UTC** — [](https://example.org/hearing)  _https://example.org/hearings.ics_";
        EmptyString].
Proof. vm_compute. split; reflexivity. Qed.

Section FailingSource.
Variable w : World.

(** What [all_items] and [sys.stderr] hold after the two loops, source by
    source. *)
Lemma collect_by_source since rss_urls ics_urls :
  Main.collect w since rss_urls ics_urls
  = (concat (map (fun u => (Main.try_source (Main.fetch_rss w) "RSS" since ([], []) u).1)
               rss_urls)
     ++ concat (map (fun u => (Main.try_source (Main.fetch_ics w) "ICS" since ([], []) u).1)
                  ics_urls),
     concat (map (fun u => (Main.try_source (Main.fetch_rss w) "RSS" since ([], []) u).2)
               rss_urls)
     ++ concat (map (fun u => (Main.try_source (Main.fetch_ics w) "ICS" since ([], []) u).2)
                  ics_urls)).
Proof. unfold Main.collect. rewrite !foldl_try_source. reflexivity. Qed.

Lemma concat_map_skip {A B : Type} (f : A -> list B) l1 x l2 :
  f x = [] -> concat (map f (l1 ++ x :: l2)) = concat (map f (l1 ++ l2)).
Proof. intros H. rewrite !map_app, !concat_app. cbn. rewrite H. reflexivity. Qed.

Lemma concat_map_insert {A B : Type} (f : A -> list B) l1 x l2 y :
  f x = [y] ->
  concat (map f (l1 ++ x :: l2)) = concat (map f l1) ++ y :: concat (map f l2) /\
  concat (map f (l1 ++ l2)) = concat (map f l1) ++ concat (map f l2).
Proof. intros H. rewrite !map_app, !concat_app. cbn. rewrite H. split; reflexivity. Qed.

Lemma collect_rss_failure since rss1 u rss2 ics_urls e :
  Main.fetch_rss w u = Raise e ->
  (Main.collect w since (rss1 ++ u :: rss2) ics_urls).1
  = (Main.collect w since (rss1 ++ rss2) ics_urls).1 /\
  exists before after,
    (Main.collect w since (rss1 ++ rss2) ics_urls).2 = before ++ after /\
    (Main.collect w since (rss1 ++ u :: rss2) ics_urls).2
    = before ++ Main.warning "RSS" u e :: after.
Proof.
  intros H. rewrite !collect_by_source. cbn [fst snd].
  pose proof (try_source_raise (Main.fetch_rss w) "RSS" since u e H) as Ht.
  split.
  - rewrite (concat_map_skip
               (fun u => (Main.try_source (Main.fetch_rss w) "RSS" since ([], []) u).1));
      [reflexivity | rewrite Ht; reflexivity].
  - destruct (concat_map_insert
                (fun u => (Main.try_source (Main.fetch_rss w) "RSS" since ([], []) u).2)
                rss1 u rss2 (Main.warning "RSS" u e)) as [E1 E2];
      [rewrite Ht; reflexivity|].
    rewrite E1, E2. eexists _, _. split; rewrite <- app_assoc; reflexivity.
Qed.

Lemma collect_ics_failure since rss_urls ics1 u ics2 e :
  Main.fetch_ics w u = Raise e ->
  (Main.collect w since rss_urls (ics1 ++ u :: ics2)).1
  = (Main.collect w since rss_urls (ics1 ++ ics2)).1 /\
  exists before after,
    (Main.collect w since rss_urls (ics1 ++ ics2)).2 = before ++ after /\
    (Main.collect w since rss_urls (ics1 ++ u :: ics2)).2
    = before ++ Main.warning "ICS" u e :: after.
Proof.
  intros H. rewrite !collect_by_source. cbn [fst snd].
  pose proof (try_source_raise (Main.fetch_ics w) "ICS" since u e H) as Ht.
  split.
  - rewrite (concat_map_skip
               (fun u => (Main.try_source (Main.fetch_ics w) "ICS" since ([], []) u).1));
      [reflexivity | rewrite Ht; reflexivity].
  - destruct (concat_map_insert
                (fun u => (Main.try_source (Main.fetch_ics w) "ICS" since ([], []) u).2)
                ics1 u ics2 (Main.warning "ICS" u e)) as [E1 E2];
      [rewrite Ht; reflexivity|].
    rewrite E1, E2. eexists _, _. split; [apply app_assoc|].
    rewrite <- app_assoc. reflexivity.
Qed.

(** A run on the configured sources, once the window is known. *)
Lemma main_with_sources rss_urls ics_urls a now date since :
  Main.since_of now (Main.arg_since a) = Ok since ->
  Main.main (with_sources w rss_urls ics_urls) a now date
  = ((Main.collect w since rss_urls ics_urls).2,
     md ← Main.render_markdown w (Main.collect w since rss_urls ics_urls).1 date;
     _ ← os_makedirs w (Main.arg_reports_dir a);
     _ ← write_text w None (os_path_join (Main.arg_reports_dir a) (date +:+ ".md")) md;
     Ok (Main.Report (os_path_join (Main.arg_reports_dir a) (date +:+ ".md")) md
           ("Wrote " +:+ os_path_join (Main.arg_reports_dir a) (date +:+ ".md")
            +:+ " with "
            +:+ str (decimal (Z.of_nat (length (Main.collect w since rss_urls ics_urls).1)))
            +:+ " items."))).
Proof.
  intros Hs. unfold Main.main. rewrite Hs. cbn [Main.load_feeds read_feeds with_sources].
  change (Main.collect (with_sources w rss_urls ics_urls) since rss_urls ics_urls)
    with (Main.collect w since rss_urls ics_urls).
  destruct (Main.collect w since rss_urls ics_urls) as [all_items err]. reflexivity.
Qed.

(** A feed whose download failed inside feedparser: [fetch_rss] returns
    the empty list, and the round of the loop changes nothing. *)
Lemma try_source_no_entries since st url fp :
  feedparser_parse w url = Ok fp -> entries fp = [] ->
  Main.fetch_rss w url = Ok [] /\
  Main.try_source (Main.fetch_rss w) "RSS" since st url = st.
Proof.
  intros Hfp He.
  assert (Hf : Main.fetch_rss w url = Ok [])
    by (unfold Main.fetch_rss; rewrite Hfp; cbn; rewrite He; reflexivity).
  split; [exact Hf|]. unfold Main.try_source. rewrite Hf. destruct st. reflexivity.
Qed.

End FailingSource.


(** C9. Not as stated for feeds. [feedparser.parse] does not raise when
    it cannot download a feed: it returns a result without entries, and
    [fetch_rss] looks at neither its status nor its [bozo] flag. So the
    [except] branch of the RSS loop is not reached: the feed adds no item,
    the other sources are unaffected and the run completes, but no
    warning is printed. In the run below the feed that is down leaves no
    line on [sys.stderr]; the calendar that is out of reach, for which
    [requests] raises, leaves the warning with its URL. *)
Theorem feed_download_failure_prints_no_warning
  (w : World) (since : datetime) (st : list Main.item * list string) (url : string) :
  Main.fetch_rss (with_feed w url undownloaded) url = Ok [] /\
  Main.try_source (Main.fetch_rss (with_feed w url undownloaded)) "RSS" since st url = st /\
  Main.fetch_rss Examples.feed_down_machine Examples.down_url = Ok [] /\
  Main.fetch_ics Examples.feed_down_machine Examples.missing_url
  = Raise (Exn "ConnectionError" "cannot reach https://example.org/missing.xml") /\
  Main.main
    (with_sources Examples.feed_down_machine [Examples.down_url; Examples.feed_url]
       [Examples.missing_url])
    Main.default_args Examples.sample_now "2024-03-15"
  = (["[WARN] ICS fetch failed: https://example.org/missing.xml: cannot reach https://example.org/missing.xml"],
     Ok (Main.Report "reports/2024-03-15.md"
           (join_lines
              ["# Massachusetts Policy Feed — 2024-03-15";
               EmptyString;
               "## Press Releases (last 24h)";
               EmptyString;
               "- **2024-03-15 10:00 UTC** — [First at ten](https://example.org/notice)  _Mass.gov news_";
               "- **2024-03-15 10:00 UTC** — [Second at ten](https://example.org/notice)  _Mass.gov news_";
               "- **2024-03-15 08:00 UTC** — [Morning notice](https://example.org/notice)  _Mass.gov news_";
               EmptyString;
               "## Hearings & Meetings";
               "> No events starting in the last 24 hours.";
               EmptyString])
           "Wrote reports/2024-03-15.md with 3 items.")).
Proof.
  assert (Hfp : feedparser_parse (with_feed w url undownloaded) url = Ok undownloaded)
    by (cbn [feedparser_parse with_feed]; rewrite String.eqb_refl; reflexivity).
  destruct (try_source_no_entries (with_feed w url undownloaded) since st url undownloaded
              Hfp eq_refl) as [Hf Ht].
  split; [exact Hf|]. split; [exact Ht|].
  vm_compute. repeat split; reflexivity.
Qed.

Section Sections.
Variable w : World.

(** The display of a normalized instant never raises: when the
    conversion to New York time does, the [except] branch prints UTC. *)
Lemma iso_ny_total u : normalized_utc u -> exists t, Main.iso_ny w u = Ok t.
Proof.
  intros N. unfold Main.iso_ny. destruct (Main.iso_ny_zoneinfo w u) as [s|err].
  - exists s. reflexivity.
  - rewrite (astimezone_utc_normalized _ u N). eexists. reflexivity.
Qed.

Lemma rss_bullet_total it : Main.stamped it -> exists b, Main.rss_bullet w it = Ok b.
Proof.
  intros (u & N & E). destruct (stamped_timestamp it u N E) as [Hp _].
  destruct (iso_ny_total u N) as [t Ht].
  unfold Main.rss_bullet. rewrite Hp. cbn. rewrite Ht. eexists. reflexivity.
Qed.

Lemma ics_bullet_total it : Main.stamped it -> exists b, Main.ics_bullet w it = Ok b.
Proof.
  intros (u & N & E). destruct (stamped_timestamp it u N E) as [Hp _].
  destruct (iso_ny_total u N) as [t Ht].
  unfold Main.ics_bullet. rewrite Hp. cbn. rewrite Ht. cbn.
  destruct (truthy _); eexists; reflexivity.
Qed.

Lemma for_each_length {A B : Type} (f : A -> result B) l ys :
  for_each f l = Ok ys -> length ys = length l.
Proof. intros H. apply for_each_Ok in H. symmetry. exact (Forall2_length _ _ _ H). Qed.

(** One bullet for each item of a section, in the order of the sort. *)
Lemma section_bullets (bullet : Main.item -> result string) (l : list Main.item) :
  (forall it, Main.stamped it -> exists b, bullet it = Ok b) ->
  Forall Main.stamped l ->
  exists bullets,
    for_each bullet (sorted_reverse Main.dt_key_lt l) = Ok bullets /\
    length bullets = length l.
Proof.
  intros Hb HF.
  destruct (for_each_total bullet (sorted_reverse Main.dt_key_lt l)) as [bullets Hbs].
  { intros it Hin. apply Hb. apply elem_of_sorted_reverse in Hin.
    rewrite Forall_forall in HF. apply HF. exact Hin. }
  exists bullets. split; [exact Hbs|].
  rewrite (for_each_length _ _ _ Hbs).
  apply Permutation_length. apply sorted_reverse_perm.
Qed.

End Sections.


(** No press release and one whole-day event. *)
Example one_event_no_press_release :
  Main.render_lines
    (Examples.bare_utc_machine [] [(Examples.calendar_url, Examples.whole_day_calendar)])
    (Main.collect
       (Examples.bare_utc_machine [] [(Examples.calendar_url, Examples.whole_day_calendar)])
       Examples.sample_since [] [Examples.calendar_url]).1
    "2024-03-15"
  = Ok ["# Massachusetts Policy Feed — 2024-03-15";
        EmptyString;
        "## Press Releases";
        "> No new items in the last 24 hours.";
        EmptyString;
        "## Hearings & Meetings (last 24h window start times)";
        EmptyString;
        "- **2024-03-15 12:00 UTC** — Joint Committee hearing  _https://example.org/hearings.ics_";
        EmptyString].
Proof. vm_compute. reflexivity. Qed.

(** * Further facts: the command line *)

Section IntegerText.

Lemma decimal_width_bound (f : nat) n :
  0 <= n < 2 ^ Z.of_nat (S f) ->
  (0 < decimal_width (S f) n)%nat /\ n < 10 ^ Z.of_nat (decimal_width (S f) n).
Proof.
  revert n. induction f as [|f IH]; intros n Hn.
  - change (2 ^ Z.of_nat 1) with 2 in Hn. cbn [decimal_width].
    destruct (n <? 10) eqn:E; [|apply Z.ltb_ge in E; lia].
    split; [lia|]. change (10 ^ Z.of_nat 1) with 10. lia.
  - change (decimal_width (S (S f)) n)
      with (if n <? 10 then 1%nat else S (decimal_width (S f) (n / 10))).
    destruct (n <? 10) eqn:E.
    + apply Z.ltb_lt in E. split; [lia|]. change (10 ^ Z.of_nat 1) with 10. lia.
    + apply Z.ltb_ge in E.
      assert (H2 : 2 ^ Z.of_nat (S (S f)) = 2 * 2 ^ Z.of_nat (S f))
        by (rewrite (Nat2Z.inj_succ (S f)), Z.pow_succ_r by lia; reflexivity).
      destruct (IH (n / 10)) as [_ Hw].
      { split; [apply Z.div_pos; lia|].
        apply Z.div_lt_upper_bound; lia. }
      split; [lia|]. rewrite pow10_succ.
      pose proof (Z.div_mod n 10 ltac:(lia)). pose proof (Z.mod_pos_bound n 10 ltac:(lia)).
      lia.
Qed.

Lemma decimal_nonneg n :
  0 <= n ->
  exists w : nat, (0 < w)%nat /\ n < 10 ^ Z.of_nat w /\ decimal n = fixed_digits w n.
Proof.
  intros Hn. unfold decimal.
  replace (n <? 0) with false by (symmetry; apply Z.ltb_ge; lia).
  rewrite Z.abs_eq by lia.
  destruct (decimal_width_bound (Z.to_nat (Z.log2 n)) n) as [Hw Hlt].
  { split; [lia|]. rewrite Nat2Z.inj_succ, Z2Nat.id by apply Z.log2_nonneg.
    destruct (Z.eq_dec n 0) as [->|]; [reflexivity|]. apply Z.log2_spec. lia. }
  eexists. repeat split; eassumption.
Qed.

Lemma digit_not_sign k :
  0 <= k <= 9 -> digit k <> "-"%char /\ digit k <> "+"%char.
Proof.
  intros Hk.
  assert (C : k = 0 \/ k = 1 \/ k = 2 \/ k = 3 \/ k = 4 \/ k = 5 \/ k = 6 \/ k = 7
              \/ k = 8 \/ k = 9) by lia.
  repeat destruct C as [->|C]; try subst k; split; discriminate.
Qed.

Lemma py_int_digits w n :
  (0 < w)%nat -> 0 <= n < 10 ^ Z.of_nat w ->
  py_int (str (fixed_digits w n)) = Ok n.
Proof.
  intros Hw Hn. unfold py_int. rewrite chars_str.
  pose proof (digits_value_fixed w n Hw Hn) as Hv.
  destruct w as [|w]; [lia|]. cbn [fixed_digits] in *.
  destruct (digit_not_sign (n / 10 ^ Z.of_nat w mod 10) (mod10_digit _)) as [Hm Hp].
  destruct (digit (n / 10 ^ Z.of_nat w mod 10)) as [[] [] [] [] [] [] [] []] eqn:E;
    try (rewrite Hv; reflexivity); congruence.
Qed.

(** [int(str(n)) == n] *)
Lemma py_int_decimal n : py_int (str (decimal n)) = Ok n.
Proof.
  destruct (Z.le_gt_cases 0 n) as [Hn|Hn].
  - destruct (decimal_nonneg n Hn) as (w & Hw & Hlt & ->).
    apply py_int_digits; [assumption | lia].
  - destruct (decimal_nonneg (- n) ltac:(lia)) as (w & Hw & Hlt & E).
    unfold decimal in *. replace (n <? 0) with true by (symmetry; apply Z.ltb_lt; lia).
    replace (- n <? 0) with false in E by (symmetry; apply Z.ltb_ge; lia).
    rewrite Z.abs_opp in E. rewrite E.
    unfold py_int. rewrite chars_str.
    rewrite digits_value_fixed by (assumption || lia). f_equal. lia.
Qed.

Lemma chars_append a b : chars (a +:+ b) = chars a ++ chars b.
Proof.
  induction a as [|c a IH]; [reflexivity|].
  change (String c a +:+ b) with (String c (a +:+ b)).
  unfold chars in *. cbn [list_ascii_of_string]. rewrite IH. reflexivity.
Qed.

Lemma drop_last_unit s c : drop_last (s +:+ String c EmptyString) = s.
Proof.
  unfold drop_last. rewrite chars_append. change (chars (String c EmptyString)) with [c].
  rewrite removelast_last. apply str_chars.
Qed.

Lemma ends_with_char_unit s c x :
  ends_with_char (s +:+ String c EmptyString) x = Ascii.eqb c x.
Proof.
  unfold ends_with_char. rewrite chars_append. change (chars (String c EmptyString)) with [c].
  rewrite rev_app_distr. reflexivity.
Qed.

End IntegerText.

(** X1. The value of [--since] is read as an integer followed by one
    character. With the character [h] the window is that many hours; with
    any other character, not only [d], it is that many days. So [Nd] opens
    the window of [(24N)h]. *)
Theorem since_window_units (now : datetime) (n : Z) (unit : ascii) :
  Main.since_of now (str (decimal n) +:+ "h") = sub_timedelta now (timedelta_hours n) /\
  (unit <> "h"%char ->
   Main.since_of now (str (decimal n) +:+ String unit EmptyString)
   = sub_timedelta now (timedelta_days n)) /\
  Main.since_of now (str (decimal n) +:+ "d")
  = Main.since_of now (str (decimal (24 * n)) +:+ "h").
Proof.
  assert (Hh : forall k, Main.since_of now (str (decimal k) +:+ "h")
                         = sub_timedelta now (timedelta_hours k)).
  { intros k. unfold Main.since_of.
    rewrite ends_with_char_unit, drop_last_unit, py_int_decimal. reflexivity. }
  assert (Hd : forall c, c <> "h"%char ->
                 Main.since_of now (str (decimal n) +:+ String c EmptyString)
                 = sub_timedelta now (timedelta_days n)).
  { intros c Hc. unfold Main.since_of.
    rewrite ends_with_char_unit, drop_last_unit, py_int_decimal.
    destruct (Ascii.eqb_spec c "h"%char) as [->|_]; [congruence | reflexivity]. }
  split; [apply Hh|]. split; [apply Hd|].
  rewrite Hh, (Hd "d"%char) by discriminate.
  f_equal. unfold timedelta_days, timedelta_hours. us_consts. lia.
Qed.

(** The default window and a week. *)
Lemma since_window_units_witness :
  Main.since_of Examples.sample_now "24h" = Ok Examples.sample_since /\
  Main.since_of Examples.sample_now "7w"
  = sub_timedelta Examples.sample_now (timedelta_days 7).
Proof.
  destruct (since_window_units Examples.sample_now 24 "h"%char) as (Hh & _ & _).
  destruct (since_window_units Examples.sample_now 7 "w"%char) as (_ & Hd & _).
  split.
  - etransitivity; [exact Hh|]. vm_compute. reflexivity.
  - apply Hd. discriminate.
Defined.

(** * Further facts: the two loops of [main] *)

Section LoopsOfMain.
Variable w : World.

(** One source, when the window is aware and the fetch returns what an
    adapter builds: all of its items in the window, or a warning. *)
Lemma try_source_fetched fetch what since o st url :
  utcoffset since = Some o ->
  (forall items, fetch url = Ok items -> Forall Main.stamped items) ->
  Main.try_source fetch what since st url
  = match fetch url with
    | Ok fetched =>
        (st.1 ++ filter (fun it => instant since <= Main.timestamp it) fetched, st.2)
    | Raise e => (st.1, st.2 ++ [Main.warning what url e])
    end.
Proof.
  intros Hs Hf. rewrite try_source_acc.
  destruct (fetch url) as [fetched|e] eqn:E.
  - rewrite (try_source_ok fetch what since o url fetched Hs (Hf fetched eq_refl) E).
    cbn [fst snd]. rewrite app_nil_r. reflexivity.
  - rewrite (try_source_raise fetch what since url e E). cbn [fst snd].
    rewrite app_nil_r. reflexivity.
Qed.

Lemma foldl_try_source_fetched fetch what since o st urls :
  utcoffset since = Some o ->
  (forall url items, fetch url = Ok items -> Forall Main.stamped items) ->
  foldl (Main.try_source fetch what since) st urls
  = (st.1 ++ concat (map (fun u => match fetch u with
                                   | Ok fetched =>
                                       filter (fun it => instant since <= Main.timestamp it)
                                         fetched
                                   | Raise _ => []
                                   end) urls),
     st.2 ++ omap (fun u => match fetch u with
                            | Ok _ => None
                            | Raise e => Some (Main.warning what u e)
                            end) urls).
Proof.
  intros Hs Hf. revert st. induction urls as [|u urls IH]; intros st.
  - cbn. rewrite !app_nil_r. destruct st; reflexivity.
  - cbn [foldl]. rewrite IH, (try_source_fetched fetch what since o st u Hs (Hf u)).
    cbn [map concat omap list_omap]. destruct (fetch u) as [fetched|e]; cbn [fst snd];
      rewrite <- ?app_assoc; reflexivity.
Qed.

Lemma keep_within_elem since fetched acc it :
  it ∈ (Main.keep_within since fetched acc).1 -> it ∈ acc \/ it ∈ fetched.
Proof.
  revert acc. induction fetched as [|x fetched IH]; intros acc; cbn [Main.keep_within].
  - cbn. auto.
  - destruct (_ ≫= _) as [[|]|e]; cbn [fst].
    + intros H. apply IH in H as [H|H]; [|right; right; exact H].
      apply elem_of_app in H as [H|H]; [left; exact H|].
      apply list_elem_of_singleton in H as ->. right. left.
    + intros H. apply IH in H as [H|H]; [left | right; right]; exact H.
    + auto.
Qed.

Lemma try_source_elem fetch what since url it :
  it ∈ (Main.try_source fetch what since ([], []) url).1 ->
  exists fetched, fetch url = Ok fetched /\ it ∈ fetched.
Proof.
  unfold Main.try_source. destruct (fetch url) as [fetched|e]; cbn.
  - intros H. exists fetched. split; [reflexivity|].
    assert (H' : it ∈ (Main.keep_within since fetched []).1)
      by (destruct (Main.keep_within since fetched []) as [kept [e|]]; exact H).
    apply keep_within_elem in H' as [H'|H']; [|exact H'].
    apply elem_of_nil in H'. contradiction.
  - intros H. apply elem_of_nil in H. contradiction.
Qed.

Lemma rss_entry_type url fp e it :
  Main.rss_entry w url fp e = Ok (Some it) -> Main.it_type it = "rss".
Proof.
  unfold Main.rss_entry. intros H.
  apply bind_Ok_inv in H as ([cand|] & _ & H); [|discriminate].
  bind_inv H. injection H as <-. reflexivity.
Qed.

Lemma ics_component_type url comp it :
  Main.ics_component w url comp = Ok (Some it) -> Main.it_type it = "ics".
Proof.
  unfold Main.ics_component. intros H.
  destruct (negb _); [discriminate|].
  destruct (comp_dtstart comp) as [dtstart|]; [|discriminate].
  bind_inv H. injection H as <-. reflexivity.
Qed.

Lemma fetch_rss_type url items :
  Main.fetch_rss w url = Ok items -> Forall (fun it => Main.it_type it = "rss") items.
Proof.
  unfold Main.fetch_rss. intros H. bind_inv H. injection H as <-.
  eapply for_each_appended_Forall; [|eassumption].
  intros e it. apply rss_entry_type.
Qed.

Lemma fetch_ics_type url items :
  Main.fetch_ics w url = Ok items -> Forall (fun it => Main.it_type it = "ics") items.
Proof.
  unfold Main.fetch_ics. intros H. bind_inv H. injection H as <-.
  eapply for_each_appended_Forall; [|eassumption].
  intros e it. apply ics_component_type.
Qed.

(** What the sources of one kind add to [all_items] is of that kind. *)
Lemma sources_of_type fetch what since urls ty :
  (forall url items, fetch url = Ok items ->
     Forall (fun it => Main.it_type it = ty) items) ->
  Forall (fun it => Main.it_type it = ty)
    (concat (map (fun u => (Main.try_source fetch what since ([], []) u).1) urls)).
Proof.
  intros Hf. apply Forall_concat, Forall_map, Forall_forall. intros u _.
  apply Forall_forall. intros it Hit.
  apply try_source_elem in Hit as (fetched & E & Hin).
  specialize (Hf u fetched E). rewrite Forall_forall in Hf. apply Hf. exact Hin.
Qed.

End LoopsOfMain.

Lemma filter_all {A} (P : A -> Prop) `{forall x, Decision (P x)} (l : list A) :
  Forall P l -> filter P l = l.
Proof.
  induction 1 as [|x l Hx _ IH]; [reflexivity|].
  rewrite filter_cons, decide_True, IH by assumption. reflexivity.
Qed.

Lemma filter_none {A} (P : A -> Prop) `{forall x, Decision (P x)} (l : list A) :
  Forall (fun x => ~ P x) l -> filter P l = [].
Proof.
  induction 1 as [|x l Hx _ IH]; [reflexivity|].
  rewrite filter_cons, decide_False, IH by assumption. reflexivity.
Qed.

Lemma filter_weaken_sublist {A} (P Q : A -> Prop)
  `{forall x, Decision (P x)} `{forall x, Decision (Q x)} (l : list A) :
  (forall x, P x -> Q x) -> filter P l `sublist_of` filter Q l.
Proof.
  intros HPQ. induction l as [|x l IH]; [constructor|].
  rewrite !filter_cons. destruct (decide (P x)) as [Hp|Hp].
  - rewrite decide_True by (apply HPQ; exact Hp). apply sublist_skip. exact IH.
  - destruct (decide (Q x)); [apply sublist_cons|]; exact IH.
Qed.

Lemma concat_map_sublist {A B} (f g : A -> list B) (l : list A) :
  (forall x, f x `sublist_of` g x) ->
  concat (map f l) `sublist_of` concat (map g l).
Proof.
  intros H. induction l as [|x l IH]; [constructor|].
  cbn [map concat]. apply sublist_app; [apply H | exact IH].
Qed.

(** X2. What a run collects and what it prints on [sys.stderr], source
    by source, for an aware start [since] of the window: a source whose
    fetch returns adds its items that are not older than [since], all of
    them and in their order, and prints nothing; a source whose fetch
    raises adds nothing and prints one warning. RSS sources come first.
    The loop over the items of a source never raises, so no source is
    ever kept in part. *)
Theorem collect_characterized
  (w : World) (since : datetime) (o : Z) (rss_urls ics_urls : list string) :
  utcoffset since = Some o ->
  Main.collect w since rss_urls ics_urls
  = (concat (map (fun u => match Main.fetch_rss w u with
                           | Ok fetched =>
                               filter (fun it => instant since <= Main.timestamp it) fetched
                           | Raise _ => []
                           end) rss_urls)
     ++ concat (map (fun u => match Main.fetch_ics w u with
                              | Ok fetched =>
                                  filter (fun it => instant since <= Main.timestamp it)
                                    fetched
                              | Raise _ => []
                              end) ics_urls),
     omap (fun u => match Main.fetch_rss w u with
                    | Ok _ => None
                    | Raise e => Some (Main.warning "RSS" u e)
                    end) rss_urls
     ++ omap (fun u => match Main.fetch_ics w u with
                       | Ok _ => None
                       | Raise e => Some (Main.warning "ICS" u e)
                       end) ics_urls).
Proof.
  intros Hs. unfold Main.collect.
  rewrite (foldl_try_source_fetched (Main.fetch_rss w) "RSS" since o ([], []) rss_urls Hs)
    by (intros url items; apply fetch_rss_stamped).
  rewrite (foldl_try_source_fetched (Main.fetch_ics w) "ICS" since o _ ics_urls Hs)
    by (intros url items; apply fetch_ics_stamped).
  reflexivity.
Qed.

(** Two feeds, the first out of reach. *)
Lemma collect_characterized_witness :
  utcoffset Examples.sample_since = Some 0 /\
  (Main.collect (Examples.bare_utc_machine [(Examples.feed_url, Examples.busy_feed)] [])
     Examples.sample_since [Examples.missing_url; Examples.feed_url] []).2
  = ["[WARN] RSS fetch failed: https://example.org/missing.xml: cannot reach https://example.org/missing.xml"].
Proof.
  split; [reflexivity|].
  rewrite (collect_characterized
             (Examples.bare_utc_machine [(Examples.feed_url, Examples.busy_feed)] [])
             Examples.sample_since 0 [Examples.missing_url; Examples.feed_url] [] eq_refl).
  vm_compute. reflexivity.
Defined.

(** X3. A wider window never loses an item: when [since1] is not later
    than [since2], what a run collects from [since2] on is a sublist of
    what it collects from [since1] on, in the same order; and the
    warnings do not depend on the window. *)
Theorem wider_window_keeps_more
  (w : World) (since1 since2 : datetime) (o1 o2 : Z) (rss_urls ics_urls : list string) :
  utcoffset since1 = Some o1 -> utcoffset since2 = Some o2 ->
  instant since1 <= instant since2 ->
  (Main.collect w since2 rss_urls ics_urls).1
    `sublist_of` (Main.collect w since1 rss_urls ics_urls).1 /\
  (Main.collect w since2 rss_urls ics_urls).2
  = (Main.collect w since1 rss_urls ics_urls).2.
Proof.
  intros H1 H2 Hle. unfold Main.collect.
  rewrite !(foldl_try_source_fetched (Main.fetch_rss w) "RSS" _ _ ([], []) rss_urls)
    by (eassumption || (intros url items; apply fetch_rss_stamped)).
  rewrite (foldl_try_source_fetched (Main.fetch_ics w) "ICS" since2 o2 _ ics_urls H2)
    by (intros url items; apply fetch_ics_stamped).
  rewrite (foldl_try_source_fetched (Main.fetch_ics w) "ICS" since1 o1 _ ics_urls H1)
    by (intros url items; apply fetch_ics_stamped).
  cbn [fst snd app]. split; [|reflexivity].
  apply sublist_app; apply concat_map_sublist; intros u.
  - destruct (Main.fetch_rss w u); [|constructor].
    apply filter_weaken_sublist. intros it Hit. lia.
  - destruct (Main.fetch_ics w u); [|constructor].
    apply filter_weaken_sublist. intros it Hit. lia.
Qed.

(** A window of a day against a window of two hours. *)
Lemma wider_window_keeps_more_witness :
  map Main.it_title
    (Main.collect (Examples.bare_utc_machine [(Examples.feed_url, Examples.busy_feed)] [])
       (Datetime (wall Examples.sample_now - timedelta_hours 9) UTC)
       [Examples.feed_url] []).1
  = ["First at ten"; "Second at ten"] /\
  (Main.collect (Examples.bare_utc_machine [(Examples.feed_url, Examples.busy_feed)] [])
     (Datetime (wall Examples.sample_now - timedelta_hours 9) UTC)
     [Examples.feed_url] []).1
    `sublist_of`
  (Main.collect (Examples.bare_utc_machine [(Examples.feed_url, Examples.busy_feed)] [])
     Examples.sample_since [Examples.feed_url] []).1.
Proof.
  split; [vm_compute; reflexivity|].
  apply (wider_window_keeps_more
           (Examples.bare_utc_machine [(Examples.feed_url, Examples.busy_feed)] [])
           Examples.sample_since
           (Datetime (wall Examples.sample_now - timedelta_hours 9) UTC) 0 0
           [Examples.feed_url] [] eq_refl eq_refl).
  vm_compute. discriminate.
Defined.

(** X4. The loops add up: a run over two lists of feeds and two lists
    of calendars collects what four runs over one list each collect, and
    prints what they print, in the order RSS then ICS. Nothing is merged
    or removed: a URL that is listed twice gives its items twice. *)
Theorem collect_adds_up
  (w : World) (since : datetime) (rss1 rss2 ics1 ics2 : list string) :
  (Main.collect w since (rss1 ++ rss2) (ics1 ++ ics2)).1
  = (Main.collect w since rss1 []).1 ++ (Main.collect w since rss2 []).1
    ++ (Main.collect w since [] ics1).1 ++ (Main.collect w since [] ics2).1 /\
  (Main.collect w since (rss1 ++ rss2) (ics1 ++ ics2)).2
  = (Main.collect w since rss1 []).2 ++ (Main.collect w since rss2 []).2
    ++ (Main.collect w since [] ics1).2 ++ (Main.collect w since [] ics2).2 /\
  (Main.collect w since (rss1 ++ rss1) []).1
  = (Main.collect w since rss1 []).1 ++ (Main.collect w since rss1 []).1.
Proof.
  rewrite !collect_by_source. cbn [fst snd map concat].
  rewrite !map_app, !concat_app, !app_nil_r. cbn [app].
  rewrite <- !app_assoc. repeat split; reflexivity.
Qed.

(** X5. Every collected item is shown in exactly one section: the items
    of type [rss] are those of the feeds, the items of type [ics] those
    of the calendars, and there is no other. So the count that [main]
    prints is the number of bullets of the report. *)
Theorem sections_partition_items
  (w : World) (since : datetime) (rss_urls ics_urls : list string) :
  let items := (Main.collect w since rss_urls ics_urls).1 in
  let rss_items := filter (fun i => Main.is_type "rss" i = true) items in
  let ics_items := filter (fun i => Main.is_type "ics" i = true) items in
  rss_items = (Main.collect w since rss_urls []).1 /\
  ics_items = (Main.collect w since [] ics_urls).1 /\
  items = rss_items ++ ics_items /\
  length items = (length rss_items + length ics_items)%nat.
Proof.
  intros items rss_items ics_items. subst rss_items ics_items items.
  rewrite !collect_by_source. cbn [fst snd map concat]. rewrite !app_nil_r. cbn [app].
  pose proof (sources_of_type (Main.fetch_rss w) "RSS" since rss_urls "rss"
                (fetch_rss_type w)) as Hr.
  pose proof (sources_of_type (Main.fetch_ics w) "ICS" since ics_urls "ics"
                (fetch_ics_type w)) as Hi.
  set (R := concat (map _ rss_urls)) in *. set (I := concat (map _ ics_urls)) in *.
  assert (Er : filter (fun i => Main.is_type "rss" i = true) (R ++ I) = R).
  { rewrite filter_app, filter_all, filter_none, app_nil_r; [reflexivity| |].
    - eapply Forall_impl; [exact Hi|]. intros it E. unfold Main.is_type. rewrite E.
      discriminate.
    - eapply Forall_impl; [exact Hr|]. intros it E. unfold Main.is_type. rewrite E.
      reflexivity. }
  assert (Ei : filter (fun i => Main.is_type "ics" i = true) (R ++ I) = I).
  { rewrite filter_app, filter_none, filter_all; [reflexivity| |].
    - eapply Forall_impl; [exact Hi|]. intros it E. unfold Main.is_type. rewrite E.
      reflexivity.
    - eapply Forall_impl; [exact Hr|]. intros it E. unfold Main.is_type. rewrite E.
      discriminate. }
  rewrite Er, Ei. repeat split; try reflexivity. apply length_app.
Qed.

(** * Further facts: the adapters *)

Section StripFacts.

Lemma lstrip_chars_split l :
  exists sp, l = sp ++ lstrip_chars l.
Proof.
  induction l as [|c l [sp IH]]; [exists []; reflexivity|].
  cbn [lstrip_chars]. destruct (is_space c).
  - exists (c :: sp). cbn. f_equal. exact IH.
  - exists []. reflexivity.
Qed.

Lemma lstrip_chars_head l c :
  head (lstrip_chars l) = Some c -> is_space c = false.
Proof.
  induction l as [|x l IH]; [discriminate|].
  cbn [lstrip_chars]. destruct (is_space x) eqn:E; [exact IH|].
  cbn. intros [= <-]. exact E.
Qed.

Lemma lstrip_chars_id l :
  (forall c, head l = Some c -> is_space c = false) -> lstrip_chars l = l.
Proof.
  destruct l as [|x l]; [reflexivity|]. intros H. cbn [lstrip_chars].
  rewrite (H x eq_refl). reflexivity.
Qed.

Lemma rstrip_chars_split l :
  exists sp, l = rstrip_chars l ++ sp.
Proof.
  destruct (lstrip_chars_split (rev l)) as [sp E]. exists (rev sp).
  unfold rstrip_chars. rewrite <- rev_app_distr, <- E, rev_involutive. reflexivity.
Qed.

Lemma rstrip_chars_head l c :
  head (rstrip_chars l) = Some c -> head l = Some c.
Proof.
  destruct (rstrip_chars_split l) as [sp E]. intros H. rewrite E.
  destruct (rstrip_chars l); [discriminate | exact H].
Qed.

Lemma rstrip_chars_idem l : rstrip_chars (rstrip_chars l) = rstrip_chars l.
Proof.
  unfold rstrip_chars. rewrite rev_involutive. f_equal.
  apply lstrip_chars_id. apply lstrip_chars_head.
Qed.

(** [s.strip().strip() == s.strip()] *)
Lemma strip_idem s : strip (strip s) = strip s.
Proof.
  unfold strip. rewrite chars_str. f_equal.
  rewrite (lstrip_chars_id (rstrip_chars _)), rstrip_chars_idem; [reflexivity|].
  intros c H. apply rstrip_chars_head in H. apply (lstrip_chars_head _ _ H).
Qed.

Lemma or_else_stripped s fallback :
  strip s = s -> strip fallback = fallback ->
  strip (or_else s fallback) = or_else s fallback.
Proof.
  intros Hs Hf. unfold or_else. destruct (truthy s); assumption.
Qed.

End StripFacts.

Section ItemsOfAdapters.
Variable w : World.

Lemma for_each_appended_elem {X Y} (f : X -> result (option Y)) xs rs y :
  for_each f xs = Ok rs -> y ∈ appended rs -> exists x, x ∈ xs /\ f x = Ok (Some y).
Proof.
  intros H Hy. apply for_each_Ok in H. apply elem_of_appended in Hy.
  apply list_elem_of_lookup in Hy as [i Hi].
  destruct (Forall2_lookup_r _ _ _ _ _ H Hi) as (x & Hx & Hfx).
  exists x. split; [|exact Hfx]. apply list_elem_of_lookup. exists i. exact Hx.
Qed.

Lemma length_appended {Y} (rs : list (option Y)) : (length (appended rs) <= length rs)%nat.
Proof.
  unfold appended. induction rs as [|[y|] rs IH].
  - reflexivity.
  - change (omap id (Some y :: rs)) with (y :: omap id rs). cbn [length]. lia.
  - change (omap id (None :: rs)) with (omap id rs). cbn [length]. lia.
Qed.

Lemma for_each_raise {X Y} (f : X -> result Y) xs x e :
  x ∈ xs -> f x = Raise e -> exists e', for_each f xs = Raise e'.
Proof.
  induction xs as [|a xs IH]; intros Hin Hx.
  - apply elem_of_nil in Hin. contradiction.
  - cbn [for_each]. destruct (f a) as [y|e0] eqn:Ea; cbn; [|eexists; reflexivity].
    apply elem_of_cons in Hin as [->|Hin]; [congruence|].
    destruct (IH Hin Hx) as [e' ->]. cbn. eexists; reflexivity.
Qed.

(** What [fetch_rss] builds from an entry that it does not skip. *)
Lemma rss_entry_item url fp e it :
  Main.rss_entry w url fp e = Ok (Some it) ->
  exists cand t l src u,
    Main.dt_candidate w e = Ok (Some cand) /\
    py_strip (default (OStr EmptyString) (e !! "title")) = Ok t /\
    py_strip (default (OStr EmptyString) (e !! "link")) = Ok l /\
    py_strip (match feed fp !! "title" with
              | Some ft => if py_truthy ft then ft else OStr url
              | None => OStr url
              end) = Ok src /\
    astimezone (local_zone w) utc_zone cand = Ok u /\
    it = Main.Item "rss" src (or_else t "(untitled)") (or_else l EmptyString) (isoformat u).
Proof.
  unfold Main.rss_entry. intros H.
  apply bind_Ok_inv in H as ([cand|] & Hc & H); [|discriminate].
  apply bind_Ok_inv in H as (t & Ht & H).
  apply bind_Ok_inv in H as (l & Hl & H).
  apply bind_Ok_inv in H as (src & Hsrc & H).
  apply bind_Ok_inv in H as (d & Hd & H).
  apply bind_Ok_inv in H as (u & Hu & H).
  cbn in Hd. injection Hd as <-. injection H as <-.
  exists cand, t, l, src, u. repeat split; assumption.
Qed.

Lemma py_strip_stripped o s : py_strip o = Ok s -> strip s = s.
Proof.
  destruct o; try discriminate. cbn. intros [= <-]. apply strip_idem.
Qed.

(** What [fetch_ics] builds from a component that it does not skip. *)
Lemma ics_component_item url comp it :
  Main.ics_component w url comp = Ok (Some it) ->
  comp_name comp = "VEVENT" /\
  exists dtstart u,
    comp_dtstart comp = Some dtstart /\
    match dtstart with
    | DDatetime dt =>
        astimezone (local_zone w) utc_zone
          (match utcoffset dt with None => replace_tzinfo dt UTC | Some _ => dt end)
    | DDate d => noon_utc d
    end = Ok u /\
    it = Main.Item "ics" url (default "(no title)" (comp_summary comp))
           (match comp_url comp with
            | Some url_field => if truthy url_field then url_field else EmptyString
            | None => EmptyString
            end)
           (isoformat u).
Proof.
  unfold Main.ics_component. intros H.
  destruct (String.eqb_spec (comp_name comp) "VEVENT") as [En|]; [|discriminate].
  cbn [negb] in H. split; [exact En|].
  destruct (comp_dtstart comp) as [dtstart|]; [|discriminate].
  apply bind_Ok_inv in H as (u & Hu & H). injection H as <-.
  exists dtstart, u. repeat split. exact Hu.
Qed.

End ItemsOfAdapters.

(** X6. What [fetch_rss] returns. There is at most one item for each
    entry of the feed. Each item has the type [rss]; a title that is not
    empty; a title, a link and a source without white space at either
    end; and as [dt] the ISO text of an instant in UTC, which
    [datetime.fromisoformat] reads back as that very instant. *)
Theorem fetch_rss_items_well_formed
  (w : World) (url : string) (fp : parsed_feed) (items : list Main.item) :
  feedparser_parse w url = Ok fp ->
  Main.fetch_rss w url = Ok items ->
  (length items <= length (entries fp))%nat /\
  Forall (fun it =>
            Main.it_type it = "rss" /\
            Main.it_title it <> EmptyString /\
            strip (Main.it_title it) = Main.it_title it /\
            strip (Main.it_link it) = Main.it_link it /\
            strip (Main.it_source it) = Main.it_source it /\
            exists u, normalized_utc u /\ Main.it_dt it = isoformat u /\
                      fromisoformat (Main.it_dt it) = Ok u /\
                      Main.timestamp it = instant u)
         items.
Proof.
  intros Hfp H. unfold Main.fetch_rss in H. rewrite Hfp in H. cbn in H.
  apply bind_Ok_inv in H as (rs & Hrs & H). injection H as <-.
  split.
  - rewrite <- (for_each_length _ _ _ Hrs). apply length_appended.
  - apply Forall_forall. intros it Hit.
    destruct (for_each_appended_elem _ _ _ _ Hrs Hit) as (e & _ & He).
    destruct (rss_entry_item w url fp e it He)
      as (cand & t & l & src & u & _ & Ht & Hl & Hsrc & Hu & ->).
    cbn [Main.it_type Main.it_title Main.it_link Main.it_source Main.it_dt].
    apply py_strip_stripped in Ht. apply py_strip_stripped in Hl.
    apply py_strip_stripped in Hsrc.
    destruct (astimezone_utc_Ok _ _ _ Hu) as [N _].
    split; [reflexivity|]. split; [apply or_else_nonempty; discriminate|].
    split; [apply or_else_stripped; [exact Ht | reflexivity]|].
    split; [apply or_else_stripped; [exact Hl | reflexivity]|].
    split; [exact Hsrc|].
    exists u. split; [exact N|]. split; [reflexivity|].
    destruct (stamped_timestamp (Main.Item "rss" src (or_else t "(untitled)")
                                   (or_else l EmptyString) (isoformat u)) u N eq_refl)
      as [Hp Hts].
    split; [exact Hp|]. rewrite Hts. unfold instant. destruct N as [-> _]. cbn. lia.
Qed.

(** The three entries of the busy feed. *)
Lemma fetch_rss_items_well_formed_witness :
  feedparser_parse (Examples.bare_utc_machine [(Examples.feed_url, Examples.busy_feed)] [])
    Examples.feed_url = Ok Examples.busy_feed /\
  Forall (fun it => Main.it_type it = "rss" /\ Main.it_title it <> EmptyString)
    [Main.Item "rss" "Mass.gov news" "Morning notice" "https://example.org/notice"
       "2024-03-15T08:00:00+00:00";
     Main.Item "rss" "Mass.gov news" "First at ten" "https://example.org/notice"
       "2024-03-15T10:00:00+00:00";
     Main.Item "rss" "Mass.gov news" "Second at ten" "https://example.org/notice"
       "2024-03-15T10:00:00+00:00"].
Proof.
  split; [reflexivity|].
  destruct (fetch_rss_items_well_formed
              (Examples.bare_utc_machine [(Examples.feed_url, Examples.busy_feed)] [])
              Examples.feed_url Examples.busy_feed
              [Main.Item "rss" "Mass.gov news" "Morning notice" "https://example.org/notice"
                 "2024-03-15T08:00:00+00:00";
               Main.Item "rss" "Mass.gov news" "First at ten" "https://example.org/notice"
                 "2024-03-15T10:00:00+00:00";
               Main.Item "rss" "Mass.gov news" "Second at ten" "https://example.org/notice"
                 "2024-03-15T10:00:00+00:00"])
    as [_ HF]; [reflexivity | vm_compute; reflexivity |].
  eapply Forall_impl; [exact HF|]. intros it (Hty & Hti & _). split; assumption.
Defined.

(** X7. What [fetch_ics] returns. There is at most one item for each
    component of the calendar, and each item stems from a VEVENT that has
    a DTSTART: its type is [ics], its source the URL of the calendar, its
    title the SUMMARY or, when the event has none, "(no title)", its link
    the URL property or the empty string, and its [dt] the ISO text of an
    instant in UTC, which [datetime.fromisoformat] reads back as that
    very instant. *)
Theorem fetch_ics_items_well_formed
  (w : World) (url : string) (comps : list component) (items : list Main.item) :
  get_calendar w url = Ok comps ->
  Main.fetch_ics w url = Ok items ->
  (length items <= length comps)%nat /\
  Forall (fun it =>
            Main.it_type it = "ics" /\
            Main.it_source it = url /\
            (exists comp dtstart,
               comp ∈ comps /\ comp_name comp = "VEVENT" /\
               comp_dtstart comp = Some dtstart /\
               Main.it_title it = default "(no title)" (comp_summary comp) /\
               Main.it_link it = default EmptyString (comp_url comp)) /\
            exists u, normalized_utc u /\ Main.it_dt it = isoformat u /\
                      fromisoformat (Main.it_dt it) = Ok u /\
                      Main.timestamp it = instant u)
         items.
Proof.
  intros Hc H. unfold Main.fetch_ics in H. rewrite Hc in H. cbn in H.
  apply bind_Ok_inv in H as (rs & Hrs & H). injection H as <-.
  split.
  - rewrite <- (for_each_length _ _ _ Hrs). apply length_appended.
  - apply Forall_forall. intros it Hit.
    destruct (for_each_appended_elem _ _ _ _ Hrs Hit) as (comp & Hin & He).
    pose proof (ics_component_stamped w url comp it He) as (u & N & Eu).
    destruct (ics_component_item w url comp it He) as (Hn & dtstart & u' & Hd & _ & ->).
    cbn [Main.it_type Main.it_title Main.it_link Main.it_source Main.it_dt] in *.
    split; [reflexivity|]. split; [reflexivity|]. split.
    + exists comp, dtstart. repeat split; try assumption.
      destruct (comp_url comp) as [[|c s]|]; reflexivity.
    + exists u. split; [exact N|]. split; [exact Eu|].
      destruct (stamped_timestamp
                  (Main.Item "ics" url (default "(no title)" (comp_summary comp))
                     (match comp_url comp with
                      | Some url_field => if truthy url_field then url_field else EmptyString
                      | None => EmptyString
                      end) (isoformat u')) u N Eu) as [Hp Hts].
      split; [exact Hp|]. rewrite Hts. unfold instant. destruct N as [-> _]. cbn. lia.
Qed.

(** The calendar with one whole-day event. *)
Lemma fetch_ics_items_well_formed_witness :
  get_calendar
    (Examples.bare_utc_machine [] [(Examples.calendar_url, Examples.whole_day_calendar)])
    Examples.calendar_url = Ok Examples.whole_day_calendar /\
  Forall (fun it => Main.it_type it = "ics" /\ Main.it_source it = Examples.calendar_url)
    [Main.Item "ics" "https://example.org/hearings.ics" "Joint Committee hearing"
       EmptyString "2024-03-15T12:00:00+00:00"].
Proof.
  split; [reflexivity|].
  destruct (fetch_ics_items_well_formed
              (Examples.bare_utc_machine []
                 [(Examples.calendar_url, Examples.whole_day_calendar)])
              Examples.calendar_url Examples.whole_day_calendar
              [Main.Item "ics" "https://example.org/hearings.ics" "Joint Committee hearing"
                 EmptyString "2024-03-15T12:00:00+00:00"])
    as [_ HF]; [reflexivity | vm_compute; reflexivity |].
  eapply Forall_impl; [exact HF|]. intros it (Hty & Hs & _). split; assumption.
Defined.

(** X8. Normalization keeps the instant. When the timestamp of a
    record carries a UTC offset, whatever that offset is, the item's
    timestamp is the instant the record names: the conversion to UTC moves
    the wall clock by the offset and nothing else. This holds for
    [fetch_rss], for [fetch_ics] and for the RSS-only variant. *)
Theorem aware_timestamps_keep_instant (w : World) (url : string) :
  (forall fp e d o it,
     Main.dt_candidate w e = Ok (Some d) -> utcoffset d = Some o ->
     Main.rss_entry w url fp e = Ok (Some it) ->
     Main.timestamp it = instant d) /\
  (forall comp dt o it,
     comp_dtstart comp = Some (DDatetime dt) -> utcoffset dt = Some o ->
     Main.ics_component w url comp = Ok (Some it) ->
     Main.timestamp it = instant dt) /\
  (forall since source e dt o it,
     RssOnly.parse_dt e = Ok (Some dt) -> utcoffset dt = Some o ->
     RssOnly.entry_item w since source e = Ok (Some it) ->
     utcoffset (RssOnly.it_when it) = UTC /\
     instant (RssOnly.it_when it) = instant dt).
Proof.
  split; [|split].
  - intros fp e d o it Hc Ho He.
    destruct (rss_entry_item w url fp e it He)
      as (cand & t & l & src & u & Hc' & _ & _ & _ & Hu & ->).
    rewrite Hc in Hc'. injection Hc' as <-.
    destruct (astimezone_utc_Ok _ _ _ Hu) as [N Hw]. rewrite Ho in Hw.
    destruct (stamped_timestamp (Main.Item "rss" src (or_else t "(untitled)")
                                   (or_else l EmptyString) (isoformat u)) u N eq_refl)
      as [_ Hts].
    rewrite Hts, Hw. unfold instant. rewrite Ho. reflexivity.
  - intros comp dt o it Hd Ho He.
    destruct (ics_component_item w url comp it He) as (_ & dtstart & u & Hd' & Hu & ->).
    rewrite Hd in Hd'. injection Hd' as <-. rewrite Ho in Hu.
    destruct (astimezone_utc_Ok _ _ _ Hu) as [N Hw]. rewrite Ho in Hw.
    match goal with
    | |- Main.timestamp ?i = _ => destruct (stamped_timestamp i u N eq_refl) as [_ Hts]
    end.
    rewrite Hts, Hw. unfold instant. rewrite Ho. reflexivity.
  - intros since source e dt o it Hp Ho He. unfold RssOnly.entry_item in He.
    rewrite Hp in He. cbn [mbind result_bind] in He. rewrite Ho in He.
    apply bind_Ok_inv in He as (dt_utc & Hu & He).
    apply bind_Ok_inv in He as ([|] & _ & He); [discriminate|].
    bind_inv He. destruct (negb _); [discriminate|]. injection He as <-.
    cbn [RssOnly.it_when].
    destruct (astimezone_utc_Ok _ _ _ Hu) as [[Hoff _] Hw]. rewrite Ho in Hw.
    split; [exact Hoff|]. unfold instant. rewrite Hoff, Ho, Hw. cbn. lia.
Qed.

(** An event at 10:00 on a clock five hours behind UTC is stamped 15:00
    UTC. *)
Lemma aware_timestamps_keep_instant_witness :
  Main.ics_component (Examples.bare_utc_machine [] []) Examples.calendar_url
    (Component "VEVENT" (Some "Rules Committee")
       (Some (DDatetime (Datetime (Examples.at_hour (ymd2ord 2024 3 15) 10)
                           (Some Examples.EST)))) None None)
  = Ok (Some (Main.Item "ics" Examples.calendar_url "Rules Committee" EmptyString
                "2024-03-15T15:00:00+00:00")) /\
  Main.timestamp
    (Main.Item "ics" Examples.calendar_url "Rules Committee" EmptyString
       "2024-03-15T15:00:00+00:00")
  = instant (Datetime (Examples.at_hour (ymd2ord 2024 3 15) 10) (Some Examples.EST)).
Proof.
  assert (H : Main.ics_component (Examples.bare_utc_machine [] []) Examples.calendar_url
                (Component "VEVENT" (Some "Rules Committee")
                   (Some (DDatetime (Datetime (Examples.at_hour (ymd2ord 2024 3 15) 10)
                                       (Some Examples.EST)))) None None)
              = Ok (Some (Main.Item "ics" Examples.calendar_url "Rules Committee"
                            EmptyString "2024-03-15T15:00:00+00:00")))
    by (vm_compute; reflexivity).
  split; [exact H|].
  destruct (aware_timestamps_keep_instant (Examples.bare_utc_machine [] [])
              Examples.calendar_url) as (_ & Hics & _).
  apply (Hics (Component "VEVENT" (Some "Rules Committee")
                 (Some (DDatetime (Datetime (Examples.at_hour (ymd2ord 2024 3 15) 10)
                                     (Some Examples.EST)))) None None)
           (Datetime (Examples.at_hour (ymd2ord 2024 3 15) 10) (Some Examples.EST))
           Examples.EST); [reflexivity | reflexivity | exact H].
Defined.

(** X9. One entry that raises loses its feed. When building the item of
    an entry raises (a [published_parsed] tuple that [datetime] refuses, a
    title that is not a string), [fetch_rss] raises: the run prints one
    warning for the feed and keeps none of its items, those of the
    entries before the failing one included. *)
Theorem raising_entry_loses_feed
  (w : World) (url : string) (fp : parsed_feed) (e : gmap string pyobj) (err : exn) :
  feedparser_parse w url = Ok fp ->
  e ∈ entries fp ->
  Main.rss_entry w url fp e = Raise err ->
  exists err',
    Main.fetch_rss w url = Raise err' /\
    forall since st,
      Main.try_source (Main.fetch_rss w) "RSS" since st url
      = (st.1, st.2 ++ [Main.warning "RSS" url err']).
Proof.
  intros Hfp Hin He.
  destruct (for_each_raise (Main.rss_entry w url fp) (entries fp) e err Hin He)
    as [err' Hraise].
  exists err'.
  assert (Hf : Main.fetch_rss w url = Raise err').
  { unfold Main.fetch_rss. rewrite Hfp. cbn. rewrite Hraise. reflexivity. }
  split; [exact Hf|]. intros since st.
  rewrite try_source_acc, (try_source_raise _ _ _ _ _ Hf). cbn [fst snd].
  rewrite app_nil_r. reflexivity.
Qed.

(** A feed whose second entry is dated 23:59:60 by its time tuple. *)
Lemma raising_entry_loses_feed_witness :
  Main.rss_entry
    (Examples.bare_utc_machine [(Examples.feed_url, Examples.leap_second_feed)] [])
    Examples.feed_url Examples.leap_second_feed Examples.leap_second_entry
  = Raise (ValueError "second must be in 0..59") /\
  exists err',
    Main.fetch_rss
      (Examples.bare_utc_machine [(Examples.feed_url, Examples.leap_second_feed)] [])
      Examples.feed_url = Raise err' /\
    forall since st,
      Main.try_source
        (Main.fetch_rss
           (Examples.bare_utc_machine [(Examples.feed_url, Examples.leap_second_feed)] []))
        "RSS" since st Examples.feed_url
      = (st.1, st.2 ++ [Main.warning "RSS" Examples.feed_url err']).
Proof.
  assert (H : Main.rss_entry
                (Examples.bare_utc_machine [(Examples.feed_url, Examples.leap_second_feed)] [])
                Examples.feed_url Examples.leap_second_feed Examples.leap_second_entry
              = Raise (ValueError "second must be in 0..59"))
    by (vm_compute; reflexivity).
  split; [exact H|].
  apply (raising_entry_loses_feed
           (Examples.bare_utc_machine [(Examples.feed_url, Examples.leap_second_feed)] [])
           Examples.feed_url Examples.leap_second_feed Examples.leap_second_entry
           (ValueError "second must be in 0..59")).
  - reflexivity.
  - right. left.
  - exact H.
Defined.

(** X10. An entry that is dated by [updated_parsed] alone is skipped by
    [fetch_rss], which reads no time tuple but [published_parsed], and is
    dated by [parse_dt] of the RSS-only variant, as the UTC datetime of
    the tuple. *)
Theorem updated_parsed_read_by_variant_only
  (w : World) (url : string) (fp : parsed_feed) (e : gmap string pyobj)
  (t : struct_time) (d : datetime) :
  (forall key, key ∈ ["published"; "updated"; "created"] -> e !! key = None) ->
  e !! "published_parsed" = None ->
  e !! "updated_parsed" = Some (OStructTime t) ->
  datetime_of_tuple (OStructTime t) = Ok d ->
  Main.rss_entry w url fp e = Ok None /\
  RssOnly.parse_dt e = Ok (Some d) /\
  utcoffset d = UTC.
Proof.
  intros Hkeys Hpp Hup Hd. split; [|split].
  - apply rss_entry_undated.
    + intros key v Hin Hv. rewrite (Hkeys key Hin) in Hv. discriminate.
    + unfold RssOnly.has_truthy. rewrite Hpp. reflexivity.
  - unfold RssOnly.parse_dt.
    rewrite (variant_text_candidate_none e RssOnly.text_keys)
      by (intros key v Hin Hv; rewrite (Hkeys key Hin) in Hv; discriminate).
    unfold RssOnly.has_truthy. rewrite Hpp, Hup. cbn [py_truthy]. rewrite Hd. reflexivity.
  - cbn in Hd. apply datetime_new_Ok in Hd as (_ & _ & _ & _ & _ & -> & _). reflexivity.
Qed.

(** An entry updated on 2024-03-15 at 09:30. *)
Lemma updated_parsed_read_by_variant_only_witness :
  Main.rss_entry (Examples.bare_utc_machine [] []) Examples.feed_url Examples.busy_feed
    Examples.updated_only_entry = Ok None /\
  RssOnly.parse_dt Examples.updated_only_entry
  = Ok (Some (Datetime (Examples.at_hour (ymd2ord 2024 3 15) 9 + 30 * US_PER_MINUTE) UTC)) /\
  utcoffset (Datetime (Examples.at_hour (ymd2ord 2024 3 15) 9 + 30 * US_PER_MINUTE) UTC)
  = UTC.
Proof.
  apply (updated_parsed_read_by_variant_only (Examples.bare_utc_machine [] [])
           Examples.feed_url Examples.busy_feed Examples.updated_only_entry
           (StructTime 2024 3 15 9 30 0 4 75 0)).
  - intros key Hin. apply list_elem_of_In in Hin.
    destruct Hin as [<-|[<-|[<-|[]]]]; vm_compute; reflexivity.
  - vm_compute. reflexivity.
  - vm_compute. reflexivity.
  - vm_compute. reflexivity.
Defined.

(** * Further facts: the report *)

Section ReportFacts.
Variable w : World.

(** Rendering what the adapters build never raises. *)
Lemma render_lines_total items date :
  Forall Main.stamped items -> exists lines, Main.render_lines w items date = Ok lines.
Proof.
  intros HF. unfold Main.render_lines, Main.rss_section, Main.ics_section.
  destruct (section_bullets (Main.rss_bullet w)
              (filter (fun i => Main.is_type "rss" i = true) items) (rss_bullet_total w)
              (Forall_filtered _ _ _ HF)) as (rb & Hrb & _).
  destruct (section_bullets (Main.ics_bullet w)
              (filter (fun i => Main.is_type "ics" i = true) items) (ics_bullet_total w)
              (Forall_filtered _ _ _ HF)) as (ib & Hib & _).
  rewrite Hrb, Hib.
  destruct (filter (fun i => Main.is_type "rss" i = true) items);
    destruct (filter (fun i => Main.is_type "ics" i = true) items);
    cbn [mbind result_bind]; eexists; reflexivity.
Qed.

(** A run in the world as it is, once the window and the configuration
    are read. *)
Lemma main_configured a now date since rss_urls ics_urls :
  Main.since_of now (Main.arg_since a) = Ok since ->
  read_feeds w (Main.arg_feeds a) = Ok (rss_urls, ics_urls) ->
  Main.main w a now date
  = ((Main.collect w since rss_urls ics_urls).2,
     md ← Main.render_markdown w (Main.collect w since rss_urls ics_urls).1 date;
     _ ← os_makedirs w (Main.arg_reports_dir a);
     _ ← write_text w None (os_path_join (Main.arg_reports_dir a) (date +:+ ".md")) md;
     Ok (Main.Report (os_path_join (Main.arg_reports_dir a) (date +:+ ".md")) md
           ("Wrote " +:+ os_path_join (Main.arg_reports_dir a) (date +:+ ".md")
            +:+ " with "
            +:+ str (decimal (Z.of_nat (length (Main.collect w since rss_urls ics_urls).1)))
            +:+ " items."))).
Proof.
  intros Hs Hc. unfold Main.main, Main.load_feeds. rewrite Hs, Hc.
  destruct (Main.collect w since rss_urls ics_urls) as [all_items err]. reflexivity.
Qed.

(** What the sources add when none of them yields an item. *)
Lemma sources_without_items fetch what since urls :
  (forall u, u ∈ urls -> fetch u = Ok [] \/ is_ok (fetch u) = false) ->
  concat (map (fun u => (Main.try_source fetch what since ([], []) u).1) urls) = [] /\
  concat (map (fun u => (Main.try_source fetch what since ([], []) u).2) urls)
  = omap (fun u => match fetch u with
                   | Ok _ => None
                   | Raise e => Some (Main.warning what u e)
                   end) urls.
Proof.
  induction urls as [|u urls IH]; intros Hf; [split; reflexivity|].
  destruct IH as [IH1 IH2]; [intros v Hv; apply Hf; right; exact Hv|].
  specialize (Hf u ltac:(left)). cbn [map concat omap list_omap].
  assert (Hu : Main.try_source fetch what since ([], []) u
               = ([], match fetch u with
                      | Ok _ => []
                      | Raise e => [Main.warning what u e]
                      end)).
  { unfold Main.try_source. destruct (fetch u) as [fetched|e]; [|reflexivity].
    destruct Hf as [Hf|Hf]; [|discriminate]. injection Hf as ->. reflexivity. }
  rewrite Hu, IH1, IH2. cbn [fst snd app].
  destruct (fetch u); split; reflexivity.
Qed.

(** [astimezone] moves the wall clock from one offset to another. *)
Lemma astimezone_Ok target d r :
  astimezone (local_zone w) target d = Ok r ->
  let myoffset := match utcoffset d with
                  | Some o => o
                  | None => offset_at_wall (local_zone w) (wall d)
                  end in
  utcoffset r = Some (offset_at_utc target (wall d - myoffset)) /\
  wall r = wall d - myoffset + offset_at_utc target (wall d - myoffset).
Proof.
  unfold astimezone.
  destruct (sub_timedelta d _) as [utc|e] eqn:E1; cbn; [|discriminate].
  destruct (add_timedelta utc _) as [r'|e] eqn:E2; cbn; [|discriminate].
  intros [= <-]. apply sub_timedelta_Ok in E1 as (W1 & _ & _).
  apply add_timedelta_Ok in E2 as (W2 & _ & _).
  cbn [wall utcoffset]. rewrite W2, W1. split; reflexivity.
Qed.

End ReportFacts.

(** X11. Once the window and the configuration are read, nothing a
    source sends ends the run before the report is written: collecting
    and rendering never raise, whatever the fetches return or raise. The
    run then ends with an exception exactly when [os.makedirs] or the
    write of the file raises, after the warnings are printed; otherwise
    it writes the rendered text under the reports directory as
    [<date>.md] and prints the number of items it has collected. *)
Theorem configured_run_reaches_write
  (w : World) (a : Main.args) (now : datetime) (date : string)
  (since : datetime) (rss_urls ics_urls : list string) :
  Main.since_of now (Main.arg_since a) = Ok since ->
  read_feeds w (Main.arg_feeds a) = Ok (rss_urls, ics_urls) ->
  exists md,
    Main.render_markdown w (Main.collect w since rss_urls ics_urls).1 date = Ok md /\
    (os_makedirs w (Main.arg_reports_dir a) = Ok tt ->
     write_text w None (os_path_join (Main.arg_reports_dir a) (date +:+ ".md")) md = Ok tt ->
     Main.main w a now date
     = ((Main.collect w since rss_urls ics_urls).2,
        Ok (Main.Report (os_path_join (Main.arg_reports_dir a) (date +:+ ".md")) md
              ("Wrote " +:+ os_path_join (Main.arg_reports_dir a) (date +:+ ".md")
               +:+ " with "
               +:+ str (decimal (Z.of_nat
                                   (length (Main.collect w since rss_urls ics_urls).1)))
               +:+ " items.")))) /\
    (forall e, os_makedirs w (Main.arg_reports_dir a) = Raise e ->
               Main.main w a now date
               = ((Main.collect w since rss_urls ics_urls).2, Raise e)) /\
    (forall e, os_makedirs w (Main.arg_reports_dir a) = Ok tt ->
               write_text w None (os_path_join (Main.arg_reports_dir a) (date +:+ ".md")) md
               = Raise e ->
               Main.main w a now date
               = ((Main.collect w since rss_urls ics_urls).2, Raise e)).
Proof.
  intros Hs Hc.
  destruct (render_lines_total w (Main.collect w since rss_urls ics_urls).1 date
              (collect_stamped w since rss_urls ics_urls)) as [lines Hl].
  exists (join_lines lines).
  assert (Hmd : Main.render_markdown w (Main.collect w since rss_urls ics_urls).1 date
                = Ok (join_lines lines))
    by (unfold Main.render_markdown; rewrite Hl; reflexivity).
  split; [exact Hmd|].
  rewrite (main_configured w a now date since rss_urls ics_urls Hs Hc), Hmd.
  cbn [mbind result_bind].
  split; [intros -> ->; reflexivity|].
  split; [intros e ->; reflexivity | intros e -> ->; reflexivity].
Qed.

(** A run on a feed with an entry that raises, on a file system that
    takes the report and on one that does not. *)
Lemma configured_run_reaches_write_witness :
  (exists md,
     Main.main
       (Examples.bare_utc_machine [(Examples.feed_url, Examples.leap_second_feed)] [])
       Main.default_args Examples.sample_now "2024-03-15"
     = (["[WARN] RSS fetch failed: https://example.org/feed.xml: second must be in 0..59"],
        Ok (Main.Report "reports/2024-03-15.md" md
              "Wrote reports/2024-03-15.md with 0 items."))) /\
  Main.main
    (Examples.read_only
       (Examples.bare_utc_machine [(Examples.feed_url, Examples.leap_second_feed)] []))
    Main.default_args Examples.sample_now "2024-03-15"
  = (["[WARN] RSS fetch failed: https://example.org/feed.xml: second must be in 0..59"],
     Raise (Exn "PermissionError" "[Errno 13] Permission denied: 'reports/2024-03-15.md'")).
Proof.
  split.
  - destruct (configured_run_reaches_write
                (Examples.bare_utc_machine [(Examples.feed_url, Examples.leap_second_feed)] [])
                Main.default_args Examples.sample_now "2024-03-15" Examples.sample_since
                [Examples.feed_url] []) as (md & _ & Hok & _);
      [vm_compute; reflexivity | reflexivity |].
    exists md. rewrite Hok by reflexivity. vm_compute. reflexivity.
  - destruct (configured_run_reaches_write
                (Examples.read_only
                   (Examples.bare_utc_machine
                      [(Examples.feed_url, Examples.leap_second_feed)] []))
                Main.default_args Examples.sample_now "2024-03-15" Examples.sample_since
                [Examples.feed_url] []) as (md & _ & _ & _ & Hwr);
      [vm_compute; reflexivity | reflexivity |].
    rewrite (Hwr (Exn "PermissionError"
                    "[Errno 13] Permission denied: 'reports/2024-03-15.md'"))
      by reflexivity.
    vm_compute. reflexivity.
Defined.

(** X12. When no configured source yields an item, each fetch
    returning the empty list (as [fetch_rss] does for a feed that
    feedparser could not download) or raising, and also when no source
    is configured, a run that can write its report writes the title and
    the two sections, each with its line that says there is nothing, and
    prints the count 0. It prints one warning for each source whose
    fetch raised, and none for the others. *)
Theorem no_item_run_writes_placeholders
  (w : World) (a : Main.args) (now : datetime) (date : string)
  (since : datetime) (rss_urls ics_urls : list string) :
  Main.since_of now (Main.arg_since a) = Ok since ->
  read_feeds w (Main.arg_feeds a) = Ok (rss_urls, ics_urls) ->
  (forall u, u ∈ rss_urls ->
     Main.fetch_rss w u = Ok [] \/ is_ok (Main.fetch_rss w u) = false) ->
  (forall u, u ∈ ics_urls ->
     Main.fetch_ics w u = Ok [] \/ is_ok (Main.fetch_ics w u) = false) ->
  os_makedirs w (Main.arg_reports_dir a) = Ok tt ->
  write_text w None (os_path_join (Main.arg_reports_dir a) (date +:+ ".md"))
    (join_lines
       ["# Massachusetts Policy Feed — " +:+ date;
        EmptyString;
        "## Press Releases";
        "> No new items in the last 24 hours.";
        EmptyString;
        "## Hearings & Meetings";
        "> No events starting in the last 24 hours.";
        EmptyString]) = Ok tt ->
  Main.main w a now date
  = (omap (fun u => match Main.fetch_rss w u with
                    | Ok _ => None
                    | Raise e => Some (Main.warning "RSS" u e)
                    end) rss_urls
     ++ omap (fun u => match Main.fetch_ics w u with
                       | Ok _ => None
                       | Raise e => Some (Main.warning "ICS" u e)
                       end) ics_urls,
     Ok (Main.Report (os_path_join (Main.arg_reports_dir a) (date +:+ ".md"))
           (join_lines
              ["# Massachusetts Policy Feed — " +:+ date;
               EmptyString;
               "## Press Releases";
               "> No new items in the last 24 hours.";
               EmptyString;
               "## Hearings & Meetings";
               "> No events starting in the last 24 hours.";
               EmptyString])
           ("Wrote " +:+ os_path_join (Main.arg_reports_dir a) (date +:+ ".md")
            +:+ " with 0 items."))).
Proof.
  intros Hs Hc Hrss Hics Hmk Hwr.
  destruct (sources_without_items (Main.fetch_rss w) "RSS" since rss_urls Hrss) as [Ir Wr].
  destruct (sources_without_items (Main.fetch_ics w) "ICS" since ics_urls Hics) as [Ii Wi].
  rewrite (main_configured w a now date since rss_urls ics_urls Hs Hc).
  rewrite collect_by_source. cbn [fst snd]. rewrite Ir, Ii, Wr, Wi.
  cbn [app length Main.render_markdown]. unfold Main.render_markdown.
  cbn [Main.render_lines filter list_filter Main.rss_section Main.ics_section
       mbind result_bind app].
  rewrite Hmk. cbn [mbind result_bind]. rewrite Hwr. reflexivity.
Qed.

(** A run on a feed that is down and a calendar out of reach. *)
Lemma no_item_run_writes_placeholders_witness :
  Main.main
    (with_sources Examples.feed_down_machine [Examples.down_url] [Examples.missing_url])
    Main.default_args Examples.sample_now "2024-03-15"
  = (["[WARN] ICS fetch failed: https://example.org/missing.xml: cannot reach https://example.org/missing.xml"],
     Ok (Main.Report "reports/2024-03-15.md"
           (join_lines
              ["# Massachusetts Policy Feed — 2024-03-15";
               EmptyString;
               "## Press Releases";
               "> No new items in the last 24 hours.";
               EmptyString;
               "## Hearings & Meetings";
               "> No events starting in the last 24 hours.";
               EmptyString])
           "Wrote reports/2024-03-15.md with 0 items.")).
Proof.
  rewrite (no_item_run_writes_placeholders
             (with_sources Examples.feed_down_machine [Examples.down_url]
                [Examples.missing_url])
             Main.default_args Examples.sample_now "2024-03-15" Examples.sample_since
             [Examples.down_url] [Examples.missing_url]).
  - vm_compute. reflexivity.
  - vm_compute. reflexivity.
  - reflexivity.
  - intros u Hu. apply list_elem_of_singleton in Hu as ->. left. vm_compute. reflexivity.
  - intros u Hu. apply list_elem_of_singleton in Hu as ->. right. vm_compute. reflexivity.
  - reflexivity.
  - reflexivity.
Defined.

(** X13. The time of a bullet. For an instant in UTC, [iso_ny] never
    raises. With a tz database and a conversion that stays within the
    range of [datetime], it prints the New York wall clock of that same
    instant; otherwise, without the database or when the conversion
    overflows, it prints the UTC wall clock followed by " UTC". *)
Theorem iso_ny_new_york_or_utc (w : World) (u : datetime) :
  normalized_utc u ->
  (exists ny r,
     zoneinfo w "America/New_York" = Some ny /\
     astimezone (local_zone w) ny u = Ok r /\
     utcoffset r = Some (offset_at_utc ny (wall u)) /\
     instant r = instant u /\
     Main.iso_ny w u = Ok (strftime_ymd_hm r)) \/
  ((zoneinfo w "America/New_York" = None \/
    exists ny, zoneinfo w "America/New_York" = Some ny /\
               is_ok (astimezone (local_zone w) ny u) = false) /\
   Main.iso_ny w u = Ok (strftime_ymd_hm u +:+ " UTC")).
Proof.
  intros N. pose proof (astimezone_utc_normalized (local_zone w) u N) as Hutc.
  unfold Main.iso_ny, Main.iso_ny_zoneinfo.
  destruct (zoneinfo w "America/New_York") as [ny|] eqn:Hz.
  - destruct (astimezone (local_zone w) ny u) as [r|e] eqn:Hr; cbn [mbind result_bind].
    + left. exists ny, r. split; [reflexivity|]. split; [exact Hr|].
      destruct (astimezone_Ok w ny u r Hr) as [Ho Hw].
      destruct N as [Hoff _]. rewrite Hoff in Ho, Hw. cbn in Ho, Hw.
      replace (wall u - 0) with (wall u) in * by lia.
      split; [exact Ho|]. split; [|reflexivity].
      unfold instant. rewrite Ho, Hoff. cbn. lia.
    + right. split; [right; exists ny; split; [reflexivity | rewrite Hr; reflexivity]|].
      rewrite Hutc. reflexivity.
  - right. split; [left; reflexivity|]. rewrite Hutc. reflexivity.
Qed.

(** 12:00 UTC on 2024-03-15, with and without the tz database. *)
Lemma iso_ny_new_york_or_utc_witness :
  normalized_utc (Datetime (Examples.at_hour (ymd2ord 2024 3 15) 12) UTC) /\
  Main.iso_ny (Examples.new_york_machine [] [])
    (Datetime (Examples.at_hour (ymd2ord 2024 3 15) 12) UTC) = Ok "2024-03-15 08:00" /\
  Main.iso_ny (Examples.bare_utc_machine [] [])
    (Datetime (Examples.at_hour (ymd2ord 2024 3 15) 12) UTC) = Ok "2024-03-15 12:00 UTC".
Proof.
  assert (N : normalized_utc (Datetime (Examples.at_hour (ymd2ord 2024 3 15) 12) UTC))
    by (split; reflexivity).
  split; [exact N|]. split.
  - destruct (iso_ny_new_york_or_utc (Examples.new_york_machine [] []) _ N)
      as [(ny & r & Hz & Hr & _ & _ & ->) | [[Hz | (ny & Hz & Hr)] _]].
    + injection Hz as <-. vm_compute in Hr. injection Hr as <-. vm_compute. reflexivity.
    + discriminate Hz.
    + injection Hz as <-. vm_compute in Hr. discriminate Hr.
  - destruct (iso_ny_new_york_or_utc (Examples.bare_utc_machine [] []) _ N)
      as [(ny & r & Hz & _) | [_ ->]].
    + discriminate Hz.
    + vm_compute. reflexivity.
Defined.

(** * Further facts: the RSS-only variant *)

Section VariantRun.
Variable w : World.

Lemma for_each_first_raise {X Y} (f : X -> result Y) pre x post e :
  (forall v, v ∈ pre -> is_ok (f v) = true) -> f x = Raise e ->
  for_each f (pre ++ x :: post) = Raise e.
Proof.
  intros Hpre Hx. rewrite for_each_app.
  destruct (for_each_total f pre) as [ys Hys].
  { intros v Hv. specialize (Hpre v Hv). destruct (f v) as [y|]; [eauto | discriminate]. }
  rewrite Hys. cbn [mbind result_bind for_each]. rewrite Hx. reflexivity.
Qed.

Lemma feed_items_raise since u e :
  feedparser_parse w u = Raise e -> RssOnly.feed_items w since u = Raise e.
Proof. intros H. unfold RssOnly.feed_items. rewrite H. reflexivity. Qed.

(** What the variant builds from an entry that it does not skip. *)
Lemma entry_item_kept since source e it :
  RssOnly.entry_item w since source e = Ok (Some it) ->
  exists dt t l,
    RssOnly.parse_dt e = Ok (Some dt) /\
    astimezone (local_zone w) utc_zone
      (match utcoffset dt with None => replace_tzinfo dt UTC | Some _ => dt end)
    = Ok (RssOnly.it_when it) /\
    dt_lt (RssOnly.it_when it) since = Ok false /\
    py_strip (RssOnly.get_or_empty e "title") = Ok t /\
    py_strip (RssOnly.get_or_empty e "link") = Ok l /\
    it = RssOnly.Item (RssOnly.it_when it) (or_else t "(no title)") l source.
Proof.
  unfold RssOnly.entry_item. intros H.
  apply bind_Ok_inv in H as ([dt|] & Hp & H); [|discriminate].
  apply bind_Ok_inv in H as (dt_utc & Hu & H).
  apply bind_Ok_inv in H as ([|] & Hold & H); [discriminate|].
  apply bind_Ok_inv in H as (t & Ht & H).
  apply bind_Ok_inv in H as (l & Hl & H).
  destruct (negb _); [discriminate|]. injection H as <-.
  exists dt, t, l. cbn [RssOnly.it_when]. repeat split; assumption.
Qed.

Lemma text_candidate_frame (e : gmap string pyobj) key v keys :
  key ∉ keys ->
  RssOnly.text_candidate (<[key := v]> e) keys = RssOnly.text_candidate e keys.
Proof.
  induction keys as [|k keys IH]; intros Hk; [reflexivity|].
  apply not_elem_of_cons in Hk as [Hne Hk].
  cbn [RssOnly.text_candidate]. rewrite lookup_insert_ne by exact Hne.
  rewrite IH by exact Hk. reflexivity.
Qed.

End VariantRun.

(** X14. The variant has no handler around its fetch: when
    [feedparser.parse] raises for one of the configured feeds, the run
    ends with an exception and writes no report, whatever the other
    feeds hold. The exception is that of the first such feed when the
    feeds before it went through. *)
Theorem variant_run_stops_at_failing_feed
  (w : World) (u : string) (e : exn) (urls : list string) :
  u ∈ urls ->
  feedparser_parse w u = Raise e ->
  (forall since, exists e', RssOnly.collect w since urls = Raise e') /\
  (forall since pre post,
     urls = pre ++ u :: post ->
     (forall v, v ∈ pre -> is_ok (RssOnly.feed_items w since v) = true) ->
     RssOnly.collect w since urls = Raise e) /\
  (forall ics_urls env now date,
     exists e', RssOnly.main (with_sources w urls ics_urls) env now date = Raise e').
Proof.
  intros Hin Hu.
  assert (Hc : forall since, exists e', RssOnly.collect w since urls = Raise e').
  { intros since.
    destruct (for_each_raise (RssOnly.feed_items w since) urls u e Hin
                (feed_items_raise w since u e Hu)) as [e' He'].
    exists e'. unfold RssOnly.collect. rewrite He'. reflexivity. }
  split; [exact Hc|]. split.
  - intros since pre post -> Hpre. unfold RssOnly.collect.
    rewrite (for_each_first_raise (RssOnly.feed_items w since) pre u post e Hpre
               (feed_items_raise w since u e Hu)).
    reflexivity.
  - intros ics_urls env now date. unfold RssOnly.main.
    destruct (RssOnly.WINDOW_HOURS env) as [hours|e1]; [|eexists; reflexivity].
    cbn [mbind result_bind].
    destruct (sub_timedelta now (timedelta_hours hours)) as [since|e2];
      [|eexists; reflexivity].
    cbn [mbind result_bind RssOnly.load_feeds read_feeds with_sources fst].
    destruct urls as [|u0 urls']; [apply elem_of_nil in Hin; contradiction|].
    destruct (Hc since) as [e' He'].
    change (RssOnly.collect (with_sources w (u0 :: urls') ics_urls) since (u0 :: urls'))
      with (RssOnly.collect w since (u0 :: urls')).
    rewrite He'. eexists. reflexivity.
Qed.

(** A good feed followed by one out of reach. *)
Lemma variant_run_stops_at_failing_feed_witness :
  RssOnly.collect (Examples.bare_utc_machine [(Examples.feed_url, Examples.busy_feed)] [])
    Examples.sample_since ([Examples.feed_url] ++ Examples.missing_url :: [])
  = Raise (Exn "ConnectionError" "cannot reach https://example.org/missing.xml").
Proof.
  destruct (variant_run_stops_at_failing_feed
              (Examples.bare_utc_machine [(Examples.feed_url, Examples.busy_feed)] [])
              Examples.missing_url
              (Exn "ConnectionError" "cannot reach https://example.org/missing.xml")
              ([Examples.feed_url] ++ Examples.missing_url :: []))
    as (_ & Hfirst & _).
  - right. left.
  - reflexivity.
  - apply (Hfirst Examples.sample_since [Examples.feed_url] []); [reflexivity|].
    intros v Hv. apply list_elem_of_singleton in Hv as ->. vm_compute. reflexivity.
Defined.

(** X15. The keyword test of the variant keeps everything. The summary
    of an entry has no influence on what becomes of it; and an entry is
    skipped for two reasons only: it has no date, or its date is older
    than the start of the window. *)
Theorem variant_keyword_filter_keeps_all
  (w : World) (since : datetime) (source : string) (e : gmap string pyobj) :
  (forall v, RssOnly.entry_item w since source (<["summary" := v]> e)
             = RssOnly.entry_item w since source e) /\
  (RssOnly.entry_item w since source e = Ok None ->
   RssOnly.parse_dt e = Ok None \/
   exists dt dt_utc,
     RssOnly.parse_dt e = Ok (Some dt) /\
     astimezone (local_zone w) utc_zone
       (match utcoffset dt with None => replace_tzinfo dt UTC | Some _ => dt end)
     = Ok dt_utc /\
     dt_lt dt_utc since = Ok true).
Proof.
  split.
  - intros v.
    assert (Hp : RssOnly.parse_dt (<["summary" := v]> e) = RssOnly.parse_dt e).
    { unfold RssOnly.parse_dt, RssOnly.has_truthy.
      rewrite text_candidate_frame
        by (unfold RssOnly.text_keys; rewrite !not_elem_of_cons;
            repeat split; try discriminate; apply not_elem_of_nil).
      rewrite !lookup_insert_ne by discriminate. reflexivity. }
    unfold RssOnly.entry_item. rewrite Hp.
    destruct (RssOnly.parse_dt e) as [[dt|]|]; cbn [mbind result_bind]; try reflexivity.
    destruct (astimezone _ _ _) as [dt_utc|]; cbn [mbind result_bind]; [|reflexivity].
    destruct (dt_lt dt_utc since) as [[|]|]; cbn [mbind result_bind]; try reflexivity.
    unfold RssOnly.get_or_empty.
    rewrite (lookup_insert_ne e "summary" "title" v) by discriminate.
    rewrite (lookup_insert_ne e "summary" "link" v) by discriminate.
    destruct (py_strip _) as [t|]; cbn [mbind result_bind]; [|reflexivity].
    destruct (py_strip _) as [l|]; cbn [mbind result_bind]; [|reflexivity].
    rewrite !orb_true_r. reflexivity.
  - unfold RssOnly.entry_item. intros H.
    destruct (RssOnly.parse_dt e) as [[dt|]|]; cbn [mbind result_bind] in H;
      [|left; reflexivity|discriminate].
    right. exists dt.
    destruct (astimezone _ _ _) as [dt_utc|]; cbn [mbind result_bind] in H; [|discriminate].
    exists dt_utc. split; [reflexivity|]. split; [reflexivity|].
    destruct (dt_lt dt_utc since) as [[|]|]; cbn [mbind result_bind] in H;
      [reflexivity| |discriminate].
    destruct (py_strip (RssOnly.get_or_empty e "title")) as [t|];
      cbn [mbind result_bind] in H; [|discriminate].
    destruct (py_strip (RssOnly.get_or_empty e "link")) as [l|];
      cbn [mbind result_bind] in H; [|discriminate].
    rewrite orb_true_r in H. discriminate H.
Qed.

(** An entry of the morning, seen from a window that opens at noon. *)
Lemma variant_keyword_filter_keeps_all_witness :
  RssOnly.entry_item (Examples.bare_utc_machine [] [])
    (Datetime (Examples.at_hour (ymd2ord 2024 3 15) 12) UTC) "Mass.gov news"
    (Examples.dated_entry "Morning notice" "2024-03-15T08:00:00+00:00") = Ok None /\
  (RssOnly.parse_dt (Examples.dated_entry "Morning notice" "2024-03-15T08:00:00+00:00")
   = Ok None \/
   exists dt dt_utc,
     RssOnly.parse_dt (Examples.dated_entry "Morning notice" "2024-03-15T08:00:00+00:00")
     = Ok (Some dt) /\
     astimezone (local_zone (Examples.bare_utc_machine [] [])) utc_zone
       (match utcoffset dt with None => replace_tzinfo dt UTC | Some _ => dt end)
     = Ok dt_utc /\
     dt_lt dt_utc (Datetime (Examples.at_hour (ymd2ord 2024 3 15) 12) UTC) = Ok true).
Proof.
  assert (H : RssOnly.entry_item (Examples.bare_utc_machine [] [])
                (Datetime (Examples.at_hour (ymd2ord 2024 3 15) 12) UTC) "Mass.gov news"
                (Examples.dated_entry "Morning notice" "2024-03-15T08:00:00+00:00")
              = Ok None) by (vm_compute; reflexivity).
  split; [exact H|].
  destruct (variant_keyword_filter_keeps_all (Examples.bare_utc_machine [] [])
              (Datetime (Examples.at_hour (ymd2ord 2024 3 15) 12) UTC) "Mass.gov news"
              (Examples.dated_entry "Morning notice" "2024-03-15T08:00:00+00:00"))
    as [_ Hskip].
  exact (Hskip H).
Defined.

(** X16. What the variant lists. For an aware start [since] of the
    window, every item of the sorted list has a UTC timestamp that is not
    older than [since], a title that is not empty, and a title and a link
    without white space at either end. *)
Theorem variant_items_in_window
  (w : World) (since : datetime) (o : Z) (urls : list string)
  (items : list RssOnly.item) :
  utcoffset since = Some o ->
  RssOnly.collect w since urls = Ok items ->
  Forall (fun it =>
            utcoffset (RssOnly.it_when it) = UTC /\
            instant since <= instant (RssOnly.it_when it) /\
            RssOnly.it_title it <> EmptyString /\
            strip (RssOnly.it_title it) = RssOnly.it_title it /\
            strip (RssOnly.it_link it) = RssOnly.it_link it)
         items.
Proof.
  intros Hs H. unfold RssOnly.collect in H.
  apply bind_Ok_inv in H as (per_url & Hp & H). injection H as <-.
  apply Forall_forall. intros it Hit. apply elem_of_sorted_reverse in Hit.
  revert it Hit. apply Forall_forall, Forall_concat, Forall_forall.
  intros fetched Hf. apply Forall_forall. intros it Hit.
  apply for_each_Ok in Hp.
  apply list_elem_of_lookup in Hf as [i Hi].
  destruct (Forall2_lookup_r _ _ _ _ _ Hp Hi) as (url & _ & Hu).
  unfold RssOnly.feed_items in Hu.
  apply bind_Ok_inv in Hu as (fp & _ & Hu).
  apply bind_Ok_inv in Hu as (source & _ & Hu).
  apply bind_Ok_inv in Hu as (rs & Hrs & Hu). injection Hu as <-.
  destruct (for_each_appended_elem _ _ _ _ Hrs Hit) as (e & _ & He).
  destruct (entry_item_kept w since source e it He)
    as (dt & t & l & _ & Hu & Hold & Ht & Hl & Eit).
  destruct (astimezone_utc_Ok _ _ _ Hu) as [[Hoff _] _].
  rewrite (dt_lt_aware _ _ 0 o Hoff Hs) in Hold. injection Hold as Hold.
  apply bool_decide_eq_false in Hold.
  apply py_strip_stripped in Ht. apply py_strip_stripped in Hl.
  rewrite Eit. cbn [RssOnly.it_when RssOnly.it_title RssOnly.it_link].
  split; [exact Hoff|]. split; [lia|].
  split; [apply or_else_nonempty; discriminate|].
  split; [apply or_else_stripped; [exact Ht | reflexivity] | exact Hl].
Qed.

(** The busy feed, seen from a window that opens at 09:00. *)
Lemma variant_items_in_window_witness :
  RssOnly.collect (Examples.bare_utc_machine [(Examples.feed_url, Examples.busy_feed)] [])
    (Datetime (Examples.at_hour (ymd2ord 2024 3 15) 9) UTC) [Examples.feed_url]
  = Ok [RssOnly.Item (Datetime (Examples.at_hour (ymd2ord 2024 3 15) 10) UTC)
          "First at ten" "https://example.org/notice" "Mass.gov news";
        RssOnly.Item (Datetime (Examples.at_hour (ymd2ord 2024 3 15) 10) UTC)
          "Second at ten" "https://example.org/notice" "Mass.gov news"] /\
  Forall (fun it =>
            instant (Datetime (Examples.at_hour (ymd2ord 2024 3 15) 9) UTC)
            <= instant (RssOnly.it_when it))
    [RssOnly.Item (Datetime (Examples.at_hour (ymd2ord 2024 3 15) 10) UTC)
       "First at ten" "https://example.org/notice" "Mass.gov news";
     RssOnly.Item (Datetime (Examples.at_hour (ymd2ord 2024 3 15) 10) UTC)
       "Second at ten" "https://example.org/notice" "Mass.gov news"].
Proof.
  assert (H : RssOnly.collect
                (Examples.bare_utc_machine [(Examples.feed_url, Examples.busy_feed)] [])
                (Datetime (Examples.at_hour (ymd2ord 2024 3 15) 9) UTC) [Examples.feed_url]
              = Ok [RssOnly.Item (Datetime (Examples.at_hour (ymd2ord 2024 3 15) 10) UTC)
                      "First at ten" "https://example.org/notice" "Mass.gov news";
                    RssOnly.Item (Datetime (Examples.at_hour (ymd2ord 2024 3 15) 10) UTC)
                      "Second at ten" "https://example.org/notice" "Mass.gov news"])
    by (vm_compute; reflexivity).
  split; [exact H|].
  eapply Forall_impl;
    [exact (variant_items_in_window
              (Examples.bare_utc_machine [(Examples.feed_url, Examples.busy_feed)] [])
              (Datetime (Examples.at_hour (ymd2ord 2024 3 15) 9) UTC) 0
              [Examples.feed_url] _ eq_refl H)|].
  intros it (_ & Hw & _). exact Hw.
Defined.

(** * Further facts: titles and the order of the sources *)

Section TitleFacts.

Lemma lstrip_chars_elem l x : x ∈ lstrip_chars l -> x ∈ l.
Proof.
  destruct (lstrip_chars_split l) as [sp E]. intros H. rewrite E.
  apply elem_of_app. right. exact H.
Qed.

Lemma rstrip_chars_elem l x : x ∈ rstrip_chars l -> x ∈ l.
Proof.
  destruct (rstrip_chars_split l) as [sp E]. intros H. rewrite E.
  apply elem_of_app. left. exact H.
Qed.

Lemma strip_elem s x : x ∈ chars (strip s) -> x ∈ chars s.
Proof.
  unfold strip. rewrite chars_str. intros H.
  apply lstrip_chars_elem, rstrip_chars_elem. exact H.
Qed.

Lemma replace_newlines_free s : newline ∉ chars (replace_newlines s).
Proof.
  unfold replace_newlines. rewrite chars_str.
  induction (chars s) as [|c l IH]; [apply not_elem_of_nil|].
  cbn [map]. apply not_elem_of_cons. split; [|exact IH].
  destruct (Ascii.eqb_spec c newline) as [->|Hne]; [discriminate | congruence].
Qed.

Lemma replace_newlines_id s : newline ∉ chars s -> replace_newlines s = s.
Proof.
  unfold replace_newlines. intros H. rewrite <- (str_chars s) at 2. f_equal.
  induction (chars s) as [|c l IH]; [reflexivity|].
  apply not_elem_of_cons in H as [Hc Hl]. cbn [map].
  rewrite IH by exact Hl.
  destruct (Ascii.eqb_spec c newline) as [->|_]; [congruence | reflexivity].
Qed.

Lemma concat_map_perm {A B} (f : A -> list B) (l l' : list A) :
  l ≡ₚ l' -> concat (map f l) ≡ₚ concat (map f l').
Proof.
  induction 1 as [|x l l' _ IH|x y l|l l' l'' _ IH1 _ IH2]; cbn [map concat].
  - reflexivity.
  - rewrite IH. reflexivity.
  - rewrite !app_assoc. apply Permutation_app_tail, Permutation_app_comm.
  - etransitivity; eassumption.
Qed.

End TitleFacts.

(** X17. The title of a bullet is on one line and has no white space at
    either end: [render_markdown] replaces the line feeds of the title by
    spaces and strips the result. A title that has no line feed and no
    white space at its ends is printed as it is. *)
Theorem bullet_title_on_one_line
  (w : World) (it : Main.item) (d : datetime) (t : string) :
  fromisoformat (Main.it_dt it) = Ok d ->
  Main.iso_ny w d = Ok t ->
  exists title,
    Main.rss_bullet w it
    = Ok ("- **" +:+ t +:+ "** — [" +:+ title +:+ "](" +:+ Main.it_link it +:+ ")  _"
          +:+ Main.it_source it +:+ "_") /\
    (Main.it_link it <> EmptyString ->
     Main.ics_bullet w it
     = Ok ("- **" +:+ t +:+ "** — [" +:+ title +:+ "](" +:+ Main.it_link it +:+ ")  _"
           +:+ Main.it_source it +:+ "_")) /\
    (Main.it_link it = EmptyString ->
     Main.ics_bullet w it
     = Ok ("- **" +:+ t +:+ "** — " +:+ title +:+ "  _" +:+ Main.it_source it +:+ "_")) /\
    (newline ∉ chars title) /\
    strip title = title /\
    ((newline ∉ chars (Main.it_title it)) ->
     strip (Main.it_title it) = Main.it_title it ->
     title = Main.it_title it).
Proof.
  intros Hd Ht. exists (strip (replace_newlines (Main.it_title it))).
  split; [apply (rss_bullet_hyperlink w it d t); assumption|].
  split; [intros Hl; apply (ics_bullet_hyperlink w it d t); assumption|].
  split; [intros Hl; apply (ics_bullet_plain w it d t); assumption|].
  split.
  - intros H. apply strip_elem in H. exact (replace_newlines_free _ H).
  - split; [apply strip_idem|].
    intros Hn Hs. rewrite (replace_newlines_id _ Hn). exact Hs.
Qed.

(** A title of two lines. *)
Lemma bullet_title_on_one_line_witness :
  Main.rss_bullet (Examples.bare_utc_machine [] [])
    (Main.Item "rss" "Mass.gov news" (String newline "Budget" +:+ String newline "hearing ")
       "https://example.org/budget" "2024-03-15T10:00:00+00:00")
  = Ok "- **2024-03-15 10:00 UTC** — [Budget hearing](https://example.org/budget)  _Mass.gov news_" /\
  exists title,
    Main.rss_bullet (Examples.bare_utc_machine [] [])
      (Main.Item "rss" "Mass.gov news" (String newline "Budget" +:+ String newline "hearing ")
         "https://example.org/budget" "2024-03-15T10:00:00+00:00")
    = Ok ("- **" +:+ "2024-03-15 10:00 UTC" +:+ "** — [" +:+ title +:+ "]("
          +:+ "https://example.org/budget" +:+ ")  _" +:+ "Mass.gov news" +:+ "_") /\
    (newline ∉ chars title) /\ strip title = title.
Proof.
  split; [vm_compute; reflexivity|].
  destruct (bullet_title_on_one_line (Examples.bare_utc_machine [] [])
              (Main.Item "rss" "Mass.gov news"
                 (String newline "Budget" +:+ String newline "hearing ")
                 "https://example.org/budget" "2024-03-15T10:00:00+00:00")
              (Datetime (Examples.at_hour (ymd2ord 2024 3 15) 10) UTC)
              "2024-03-15 10:00 UTC") as (title & Hb & _ & _ & Hn & Hs & _);
    [vm_compute; reflexivity | vm_compute; reflexivity |].
  exists title. split; [exact Hb|]. split; assumption.
Defined.

(** X18. The order in which the configuration lists its sources decides
    nothing but the order of arrival: listing the feeds or the calendars
    in another order gives the same items and the same warnings, each as
    often as before. *)
Theorem source_order_irrelevant
  (w : World) (since : datetime) (rss_urls rss_urls' ics_urls ics_urls' : list string) :
  rss_urls ≡ₚ rss_urls' ->
  ics_urls ≡ₚ ics_urls' ->
  (Main.collect w since rss_urls ics_urls).1
    ≡ₚ (Main.collect w since rss_urls' ics_urls').1 /\
  (Main.collect w since rss_urls ics_urls).2
    ≡ₚ (Main.collect w since rss_urls' ics_urls').2.
Proof.
  intros Hr Hi. rewrite !collect_by_source. cbn [fst snd].
  split; apply Permutation_app; apply concat_map_perm; assumption.
Qed.

(** The busy feed and a feed out of reach, in both orders. *)
Lemma source_order_irrelevant_witness :
  (Main.collect (Examples.bare_utc_machine [(Examples.feed_url, Examples.busy_feed)] [])
     Examples.sample_since [Examples.missing_url; Examples.feed_url] []).1
    ≡ₚ (Main.collect (Examples.bare_utc_machine [(Examples.feed_url, Examples.busy_feed)] [])
          Examples.sample_since [Examples.feed_url; Examples.missing_url] []).1.
Proof.
  apply (source_order_irrelevant
           (Examples.bare_utc_machine [(Examples.feed_url, Examples.busy_feed)] [])
           Examples.sample_since [Examples.missing_url; Examples.feed_url]
           [Examples.feed_url; Examples.missing_url] [] []).
  - apply perm_swap.
  - reflexivity.
Defined.

(** * Further facts: a source whose fetch raises *)

(** X19. A source whose fetch raises costs a run one warning and
    nothing else. Let [u] be an ICS URL for which [fetch_ics] raises [e]
    (as [requests] and [raise_for_status] do for a host out of reach, a
    timeout or a status that is not 2xx), or an RSS URL for which
    [fetch_rss] does: the items collected from the sources with [u] among
    them are the items collected without it; the lines on [sys.stderr]
    are those of the run without [u] with the line
    "[WARN] ICS fetch failed: u: e" (or "RSS") added in the place of [u];
    and the run ends as the run without [u] ends, with the same report or
    the same exception. *)
Theorem failed_source_costs_one_warning (w : World) (u : string) (e : exn) :
  Main.warning "RSS" u e = "[WARN] RSS fetch failed: " +:+ u +:+ ": " +:+ exn_msg e /\
  Main.warning "ICS" u e = "[WARN] ICS fetch failed: " +:+ u +:+ ": " +:+ exn_msg e /\
  (Main.fetch_rss w u = Raise e ->
   forall rss1 rss2 ics_urls a now date since,
     Main.since_of now (Main.arg_since a) = Ok since ->
     (Main.collect w since (rss1 ++ u :: rss2) ics_urls).1
     = (Main.collect w since (rss1 ++ rss2) ics_urls).1 /\
     (Main.main (with_sources w (rss1 ++ u :: rss2) ics_urls) a now date).2
     = (Main.main (with_sources w (rss1 ++ rss2) ics_urls) a now date).2 /\
     exists before after,
       (Main.main (with_sources w (rss1 ++ rss2) ics_urls) a now date).1
       = before ++ after /\
       (Main.main (with_sources w (rss1 ++ u :: rss2) ics_urls) a now date).1
       = before ++ Main.warning "RSS" u e :: after) /\
  (Main.fetch_ics w u = Raise e ->
   forall rss_urls ics1 ics2 a now date since,
     Main.since_of now (Main.arg_since a) = Ok since ->
     (Main.collect w since rss_urls (ics1 ++ u :: ics2)).1
     = (Main.collect w since rss_urls (ics1 ++ ics2)).1 /\
     (Main.main (with_sources w rss_urls (ics1 ++ u :: ics2)) a now date).2
     = (Main.main (with_sources w rss_urls (ics1 ++ ics2)) a now date).2 /\
     exists before after,
       (Main.main (with_sources w rss_urls (ics1 ++ ics2)) a now date).1
       = before ++ after /\
       (Main.main (with_sources w rss_urls (ics1 ++ u :: ics2)) a now date).1
       = before ++ Main.warning "ICS" u e :: after).
Proof.
  split; [reflexivity|]. split; [reflexivity|]. split.
  - intros H rss1 rss2 ics_urls a now date since Hs.
    destruct (collect_rss_failure w since rss1 u rss2 ics_urls e H)
      as (Hitems & before & after & Hwithout & Hwith).
    rewrite !(main_with_sources w _ _ a now date since Hs). cbn [fst snd].
    split; [exact Hitems|]. split; [rewrite Hitems; reflexivity|].
    exists before, after. split; assumption.
  - intros H rss_urls ics1 ics2 a now date since Hs.
    destruct (collect_ics_failure w since rss_urls ics1 u ics2 e H)
      as (Hitems & before & after & Hwithout & Hwith).
    rewrite !(main_with_sources w _ _ a now date since Hs). cbn [fst snd].
    split; [exact Hitems|]. split; [rewrite Hitems; reflexivity|].
    exists before, after. split; assumption.
Qed.

(** A run on the busy feed and a calendar out of reach writes the report
    of the run on the feed alone. *)
Lemma failed_source_costs_one_warning_witness :
  Main.fetch_ics
    (Examples.bare_utc_machine [(Examples.feed_url, Examples.busy_feed)] [])
    Examples.missing_url
  = Raise (Exn "ConnectionError" "cannot reach https://example.org/missing.xml") /\
  Main.since_of Examples.sample_now "24h" = Ok Examples.sample_since /\
  (Main.main
     (with_sources (Examples.bare_utc_machine [(Examples.feed_url, Examples.busy_feed)] [])
        [Examples.feed_url] ([] ++ Examples.missing_url :: []))
     Main.default_args Examples.sample_now "2024-03-15").2
  = (Main.main
       (with_sources (Examples.bare_utc_machine [(Examples.feed_url, Examples.busy_feed)] [])
          [Examples.feed_url] ([] ++ []))
       Main.default_args Examples.sample_now "2024-03-15").2 /\
  exists before after,
    (Main.main
       (with_sources (Examples.bare_utc_machine [(Examples.feed_url, Examples.busy_feed)] [])
          [Examples.feed_url] ([] ++ []))
       Main.default_args Examples.sample_now "2024-03-15").1 = before ++ after /\
    (Main.main
       (with_sources (Examples.bare_utc_machine [(Examples.feed_url, Examples.busy_feed)] [])
          [Examples.feed_url] ([] ++ Examples.missing_url :: []))
       Main.default_args Examples.sample_now "2024-03-15").1
    = before ++ Main.warning "ICS" Examples.missing_url
                  (Exn "ConnectionError" "cannot reach https://example.org/missing.xml")
                :: after.
Proof.
  assert (H : Main.fetch_ics
                (Examples.bare_utc_machine [(Examples.feed_url, Examples.busy_feed)] [])
                Examples.missing_url
              = Raise (Exn "ConnectionError" "cannot reach https://example.org/missing.xml"))
    by (vm_compute; reflexivity).
  assert (Hs : Main.since_of Examples.sample_now (Main.arg_since Main.default_args)
               = Ok Examples.sample_since)
    by (vm_compute; reflexivity).
  split; [exact H|]. split; [exact Hs|].
  destruct (failed_source_costs_one_warning
              (Examples.bare_utc_machine [(Examples.feed_url, Examples.busy_feed)] [])
              Examples.missing_url
              (Exn "ConnectionError" "cannot reach https://example.org/missing.xml"))
    as (_ & _ & _ & Hics).
  destruct (Hics H [Examples.feed_url] [] [] Main.default_args Examples.sample_now
              "2024-03-15" Examples.sample_since Hs) as (_ & Hrun & Herr).
  split; [exact Hrun | exact Herr].
Defined.
